(** * Layout and step-sequencing engine of the Manim diagram generators

    The repository's four generators (HTTP flow, DNS resolution, data
    structure, process flow) each have a [generate_script] method that fills
    an f-string template with the request parameters; the template is the
    source of a Manim scene whose methods compute the layout and the step
    sequence.  Two layers are therefore embedded here:

    - the generator layer: [generate_script], the evaluation of the
      replacement fields of the f-string in the order of the template, over
      the local variables of the method (module [Gen] and the
      [generate_script] of each family);
    - the scene layer: the methods of the emitted scene class, transcribed
      from the template after f-string unescaping (a doubled brace in the
      template is one brace in the scene source).  The scene has the
      names that its two imports bind: [from manim import *] gives [np],
      [PI] and the Manim shapes, and nothing binds [math].

    Numbers that the scene computes with floats are kept exact in [Q];
    angles are kept as exact rational multiples of PI, and the point of a
    circle at such an angle is taken in the real numbers.  Of a drawn
    object the model keeps what the layout decides (which object, for which
    item, where) and leaves out colours, font sizes and waits. *)

From Stdlib Require Import Ascii String ZArith Reals QArith Qreals Lia Lqa.
From stdpp Require Import gmap strings list.

Set Warnings "-register-all".
Local Open Scope string_scope.
Local Open Scope list_scope.

(** ** Python values, exceptions and the few builtins the code relies on *)

Module Py.

Inductive exn : Type :=
| NameError (name : string)
| AttributeError (attr : string)
| TypeError
| IndexError
| KeyError (key : string)
| ValueError
| ZeroDivisionError.

Inductive result (A : Type) : Type :=
| Ok (a : A)
| Raise (e : exn).
Arguments Ok {A} a.
Arguments Raise {A} e.

Definition bind {A B} (m : result A) (k : A -> result B) : result B :=
  match m with
  | Ok a => k a
  | Raise e => Raise e
  end.


(** JSON-shaped values: what a request dictionary can hold.  A dictionary
    keeps its insertion order; lookup takes the first binding of a key. *)
Inductive value : Type :=
| VNone
| VBool (b : bool)
| VInt (z : Z)
| VFloat (q : Q)
| VStr (s : string)
| VList (l : list value)
| VDict (kv : list (string * value)).

Definition dict := list (string * value).

Fixpoint assoc (k : string) (d : dict) : option value :=
  match d with
  | [] => None
  | (k', v) :: rest => if String.eqb k k' then Some v else assoc k rest
  end.

(** [d.get(k, dflt)] *)
Definition get (d : dict) (k : string) (dflt : value) : value :=
  match assoc k d with
  | Some v => v
  | None => dflt
  end.

(** [d[k]] *)
Definition subscript (d : dict) (k : string) : result value :=
  match assoc k d with
  | Some v => Ok v
  | None => Raise (KeyError k)
  end.

(** [v == 'literal'] for a string literal. *)
Definition is_str (v : value) (s : string) : bool :=
  match v with
  | VStr s' => String.eqb s' s
  | _ => false
  end.

(** [v is None] *)
Definition is_none (v : value) : bool :=
  match v with
  | VNone => true
  | _ => false
  end.

(** [l[i]] on a list: a negative index counts from the end, an index out
    of range raises. *)
Definition index {A} (l : list A) (i : Z) : result A :=
  let n := Z.of_nat (length l) in
  let j := if (i <? 0)%Z then (i + n)%Z else i in
  if (j <? 0)%Z then Raise IndexError
  else match l !! Z.to_nat j with
       | Some x => Ok x
       | None => Raise IndexError
       end.

(** [l.pop()]: the list without its last item, and that item. *)
Definition pop {A} (l : list A) : result (list A * A) :=
  match last l with
  | Some x => Ok (removelast l, x)
  | None => Raise IndexError
  end.

(** [a % b] on natural numbers. *)
Definition modulo (a b : nat) : result nat :=
  if (b =? 0)%nat then Raise ZeroDivisionError else Ok (a mod b)%nat.

(** [a / b] on numbers (true division). *)
Definition truediv (a b : Q) : result Q :=
  if Qeq_bool b 0 then Raise ZeroDivisionError else Ok (a / b)%Q.

(** Truth value of a set display [{e1, ..., en}]: a set is true when it is
    not empty, whatever its elements are. *)
Definition set_display_truthy {A} (elts : list A) : bool :=
  match elts with
  | [] => false
  | _ :: _ => true
  end.

(** Truth value of a list ([if not data], [if elements]). *)
Definition list_truthy {A} (l : list A) : bool :=
  match l with
  | [] => false
  | _ :: _ => true
  end.

(** [s.split(sep)] for a one-character separator. *)
Fixpoint split (sep : ascii) (s : string) : list string :=
  match s with
  | EmptyString => [EmptyString]
  | String c rest =>
      if Ascii.eqb c sep then EmptyString :: split sep rest
      else match split sep rest with
           | h :: t => String c h :: t
           | [] => [String c EmptyString]
           end
  end.

(** [l[-1]] on a list of strings that [split] returned (never empty). *)
Definition last_item (l : list string) : string := List.last l EmptyString.

(** [s.replace(a, b)] for one-character [a] and [b]. *)
Fixpoint replace (a b : ascii) (s : string) : string :=
  match s with
  | EmptyString => EmptyString
  | String c rest => String (if Ascii.eqb c a then b else c) (replace a b rest)
  end.

(** [str.__format__]: the format-spec parser of CPython
    ([fill][align][sign][z][#][0][width][grouping][.precision][type]) and
    the rendering of a string under a parsed spec.  Error messages are not
    kept; lengths are counted in bytes. *)

Record format_spec := mkSpec {
  fill_char : ascii;
  align : option ascii;
  sign : bool;
  no_neg_0 : bool;
  alternate : bool;
  width : option nat;
  thousands : bool;
  precision : option nat;
  type : option ascii
}.

Definition is_alignment_token (c : ascii) : bool :=
  Ascii.eqb c "<" || Ascii.eqb c ">" || Ascii.eqb c "=" || Ascii.eqb c "^".

Definition is_sign_element (c : ascii) : bool :=
  Ascii.eqb c "+" || Ascii.eqb c "-" || Ascii.eqb c " ".

Definition is_digit (c : ascii) : bool :=
  (48 <=? nat_of_ascii c)%nat && (nat_of_ascii c <=? 57)%nat.

Fixpoint get_integer (l : list ascii) (acc : option nat) : option nat * list ascii :=
  match l with
  | c :: r =>
      if is_digit c
      then get_integer r (Some (10 * default 0%nat acc + (nat_of_ascii c - 48))%nat)
      else (acc, l)
  | [] => (acc, l)
  end.

(** Consume [c] when it is the next character. *)
Definition eat (c : ascii) (l : list ascii) : bool * list ascii :=
  match l with
  | c' :: r => if Ascii.eqb c' c then (true, r) else (false, l)
  | [] => (false, l)
  end.

Definition parse_format_spec (spec : list ascii) : result format_spec :=
  let '(fill, al, fill_specified, l1) :=
    match spec with
    | f :: a :: r =>
        if is_alignment_token a then (f, Some a, true, r)
        else if is_alignment_token f then (" "%char, Some f, false, a :: r)
        else (" "%char, None, false, spec)
    | [f] =>
        if is_alignment_token f then (" "%char, Some f, false, [])
        else (" "%char, None, false, spec)
    | [] => (" "%char, None, false, [])
    end in
  let '(sg, l2) :=
    match l1 with
    | c :: r => if is_sign_element c then (true, r) else (false, l1)
    | [] => (false, l1)
    end in
  let '(z, l3) := eat "z" l2 in
  let '(alt, l4) := eat "#" l3 in
  let '(zero, l5) := if fill_specified then (false, l4) else eat "0" l4 in
  let '(w, l6) := get_integer l5 None in
  let '(comma, l7) := eat "," l6 in
  let '(underscore, l8) := eat "_" l7 in
  if underscore && (comma || fst (eat "," l8)) then Raise ValueError
  else
    let '(dot, l9) := eat "." l8 in
    let '(prec, l10) := if dot then get_integer l9 None else (None, l9) in
    if dot && negb (bool_decide (is_Some prec)) then Raise ValueError
    else
      let finish (ty : option ascii) :=
        Ok {| fill_char := if zero then "0"%char else fill;
              align := al; sign := sg; no_neg_0 := z; alternate := alt;
              width := w; thousands := comma || underscore;
              precision := prec; type := ty |} in
      match l10 with
      | [] => finish None
      | [t] => finish (Some t)
      | _ :: _ :: _ => Raise ValueError     (* Invalid format specifier *)
      end.

Fixpoint repeat_char (c : ascii) (n : nat) : string :=
  match n with
  | O => EmptyString
  | S k => String c (repeat_char c k)
  end.

Definition format_str (s spec : string) : result string :=
  match spec with
  | EmptyString => Ok s
  | _ =>
      bind (parse_format_spec (list_ascii_of_string spec)) (fun f =>
        let type_ok := match type f with
                       | None => true
                       | Some t => Ascii.eqb t "s"
                       end in
        let align_eq := match align f with
                        | Some a => Ascii.eqb a "="
                        | None => false
                        end in
        if negb type_ok || thousands f || sign f || no_neg_0 f || alternate f || align_eq
        then Raise ValueError
        else
          let body := match precision f with
                      | Some p => String.substring 0 p s
                      | None => s
                      end in
          let len := String.length body in
          let total := match width f with
                       | Some w => Nat.max w len
                       | None => len
                       end in
          let lpad := match align f with
                      | Some a =>
                          if Ascii.eqb a ">" then (total - len)%nat
                          else if Ascii.eqb a "^" then ((total - len) / 2)%nat
                          else 0%nat
                      | None => 0%nat
                      end in
          let rpad := (total - len - lpad)%nat in
          Ok (repeat_char (fill_char f) lpad +:+ body +:+ repeat_char (fill_char f) rpad))
  end.

End Py.

Export Py(result, Ok, Raise).

Declare Scope result_scope.
Delimit Scope result_scope with result.
Notation "x <- m ;; k" := (Py.bind m (fun x => k))
  (at level 100, m at next level, right associativity) : result_scope.

(** ** The generator layer: [generate_script] as an f-string evaluation

    A generator method runs against the request dictionary it was handed and
    against whatever else a Python process offers: a clock, a random source,
    the attributes of the generator instance.  [M] threads all of it, so that
    what a method reads and writes is visible in its definition. *)

Module Gen.
Import Py.

Record Ambient := mkAmbient {
  rng_state : N;
  wall_clock : N;
  instance_attrs : dict
}.

Record World := mkWorld {
  request : dict;
  ambient : Ambient
}.

Definition M (A : Type) : Type := World -> result A * World.

Definition ret {A} (a : A) : M A := fun w => (Ok a, w).

Definition bind {A B} (m : M A) (k : A -> M B) : M B :=
  fun w =>
    match m w with
    | (Ok a, w') => k a w'
    | (Raise e, w') => (Raise e, w')
    end.

Definition raise {A} (e : exn) : M A := fun w => (Raise e, w).

Definition lift {A} (r : result A) : M A := fun w => (r, w).

(** [params.get(k, dflt)] on the request dictionary. *)
Definition param_get (k : string) (dflt : value) : M value :=
  fun w => (Ok (get (request w) k dflt), w).

(** Effects a method could have and no generator uses: a store into the
    request dictionary, the clock, the random source. *)
Definition param_set (k : string) (v : value) : M unit :=
  fun w => (Ok tt, {| request := (k, v) :: request w; ambient := ambient w |}).

Definition read_clock : M N :=
  fun w => (Ok (wall_clock (ambient w)), w).

Definition next_random : M N :=
  fun w =>
    let a := ambient w in
    (Ok (rng_state a),
     {| request := request w;
        ambient := {| rng_state := N.succ (rng_state a);
                      wall_clock := wall_clock a;
                      instance_attrs := instance_attrs a |} |}).

(** One replacement field of the template, as rendered into the script.
    [str], [json.dumps] and [str.title] are functions of their argument, so
    a field is kept as the argument with the rendering that was applied. *)
Inductive piece : Type :=
| Text (s : string)
| ByStr (v : value)
| ByDumps (v : value)
| ByTitle (s : string).

(** The emitted script: its replacement fields in template order.  The
    literal text between them is the same for every call. *)
Definition script : Type := list piece.

End Gen.

Declare Scope gen_scope.
Delimit Scope gen_scope with gen.
Notation "x <- m ;; k" := (Gen.bind m (fun x => k))
  (at level 100, m at next level, right associativity) : gen_scope.

(** ** Name-resolution family *)

Module DNS.
Import Py.

(** *** Generator: [DNSResolutionGenerator.generate_script] *)

Definition generate_script (animation_id : string) : Gen.M Gen.script :=
  (domain <- Gen.param_get "domain" (VStr "example.com") ;;
   show_cache <- Gen.param_get "show_cache" (VBool true) ;;
   show_timing <- Gen.param_get "show_timing" (VBool true) ;;
   record_types <- Gen.param_get "record_types" (VList [VStr "A"]) ;;
   Gen.ret
     [ Gen.Text (replace "-" "_" animation_id);   (* class DNSResolution_... *)
       Gen.ByStr domain;                           (* Resolving: {domain} *)
       Gen.ByStr domain;                           (* animate_dns_resolution( *)
       Gen.ByStr show_cache;
       Gen.ByStr show_timing;
       Gen.ByDumps record_types;
       Gen.ByStr domain;                           (* show_resolution_result *)
       Gen.ByStr domain;                           (* domain_parts *)
       Gen.ByStr domain;                           (* auth_label *)
       Gen.ByStr show_cache;                       (* if {show_cache}: cache box *)
       Gen.ByStr show_cache;                       (* if {show_cache}: Create *)
       Gen.ByStr domain ])%gen.                    (* result_details *)

(** *** Scene: [animate_dns_resolution] *)

Inductive color := PURPLE | BLUE | ORANGE | YELLOW | GREEN | RED | PINK.

(** One entry of the scene's [steps] list:
    [(from_server, to_server, message, step_id)]. *)
Definition step_tuple : Type := string * string * string * string.

(** What the loop body shows for one entry. *)
Record Step := mkStep {
  ordinal : nat;
  actor_from : string;
  actor_to : string;
  message : string;
  step_id : string;
  arrow_color : color;
  timing_ms : option Z
}.

Definition colors : list color := [PURPLE; BLUE; ORANGE; YELLOW; GREEN; RED; PINK].
Definition timings : list Z := [1; 50; 30; 25; 20; 15; 10]%Z.

Definition get_step_color (step_num : nat) : color :=
  nth (step_num mod length colors) colors PURPLE.

Definition get_step_timing (step_num : nat) : Z :=
  nth (step_num mod length timings) timings 0%Z.

Definition tld_of (domain : string) : string :=
  last_item (split "." domain).

Definition protocol_steps (domain : string) : list step_tuple :=
  [ ("client", "root", "Query: " +:+ domain +:+ "?", "1");
    ("root", "client", "Try ." +:+ tld_of domain +:+ " TLD server", "2");
    ("client", "tld", "Query: " +:+ domain +:+ "?", "3");
    ("tld", "client", "Try authoritative server", "4");
    ("client", "auth", "Query: " +:+ domain +:+ "?", "5");
    ("auth", "client", "Answer: IP address", "6") ].

Definition cache_check (domain : string) : step_tuple :=
  ("client", "cache", "Check cache for " +:+ domain, "0").

(** The template line is [if {{show_cache}}:], so the scene source reads
    [if {show_cache}:] and the condition is a one-element set display. *)
Definition build_steps (domain : string) (show_cache : bool) : list step_tuple :=
  let steps := protocol_steps domain in
  if set_display_truthy [show_cache]
  then cache_check domain :: steps          (* steps.insert(0, ...) *)
  else steps.

Definition show_step (show_timing : bool) (step_num : nat) (t : step_tuple) : Step :=
  let '(from_server, to_server, msg, sid) := t in
  {| ordinal := step_num;
     actor_from := from_server;
     actor_to := to_server;
     message := msg;
     step_id := sid;
     arrow_color := get_step_color step_num;
     timing_ms := if show_timing
                  then Some (nth (step_num mod length timings) timings 0%Z)
                  else None |}.

Definition animate_dns_resolution
    (domain : string) (show_cache show_timing : bool)
    (record_types : list string) : list Step :=
  imap (show_step show_timing) (build_steps domain show_cache).

(** The cache-check entry as the loop shows it at ordinal 0. *)
Definition is_cache_check (s : Step) : bool :=
  String.eqb (actor_from s) "client" && String.eqb (actor_to s) "cache".

End DNS.

(** ** Plane geometry of the scenes: [shift] vectors *)

Module Geometry.

Definition vec : Type := Q * Q.

Definition ORIGIN : vec := (0%Q, 0%Q).
Definition RIGHT (k : Q) : vec := (k, 0%Q).
Definition UP (k : Q) : vec := (0%Q, k).
Definition DOWN (k : Q) : vec := (0%Q, (- k)%Q).

Definition vadd (a b : vec) : vec := ((fst a + fst b)%Q, (snd a + snd b)%Q).

Definition vx (a : vec) : Q := fst a.
Definition vy (a : vec) : Q := snd a.

End Geometry.

(** ** What the scenes rely on of Manim *)

Module Manim.
Import Py.

(** [self.play] on the items of a list: a call without animations raises. *)
Definition play {A} (animations : list A) : result unit :=
  if list_truthy animations then Ok tt else Raise ValueError.

(** [Text(text, ...)]: the constructor starts with [text.find], which only
    a string has. *)
Definition text (v : value) : result string :=
  match v with
  | VStr s => Ok s
  | _ => Raise (AttributeError "find")
  end.

(** The default [buff] of [Arrow] ([MED_SMALL_BUFF]): the drawn arrow stops
    this far from each of the two points it is given. *)
Definition arrow_buff : Q := 1 # 4.

End Manim.

(** ** Data-structure family *)

Module DataStructure.
Import Py Geometry.

(** *** Complexity table: [get_complexity_data] *)

Definition complexity_row (a s i d sp : string) : dict :=
  [ ("access", VStr a); ("search", VStr s); ("insert", VStr i);
    ("delete", VStr d); ("space", VStr sp) ].

Definition complexities : gmap string dict :=
  list_to_map
    [ ("array", complexity_row "O(1)" "O(n)" "O(n)" "O(n)" "O(n)");
      ("linked_list", complexity_row "O(n)" "O(n)" "O(1)" "O(1)" "O(n)");
      ("stack", complexity_row "O(n)" "O(n)" "O(1)" "O(1)" "O(n)");
      ("queue", complexity_row "O(n)" "O(n)" "O(1)" "O(1)" "O(n)");
      ("binary_tree",
        complexity_row "O(log n)" "O(log n)" "O(log n)" "O(log n)" "O(n)");
      ("hash_table", complexity_row "N/A" "O(1)" "O(1)" "O(1)" "O(n)");
      ("graph", complexity_row "O(V+E)" "O(V+E)" "O(1)" "O(V+E)" "O(V+E)") ].

Definition unknown_complexity : dict :=
  complexity_row "O(?)" "O(?)" "O(?)" "O(?)" "O(?)".

(** [complexities.get(structure_type, {...})]: a list or a dictionary is
    not hashable and cannot be looked up. *)
Definition get_complexity_data (structure_type : value) : result dict :=
  match structure_type with
  | VList _ | VDict _ => Raise TypeError
  | VStr s => Ok (default unknown_complexity (complexities !! s))
  | _ => Ok unknown_complexity
  end.

(** *** Generator: [DataStructureGenerator.generate_script] *)

Definition dq : string := String "034"%char EmptyString.
Definition nl : string := String "010"%char EmptyString.
Definition quoted (s : string) : string := dq +:+ s +:+ dq.
Definition indent (n : nat) : string := repeat_char " " n.

(** [structure_type.replace('_', ' ').title()] *)
Definition title_field (structure_type : value) : result Gen.piece :=
  match structure_type with
  | VStr s => Ok (Gen.ByTitle (replace "_" " " s))
  | _ => Raise (AttributeError "replace")
  end.

(** The template holds the source of the scene's own [get_complexity_data]
    with single braces, so the dictionary display that starts at
    [complexities = {] is a replacement field: its expression is the
    literal ["array"], each row [{ "access": ... }] is a nested field of
    its format spec with expression ["access"], and the text after the
    first colon of a row is the format spec of that nested field. *)
Definition row_spec (a s i d sp : string) (closing_indent : nat) : string :=
  " " +:+ quoted a +:+ ", " +:+ quoted "search" +:+ ": " +:+ quoted s +:+
  ", " +:+ quoted "insert" +:+ ": " +:+ quoted i +:+
  ", " +:+ quoted "delete" +:+ ": " +:+ quoted d +:+
  ", " +:+ quoted "space" +:+ ": " +:+ quoted sp +:+ nl +:+ indent closing_indent.

Definition row_field (a s i d sp : string) : result string :=
  format_str "access" (row_spec a s i d sp 12).

Definition next_key (k : string) : string :=
  "," +:+ nl +:+ indent 12 +:+ quoted k +:+ ": ".

Definition complexities_field : result string :=
  (r1 <- row_field "O(1)" "O(n)" "O(n)" "O(n)" "O(n)" ;;
   r2 <- row_field "O(n)" "O(n)" "O(1)" "O(1)" "O(n)" ;;
   r3 <- row_field "O(n)" "O(n)" "O(1)" "O(1)" "O(n)" ;;
   r4 <- row_field "O(n)" "O(n)" "O(1)" "O(1)" "O(n)" ;;
   r5 <- row_field "O(log n)" "O(log n)" "O(log n)" "O(log n)" "O(n)" ;;
   r6 <- row_field "N/A" "O(1)" "O(1)" "O(1)" "O(n)" ;;
   r7 <- row_field "O(V+E)" "O(V+E)" "O(1)" "O(V+E)" "O(V+E)" ;;
   format_str "array"
     (" " +:+ r1 +:+ next_key "linked_list" +:+ r2 +:+ next_key "stack" +:+ r3 +:+
      next_key "queue" +:+ r4 +:+ next_key "binary_tree" +:+ r5 +:+
      next_key "hash_table" +:+ r6 +:+ next_key "graph" +:+ r7 +:+
      nl +:+ indent 8))%result.

(** [return complexities.get(structure_type, { "access": ... })] *)
Definition fallback_field : result string :=
  format_str "access" (row_spec "O(?)" "O(?)" "O(?)" "O(?)" "O(?)" 8).

Definition sample_data : value :=
  VList [VInt 1; VInt 2; VInt 3; VInt 4; VInt 5].

Definition generate_script (animation_id : string) : Gen.M Gen.script :=
  (structure_type <- Gen.param_get "type" (VStr "array") ;;
   data <- Gen.param_get "data" sample_data ;;
   operations <- Gen.param_get "operations" (VList []) ;;
   show_complexity <- Gen.param_get "show_complexity" (VBool true) ;;
   complexity_info <- Gen.lift (get_complexity_data structure_type) ;;
   (* the f-string, field by field *)
   title <- Gen.lift (title_field structure_type) ;;
   c_access <- Gen.lift (subscript complexity_info "access") ;;
   c_search <- Gen.lift (subscript complexity_info "search") ;;
   c_insert <- Gen.lift (subscript complexity_info "insert") ;;
   c_delete <- Gen.lift (subscript complexity_info "delete") ;;
   c_space <- Gen.lift (subscript complexity_info "space") ;;
   table <- Gen.lift complexities_field ;;
   fallback <- Gen.lift fallback_field ;;
   (* {base_address + i*4:X}: neither name is bound in generate_script *)
   address <- Gen.raise (A := string) (NameError "base_address") ;;
   let branch := [Gen.ByStr structure_type; Gen.ByDumps data; Gen.ByDumps operations] in
   Gen.ret
     ([ Gen.Text (replace "-" "_" animation_id);
        Gen.ByDumps (VDict complexity_info);
        title;
        Gen.ByStr show_complexity ]
      ++ branch ++ branch ++ branch ++ branch ++ branch ++ branch ++ branch
      ++ [ Gen.ByDumps data;
           Gen.ByStr c_access; Gen.ByStr c_search; Gen.ByStr c_insert;
           Gen.ByStr c_delete; Gen.ByStr c_space;
           Gen.Text table; Gen.Text fallback; Gen.Text address;
           Gen.ByStr data ]))%gen.

(** *** Scene: array *)

Record array_cell := mkCell {
  cell_index : nat;
  cell_value : value;
  cell_center : vec;
  cell_address : Z
}.

(** [box.shift(RIGHT * (i - len(data)/2 + 0.5) * 1.4)] and the simulated
    address [base_address + i*4]. *)
Definition array_x (i len : nat) : Q :=
  ((inject_Z (Z.of_nat i) - inject_Z (Z.of_nat len) / 2 + (1 # 2)) * (14 # 10))%Q.

Definition create_boxes (data : list value) : list array_cell :=
  imap (fun i v =>
          {| cell_index := i;
             cell_value := v;
             cell_center := RIGHT (array_x i (length data));
             cell_address := (1000 + Z.of_nat i * 4)%Z |}) data.

Inductive array_step : Type :=
| Highlight (target : array_cell) (label : string).

(** The scene class defines [highlight_array_element] only: looking up
    [self.update_array_element] or [self.search_array_element] raises
    before the arguments are evaluated. *)
Definition perform_array_operation (boxes : list array_cell) (operation : dict)
    : result (list array_step) :=
  let op_type := get operation "type" (VStr "access") in
  let idx := get operation "index" (VInt 0) in
  let val := get operation "value" VNone in
  if is_str op_type "access" then
    match idx with
    | VInt i => (b <- index boxes i ;; Ok [Highlight b "ACCESS"])%result
    | VBool b => (b <- index boxes (if b then 1 else 0)%Z ;; Ok [Highlight b "ACCESS"])%result
    | _ => Raise TypeError
    end
  else if is_str op_type "update" && negb (is_none val) then
    Raise (AttributeError "update_array_element")
  else if is_str op_type "search" then
    Raise (AttributeError "search_array_element")
  else Ok [].

Fixpoint perform_array_operations (operations : list dict) (boxes : list array_cell)
    : result (list array_step) :=
  match operations with
  | [] => Ok []
  | operation :: rest =>
      (here <- perform_array_operation boxes operation ;;
       later <- perform_array_operations rest boxes ;;
       Ok (here ++ later))%result
  end.

Record array_scene := mkArrayScene {
  array_boxes : list array_cell;
  array_steps : list array_step
}.

(** The boxes, their values, indices and addresses are created by one
    [self.play] on [Create(elem) for elem in array_elements], which has no
    animation when the data is empty. *)
Definition create_array_visualization (data : list value) (operations : list dict)
    : result array_scene :=
  let boxes := create_boxes data in
  (created <- Manim.play boxes ;;
   steps <- perform_array_operations operations boxes ;;
   Ok {| array_boxes := boxes; array_steps := steps |})%result.

(** *** Scene: stack *)

Record stack_element := mkElement {
  element_value : value;
  element_center : vec
}.

(** [element.shift(DOWN * (2.5 - i * 0.7))] *)
Definition stack_slot (i : nat) : vec :=
  DOWN ((5 # 2) - inject_Z (Z.of_nat i) * (7 # 10))%Q.

Inductive stack_anim : Type :=
| PlayPush (e : stack_element)
| PlayPop (e : stack_element).

Definition stack_operation (current_elements : list stack_element) (operation : dict)
    : result (list stack_element * list stack_anim) :=
  let op_type := get operation "type" (VStr "push") in
  let val := get operation "value" (VInt 0) in
  if is_str op_type "push" then
    let element_group :=
      {| element_value := val;
         element_center := stack_slot (length current_elements) |} in
    Ok (current_elements ++ [element_group], [PlayPush element_group])
  else if is_str op_type "pop" && list_truthy current_elements then
    (popped <- pop current_elements ;;
     Ok (fst popped, [PlayPop (snd popped)]))%result
  else Ok (current_elements, []).

(** [perform_stack_operations]: works on a copy of [elements]; returns the
    surviving elements and what was played. *)
Fixpoint perform_stack_operations (operations : list dict)
    (current_elements : list stack_element)
    : result (list stack_element * list stack_anim) :=
  match operations with
  | [] => Ok (current_elements, [])
  | operation :: rest =>
      (here <- stack_operation current_elements operation ;;
       later <- perform_stack_operations rest (fst here) ;;
       Ok (fst later, snd here ++ snd later))%result
  end.

Record stack_scene := mkStackScene {
  stack_initial : list stack_element;
  top_pointer : option stack_element;
  stack_final : list stack_element;
  stack_played : list stack_anim
}.

Definition create_stack_visualization (data : list value) (operations : list dict)
    : result stack_scene :=
  let elements :=
    imap (fun i v => {| element_value := v; element_center := stack_slot i |}) data in
  let top := if list_truthy elements then last elements else None in
  (run <- perform_stack_operations operations elements ;;
   Ok {| stack_initial := elements;
         top_pointer := top;
         stack_final := fst run;
         stack_played := snd run |})%result.

(** *** Scene: binary tree *)

Record tree_node := mkNode {
  node_value : value;
  node_center : vec
}.

Record tree_edge := mkEdge {
  edge_parent : Z;
  edge_child : Z;
  edge_start : vec;
  edge_end : vec
}.

Inductive tree_anim : Type :=
| CreateRoot
| CreateEdgeAndNode (child : Z)
| WriteProperties.

Record tree_scene := mkTreeScene {
  nodes : gmap Z tree_node;
  edges : list tree_edge;
  tree_played : list tree_anim
}.

Definition nothing_drawn : tree_scene :=
  {| nodes := ∅; edges := []; tree_played := [] |}.

(** [math.log2]: the template imports [manim] and [json] only, and the star
    import of [manim] binds no [math], so the name lookup raises. *)
Definition math_log2 (x : Z) : result Z := Raise (NameError "math").

(** [int(math.log2(i + 1))], [i - (2**level - 1)] and the two offsets.
    [2**(level-1)] is a float when [level] is 0, hence the power in [Q]. *)
Definition tree_level (i : Z) : result Z := math_log2 (i + 1).

Definition tree_position_in_level (i level : Z) : Z :=
  (i - (2 ^ level - 1))%Z.

Definition tree_x_offset (i level : Z) : Q :=
  ((inject_Z (tree_position_in_level i level) - ((2 # 1) ^ (level - 1) - (1 # 2)))
   * (4 / inject_Z (2 ^ level)))%Q.

Definition tree_y_offset (level : Z) : Q :=
  (- inject_Z level * (3 # 2))%Q.

(** The body of the loop: the node and its text are made from [data[i]],
    then the level is asked for. *)
Definition tree_child (data : list value) (st : tree_scene) (i : Z)
    : result tree_scene :=
  (v <- index data i ;;
   level <- tree_level i ;;
   let node_group :=
     {| node_value := v;
        node_center := vadd (RIGHT (tree_x_offset i level))
                            (UP (tree_y_offset level)) |} in
   let nodes' := <[i := node_group]> (nodes st) in
   let parent_index := ((i - 1) / 2)%Z in
   match nodes' !! parent_index with
   | Some parent =>
       let edge := {| edge_parent := parent_index;
                      edge_child := i;
                      edge_start := node_center parent;
                      edge_end := node_center node_group |} in
       Ok {| nodes := nodes';
             edges := edges st ++ [edge];
             tree_played := tree_played st ++ [CreateEdgeAndNode i] |}
   | None =>
       Ok {| nodes := nodes'; edges := edges st; tree_played := tree_played st |}
   end)%result.

Fixpoint tree_children (data : list value) (st : tree_scene) (range : list Z)
    : result tree_scene :=
  match range with
  | [] => Ok st
  | i :: rest => (st' <- tree_child data st i ;; tree_children data st' rest)%result
  end.

(** [range(1, min(len(data), 7))] *)
Definition child_range (data : list value) : list Z :=
  Z.of_nat <$> seq 1 (Nat.min (length data) 7 - 1).

Definition create_binary_tree_visualization (data : list value) (operations : list dict)
    : result tree_scene :=
  if negb (list_truthy data) then Ok nothing_drawn
  else
    (root_value <- index data 0 ;;
     let root_group := {| node_value := root_value; node_center := ORIGIN |} in
     let st := {| nodes := {[ 0%Z := root_group ]};
                  edges := [];
                  tree_played := [CreateRoot] |} in
     st' <- tree_children data st (child_range data) ;;
     Ok {| nodes := nodes st';
           edges := edges st';
           tree_played := tree_played st' ++ [WriteProperties] |})%result.

(** *** Scene: generic layout and the dispatch in [construct] *)

Record generic_scene := mkGeneric {
  generic_title : string;
  generic_data : list value
}.

(** [Text(f"Data: {data}")]: the generator has put the text of [data] into
    this literal of the scene.  A dictionary in it opens a replacement
    field whose expression is its first key, a string, and whose format
    spec starts with the space after the colon, which a string rejects.
    Strings are taken to hold no quote, backslash or brace, and
    dictionaries to have a key: other data changes the literal itself. *)
Fixpoint holds_dict (v : value) : bool :=
  match v with
  | VDict _ => true
  | VList l => existsb holds_dict l
  | _ => false
  end.

Definition create_generic_visualization (data : list value) : result generic_scene :=
  if existsb holds_dict data then Raise ValueError
  else Ok {| generic_title := "Generic Data Structure"; generic_data := data |}.

Inductive drawn : Type :=
| DrawnArray (s : array_scene)
| DrawnStack (s : stack_scene)
| DrawnTree (s : tree_scene)
| DrawnGeneric (s : generic_scene).

(** The arguments of a call in [construct] are JSON texts read as Python
    expressions: [null], [true] and [false] are names that nothing binds.
    The first of them in a text, if any. *)
Fixpoint json_name (v : value) : option string :=
  match v with
  | VNone => Some "null"
  | VBool true => Some "true"
  | VBool false => Some "false"
  | VInt _ | VFloat _ | VStr _ => None
  | VList l =>
      (fix first (l : list value) : option string :=
         match l with
         | [] => None
         | x :: rest =>
             match json_name x with
             | Some name => Some name
             | None => first rest
             end
         end) l
  | VDict kv =>
      (fix first (kv : list (string * value)) : option string :=
         match kv with
         | [] => None
         | (_, x) :: rest =>
             match json_name x with
             | Some name => Some name
             | None => first rest
             end
         end) kv
  end.

Definition literal (v : value) : result value :=
  match json_name v with
  | Some name => Raise (NameError name)
  | None => Ok v
  end.

(** [(json.dumps(data), json.dumps(operations))], left to right. *)
Definition arguments (data : list value) (operations : list dict) : result unit :=
  (d <- literal (VList data) ;;
   o <- literal (VList (VDict <$> operations)) ;;
   Ok tt)%result.

(** The [if "{structure_type}" == ...] chain of [construct]; the title and
    the complexity panel shown before it do not depend on the kind
    ([show_complexity] is taken to be a truth value, as its default is).
    A call looks its method up before it evaluates its arguments.  The linked-list
    method ends with a call of [perform_linked_list_operations]; that
    method and the queue, hash-table and graph methods are not defined in
    the class. *)
Definition construct (structure_type : string) (data : list value)
    (operations : list dict) : result drawn :=
  if String.eqb structure_type "array" then
    (args <- arguments data operations ;;
     s <- create_array_visualization data operations ;; Ok (DrawnArray s))%result
  else if String.eqb structure_type "linked_list" then
    (args <- arguments data operations ;;
     Raise (AttributeError "perform_linked_list_operations"))%result
  else if String.eqb structure_type "stack" then
    (args <- arguments data operations ;;
     s <- create_stack_visualization data operations ;; Ok (DrawnStack s))%result
  else if String.eqb structure_type "queue" then
    Raise (AttributeError "create_queue_visualization")
  else if String.eqb structure_type "binary_tree" then
    (args <- arguments data operations ;;
     s <- create_binary_tree_visualization data operations ;; Ok (DrawnTree s))%result
  else if String.eqb structure_type "hash_table" then
    Raise (AttributeError "create_hash_table_visualization")
  else if String.eqb structure_type "graph" then
    Raise (AttributeError "create_graph_visualization")
  else
    (d <- literal (VList data) ;;
     s <- create_generic_visualization data ;; Ok (DrawnGeneric s))%result.

Definition supported_kinds : list string :=
  ["array"; "linked_list"; "stack"; "queue"; "binary_tree"; "hash_table"; "graph"].

End DataStructure.

(** ** Process-flow family *)

Module ProcessFlow.
Import Py Geometry.

(** *** Generator: [ProcessFlowGenerator.generate_script] *)

Definition generate_script (animation_id : string) : Gen.M Gen.script :=
  (steps <- Gen.param_get "steps" (VList []) ;;
   title <- Gen.param_get "title" (VStr "Process Flow") ;;
   flow_type <- Gen.param_get "flow_type" (VStr "linear") ;;
   show_timing <- Gen.param_get "show_timing" (VBool false) ;;
   let call := [Gen.ByDumps steps; Gen.ByStr show_timing] in
   Gen.ret
     ([ Gen.Text (replace "-" "_" animation_id);
        Gen.ByStr title ]
      ++ [Gen.ByStr flow_type] ++ call           (* linear *)
      ++ [Gen.ByStr flow_type] ++ call           (* branching *)
      ++ [Gen.ByStr flow_type] ++ call           (* circular *)
      ++ call                                    (* else: linear *)
      ++ [Gen.ByDumps steps]))%gen.              (* show_process_summary *)

(** *** Scene: the dispatch of [construct], [create_step_shape] and
    [create_circular_flow] *)

Inductive flow_method : Type :=
| linear_flow
| branching_flow
| circular_flow.

(** The [if "{flow_type}" == ...] chain: any other type is drawn as a linear
    flow. *)
Definition construct_dispatch (flow_type : string) : flow_method :=
  if String.eqb flow_type "linear" then linear_flow
  else if String.eqb flow_type "branching" then branching_flow
  else if String.eqb flow_type "circular" then circular_flow
  else linear_flow.

Inductive shape : Type :=
| RoundedGreen        (* start *)
| RoundedRed          (* end *)
| Diamond             (* decision *)
| DoubleBox           (* subprocess *)
| Parallelogram       (* data *)
| Box.                (* anything else: process *)

(** [step.get('name', f'Step {i+1}')] *)
Inductive label : Type :=
| Named (v : value)
| StepNumber (n : nat).

Definition step_name (step : dict) (i : nat) : label :=
  match assoc "name" step with
  | Some v => Named v
  | None => StepNumber (i + 1)
  end.

(** [Text(step_name, ...)]: the default name is a string, a name of the
    request need not be one. *)
Definition label_text (step_name : label) : result label :=
  match step_name with
  | Named v => (text <- Manim.text v ;; Ok step_name)%result
  | StepNumber _ => Ok step_name
  end.

(** The outline drawn for a step type, then the text label put on it (kept
    as [step_label] below; the line break put into a label of more than 15
    characters is left out). *)
Definition create_step_shape (step_type : value) (step_name : label) : result shape :=
  let shape :=
    if is_str step_type "start" then RoundedGreen
    else if is_str step_type "end" then RoundedRed
    else if is_str step_type "decision" then Diamond
    else if is_str step_type "subprocess" then DoubleBox
    else if is_str step_type "data" then Parallelogram
    else Box in
  (text <- label_text step_name ;; Ok shape)%result.

(** An angle is kept as its coefficient of PI: [angle] stands for
    [angle * PI].  A shape sits at
    [(radius * cos(angle), radius * sin(angle))]. *)
Record circular_step := mkCircularStep {
  step_label : label;
  step_shape : shape;
  step_radius : Q;
  step_angle : Q
}.

(** [RIGHT * radius * np.cos(angle) + UP * radius * np.sin(angle)]: the
    vector a shape is shifted by from the centre of the frame, x to the
    right and y upwards. *)
Definition on_circle (radius angle : Q) : R * R :=
  (Q2R radius * cos (Q2R angle * PI), Q2R radius * sin (Q2R angle * PI))%R.

Definition step_place (s : circular_step) : R * R :=
  on_circle (step_radius s) (step_angle s).

(** The curved arrow that leaves shape [arrow_source] towards the place of
    shape [arrow_target]. *)
Record curved_arrow := mkArrow {
  arrow_source : nat;
  arrow_target : nat;
  start_direction : Q;     (* angle + PI/6 *)
  target_angle : Q;        (* next_angle *)
  end_direction : Q        (* next_angle - PI/6 *)
}.

Record circular_scene := mkCircular {
  step_objects : list circular_step;
  arrows : list curved_arrow;
  cycle_text : bool
}.

Definition radius : Q := 5 # 2.

(** [i * 2 * PI / num_steps - PI/2] *)
Definition circular_angle (i num_steps : nat) : result Q :=
  (q <- truediv (inject_Z (Z.of_nat i) * 2)%Q (inject_Z (Z.of_nat num_steps)) ;;
   Ok (q - (1 # 2))%Q)%result.

Definition circular_body (num_steps : nat) (i : nat) (step : dict)
    : result (circular_step * curved_arrow) :=
  let name := step_name step i in
  let step_type := get step "type" (VStr "process") in
  (angle <- circular_angle i num_steps ;;
   outline <- create_step_shape step_type name ;;
   let shape := {| step_label := name;
                   step_shape := outline;
                   step_radius := radius;
                   step_angle := angle |} in
   next_i <- modulo (i + 1) num_steps ;;
   next_angle <- circular_angle next_i num_steps ;;
   Ok (shape,
       {| arrow_source := i;
          arrow_target := next_i;
          start_direction := (angle + (1 # 6))%Q;
          target_angle := next_angle;
          end_direction := (next_angle - (1 # 6))%Q |}))%result.

(** The loop over [enumerate(steps_data)], from index [i] on. *)
Fixpoint circular_loop (num_steps : nat) (i : nat) (steps_data : list dict)
    : result (list circular_step * list curved_arrow) :=
  match steps_data with
  | [] => Ok ([], [])
  | step :: rest =>
      (here <- circular_body num_steps i step ;;
       later <- circular_loop num_steps (S i) rest ;;
       Ok (fst here :: fst later, snd here :: snd later))%result
  end.

Definition nothing_drawn : circular_scene :=
  {| step_objects := []; arrows := []; cycle_text := false |}.

Definition create_circular_flow (steps_data : list dict) (show_timing : bool)
    : result circular_scene :=
  if negb (list_truthy steps_data) then Ok nothing_drawn
  else
    let num_steps := length steps_data in
    (drawn <- circular_loop num_steps 0 steps_data ;;
     Ok {| step_objects := fst drawn; arrows := snd drawn; cycle_text := true |})%result.

(** Degrees of an angle given as a coefficient of PI. *)
Definition degrees (angle : Q) : Q := (angle * 180)%Q.

End ProcessFlow.

(** ** Protocol-exchange family *)

Module HTTPFlow.
Import Py.

Definition generate_script (animation_id : string) : Gen.M Gen.script :=
  (steps <- Gen.param_get "steps" (VList []) ;;
   title <- Gen.param_get "title" (VStr "HTTP Request Flow") ;;
   show_headers <- Gen.param_get "show_headers" (VBool true) ;;
   show_status_codes <- Gen.param_get "show_status_codes" (VBool true) ;;
   protocol_version <- Gen.param_get "protocol_version" (VStr "HTTP/1.1") ;;
   Gen.ret
     [ Gen.Text (replace "-" "_" animation_id);
       Gen.ByStr title;
       Gen.ByStr protocol_version;
       Gen.ByDumps steps;
       Gen.ByStr show_headers;
       Gen.ByStr show_status_codes ])%gen.

End HTTPFlow.

(** ** The four generators behind one name *)

Inductive family : Type :=
| ProtocolExchange
| NameResolution
| DataStructureKind
| ProcessFlowKind.

Definition generate_script (f : family) (animation_id : string) : Gen.M Gen.script :=
  match f with
  | ProtocolExchange => HTTPFlow.generate_script animation_id
  | NameResolution => DNS.generate_script animation_id
  | DataStructureKind => DataStructure.generate_script animation_id
  | ProcessFlowKind => ProcessFlow.generate_script animation_id
  end.

(** One call of a generator: the request dictionary, the identifier, and the
    rest of the process state. *)
Definition call (f : family) (params : Py.dict) (animation_id : string)
    (amb : Gen.Ambient) : result Gen.script * Gen.World :=
  generate_script f animation_id {| Gen.request := params; Gen.ambient := amb |}.

(** ** Reference notions the claims are stated against *)

Module Reference.
Import Py.

(** A stack operation as [perform_stack_operations] reads it from its
    dictionary: the type defaults to push, the value to 0, and any other
    type is skipped. *)
Inductive stack_op : Type :=
| Push (v : value)
| Pop
| Skip.

Definition read_stack_op (operation : dict) : stack_op :=
  let op_type := get operation "type" (VStr "push") in
  if is_str op_type "push" then Push (get operation "value" (VInt 0))
  else if is_str op_type "pop" then Pop
  else Skip.

(** The LIFO law on a list of values, top at the end; popping the empty
    stack leaves it empty. *)
Definition lifo_step (s : list value) (o : stack_op) : list value :=
  match o with
  | Push v => s ++ [v]
  | Pop => removelast s
  | Skip => s
  end.

Definition lifo_run (ops : list stack_op) (initial : list value) : list value :=
  fold_left lifo_step ops initial.

(** The elements of a stack drawn for a list of values, bottom first: the
    value at position [i] sits in slot [i]. *)
Definition stacked (values : list value) : list DataStructure.stack_element :=
  imap (fun i v => {| DataStructure.element_value := v;
                      DataStructure.element_center := DataStructure.stack_slot i |})
       values.

(** The last pushed value not yet popped, read off the trace backwards:
    each pop met on the way cancels the nearest earlier push that is still
    standing, and what is left of the budget falls on the initial
    elements. *)
Fixpoint last_unpopped (backwards : list stack_op) (pending : nat)
    (initial : list value) : option value :=
  match backwards with
  | [] => last (take (length initial - pending) initial)
  | Push v :: earlier =>
      match pending with
      | O => Some v
      | S p => last_unpopped earlier p initial
      end
  | Pop :: earlier => last_unpopped earlier (S pending) initial
  | Skip :: earlier => last_unpopped earlier pending initial
  end.

(** A layout tells a request over the cap from a request within it when its
    outcome on the full data differs from its outcome on the data cut to the
    cap; a truncation notice in the scene is such a difference. *)
Definition reports_truncation {S : Type} (layout : list value -> result S)
    (cap : nat) (data : list value) : Prop :=
  layout data <> layout (take cap data).

(** The requests of the worked examples. *)
Definition one_to (n : nat) : list value :=
  (fun k => VInt (Z.of_nat k)) <$> seq 1 n.

Definition update_operation : dict :=
  [ ("type", VStr "update"); ("index", VInt 1); ("value", VInt 10) ].

Definition array_update_request : dict :=
  [ ("type", VStr "array");
    ("data", VList (one_to 5));
    ("operations", VList [VDict update_operation]) ].

Definition unknown_kind_request : dict :=
  [ ("type", VStr "trie");
    ("data", VList (one_to 3));
    ("operations", VList [VDict update_operation]) ].

Definition five_steps : list dict :=
  (fun name => [("name", VStr name)]) <$> ["A"; "B"; "C"; "D"; "E"].


Definition idle : Gen.Ambient :=
  {| Gen.rng_state := 0; Gen.wall_clock := 0; Gen.instance_attrs := [] |}.

End Reference.

(** ** Algorithm scene: [animate_bubble_sort] *)

Module Sorting.
Import Py Geometry.

(** A bar and the value text under it.  The text is put next to its bar and
    moves with it; of its place the model keeps the horizontal one. *)
Record bar := mkBar {
  bar_value : Z;
  bar_height : Q;
  bar_center : vec
}.

Record value_text := mkValueText {
  text_value : Z;
  text_x : Q
}.

Inductive sort_event : Type :=
| Compare (j : nat)
| SwapBars (j : nat)
| MarkSorted (k : nat).

Record sort_state := mkSortState {
  s_data : list Z;
  s_bars : list bar;
  s_values : list value_text;
  s_events : list sort_event
}.

(** [max(data)]: raises on an empty list. *)
Definition py_max (data : list Z) : result Z :=
  match data with
  | [] => Raise ValueError
  | x :: rest => Ok (fold_left Z.max rest x)
  end.

(** [(i - len(data)/2 + 0.5) * 0.8] *)
Definition bar_slot (i len : nat) : Q :=
  ((inject_Z (Z.of_nat i) - inject_Z (Z.of_nat len) / 2 + (1 # 2)) * (8 # 10))%Q.

(** The body of the first loop: [bar_height = value / max(data) * 3], the
    bar shifted to its slot and half its height up. *)
Definition make_bar (data : list Z) (i : nat) (v : Z) : result (bar * value_text) :=
  (m <- py_max data ;;
   q <- truediv (inject_Z v) (inject_Z m) ;;
   let bar_height := (q * 3)%Q in
   Ok ({| bar_value := v;
          bar_height := bar_height;
          bar_center := vadd (RIGHT (bar_slot i (length data))) (UP (bar_height / 2)%Q) |},
       {| text_value := v; text_x := bar_slot i (length data) |}))%result.

Fixpoint make_bars (data : list Z) (i : nat) (todo : list Z)
    : result (list bar * list value_text) :=
  match todo with
  | [] => Ok ([], [])
  | v :: rest =>
      (here <- make_bar data i v ;;
       later <- make_bars data (S i) rest ;;
       Ok (fst here :: fst later, snd here :: snd later))%result
  end.

(** [bar.animate.shift(RIGHT * 0.8)] and [shift(LEFT * 0.8)]. *)
Definition shift_bar (dx : Q) (b : bar) : bar :=
  {| bar_value := bar_value b;
     bar_height := bar_height b;
     bar_center := vadd (bar_center b) (RIGHT dx) |}.

Definition shift_text (dx : Q) (t : value_text) : value_text :=
  {| text_value := text_value t; text_x := (text_x t + dx)%Q |}.

(** [l[j], l[j + 1] = y, x] *)
Definition assign_pair {A} (l : list A) (j : nat) (y x : A) : list A :=
  <[S j := x]> (<[j := y]> l).

(** The body of the inner loop at [j]. *)
Definition compare_step (st : sort_state) (j : nat) : result sort_state :=
  (bj <- index (s_bars st) (Z.of_nat j) ;;
   bj1 <- index (s_bars st) (Z.of_nat j + 1) ;;
   a <- index (s_data st) (Z.of_nat j) ;;
   b <- index (s_data st) (Z.of_nat j + 1) ;;
   if (a >? b)%Z then
     vj <- index (s_values st) (Z.of_nat j) ;;
     vj1 <- index (s_values st) (Z.of_nat j + 1) ;;
     Ok {| s_data := assign_pair (s_data st) j b a;
           s_bars := assign_pair (s_bars st) j
                       (shift_bar (- (8 # 10)) bj1) (shift_bar (8 # 10) bj);
           s_values := assign_pair (s_values st) j
                         (shift_text (- (8 # 10)) vj1) (shift_text (8 # 10) vj);
           s_events := s_events st ++ [Compare j; SwapBars j] |}
   else
     Ok {| s_data := s_data st;
           s_bars := s_bars st;
           s_values := s_values st;
           s_events := s_events st ++ [Compare j] |})%result.

Fixpoint inner_loop (st : sort_state) (js : list nat) : result sort_state :=
  match js with
  | [] => Ok st
  | j :: rest => (st' <- compare_step st j ;; inner_loop st' rest)%result
  end.

(** One round of the outer loop: [for j in range(0, n - i - 1)] and the
    green mark on [bars[n - 1 - i]]. *)
Definition outer_step (n : nat) (st : sort_state) (i : nat) : result sort_state :=
  (st' <- inner_loop st (seq 0 (n - i - 1)) ;;
   marked <- index (s_bars st') (Z.of_nat n - 1 - Z.of_nat i) ;;
   Ok {| s_data := s_data st';
         s_bars := s_bars st';
         s_values := s_values st';
         s_events := s_events st' ++ [MarkSorted (n - 1 - i)] |})%result.

Fixpoint outer_loop (n : nat) (st : sort_state) (rounds : list nat) : result sort_state :=
  match rounds with
  | [] => Ok st
  | i :: rest => (st' <- outer_step n st i ;; outer_loop n st' rest)%result
  end.

(** The bars are created by one [self.play] on
    [Create(bar) for bar in bars] and the value texts by another, which
    have no animation when the data is empty. *)
Definition animate_bubble_sort (data : list Z) : result sort_state :=
  (drawn <- make_bars data 0 data ;;
   created <- Manim.play (fst drawn) ;;
   written <- Manim.play (snd drawn) ;;
   let n := length data in
   st <- outer_loop n {| s_data := data;
                         s_bars := fst drawn;
                         s_values := snd drawn;
                         s_events := [] |} (seq 0 n) ;;
   if list_truthy (s_bars st)
   then Ok {| s_data := s_data st;
              s_bars := s_bars st;
              s_values := s_values st;
              s_events := s_events st ++ [MarkSorted 0] |}
   else Ok st)%result.

End Sorting.

(** What is stated of a sorting run. *)

Module SortingSpec.
Import Py Geometry.




End SortingSpec.

(** ** More builtins: truth values and numeric keys *)

Module Builtins.
Import Py.

(** [bool(v)]: what [if v:] tests. *)
Definition truthy (v : value) : bool :=
  match v with
  | VNone => false
  | VBool b => b
  | VInt z => negb (z =? 0)%Z
  | VFloat q => negb (Qeq_bool q 0)
  | VStr s => negb (String.eqb s "")
  | VList l => list_truthy l
  | VDict kv => list_truthy kv
  end.


(** The number a value counts as when it is a dictionary key: [True] is 1,
    [200.0] is 200. *)
Definition numeric (v : value) : option Q :=
  match v with
  | VBool b => Some (if b then 1 else 0)%Q
  | VInt z => Some (inject_Z z)
  | VFloat q => Some q
  | _ => None
  end.

End Builtins.

(** ** Sizes of the shapes the data-structure scenes draw *)

Module Shapes.

(** [Rectangle(width=1.2, height=1)] of an array box. *)
Definition array_box_width : Q := 12 # 10.
(** [Rectangle(width=2, height=0.6)] of a stack element, and the base
    [Rectangle(width=2.5, height=0.3)] shifted [DOWN * 3]. *)
Definition stack_element_height : Q := 6 # 10.
Definition stack_base_height : Q := 3 # 10.
Definition stack_base_center_y : Q := - 3.

End Shapes.

(** ** Linked-list scene: [create_linked_list_visualization] *)

Module LinkedList.
Import Py Geometry.

(** A node is a data box ([width=1]) and a pointer box ([width=0.6]) 0.8 to
    its right; the last node shows the null sign instead of an arrow. *)
Record list_node := mkListNode {
  node_value : value;
  data_box_x : Q;
  pointer_box_x : Q;
  null_pointer : bool
}.

Definition data_box_width : Q := 1.
Definition pointer_box_width : Q := 6 # 10.

(** [Arrow(pointer_box.get_right(), pointer_box.get_right() + RIGHT * 1.4)]:
    the two points the arrow is given.  It is drawn with the default
    [buff], so its tip is at [arrow_tip_x]. *)
Record list_arrow := mkListArrow {
  arrow_start_x : Q;
  arrow_end_x : Q
}.

Definition arrow_tip_x (a : list_arrow) : Q := (arrow_end_x a - Manim.arrow_buff)%Q.

Inductive list_anim : Type :=
| CreateNode (i : nat)
| CreateArrow (i : nat)
| WriteProperties.

Record list_scene := mkListScene {
  nodes : list list_node;
  arrows : list list_arrow;
  played : list list_anim
}.

(** [node_x = i * 3 - len(data) * 1.5 + 1.5] *)
Definition node_x (i len : nat) : Q :=
  (inject_Z (Z.of_nat i) * 3 - inject_Z (Z.of_nat len) * (15 # 10) + (15 # 10))%Q.

Definition node_body (len i : nat) (v : value) : list_node * list list_arrow :=
  let x := node_x i len in
  let pointer_x := (x + (8 # 10))%Q in
  if (Z.of_nat i <? Z.of_nat len - 1)%Z then
    let right := (pointer_x + pointer_box_width / 2)%Q in
    ({| node_value := v; data_box_x := x; pointer_box_x := pointer_x;
        null_pointer := false |},
     [ {| arrow_start_x := right; arrow_end_x := (right + (14 # 10))%Q |} ])
  else
    ({| node_value := v; data_box_x := x; pointer_box_x := pointer_x;
        null_pointer := true |}, []).

Fixpoint node_loop (len i : nat) (data : list value) : list list_node * list list_arrow :=
  match data with
  | [] => ([], [])
  | v :: rest =>
      let here := node_body len i v in
      let later := node_loop len (S i) rest in
      (fst here :: fst later, snd here ++ snd later)
  end.

(** [for i, node in enumerate(nodes)]: the node, then [arrows[i]] when there
    is one. *)
Fixpoint play_loop (arrow_count i : nat) (nodes : list list_node) : list list_anim :=
  match nodes with
  | [] => []
  | _ :: rest =>
      CreateNode i
      :: (if (i <? arrow_count)%nat then [CreateArrow i] else [])
      ++ play_loop arrow_count (S i) rest
  end.

(** The scene that is drawn, and how the method ends: its last statement
    calls [perform_linked_list_operations], which the class does not
    define. *)
Definition create_linked_list_visualization (data : list value) (operations : list dict)
    : list_scene * result unit :=
  let drawn := node_loop (length data) 0 data in
  ({| nodes := fst drawn;
      arrows := snd drawn;
      played := play_loop (length (snd drawn)) 0 (fst drawn) ++ [WriteProperties] |},
   Raise (AttributeError "perform_linked_list_operations")).

End LinkedList.

(** ** Process-flow scene: linear and branching layouts, summary *)

Module Flow.
Import Py Geometry.

(** *** [create_linear_flow] *)

(** [step.get('timing', f'{i+1}s')] *)
Inductive timing_label : Type :=
| GivenTiming (v : value)
| SecondsOf (n : nat).

Definition timing_truthy (t : timing_label) : bool :=
  match t with
  | GivenTiming v => Builtins.truthy v
  | SecondsOf _ => true
  end.

Record linear_step := mkLinearStep {
  ls_label : ProcessFlow.label;
  ls_shape : ProcessFlow.shape;
  ls_y : Q;
  ls_description : option value;
  ls_timing : option timing_label
}.

(** The arrow below step [arrow_below]. *)
Record linear_arrow := mkLinearArrow {
  arrow_below : nat
}.

Inductive linear_anim : Type :=
| CreateStep (i : nat) (s : linear_step)
| CreateArrow (a : linear_arrow).

Record linear_scene := mkLinearScene {
  step_objects : list linear_step;
  arrows : list linear_arrow;
  played : list linear_anim
}.

(** [y_position = 2 - i * 1.8] *)
Definition linear_y (i : nat) : Q := (2 - inject_Z (Z.of_nat i) * (18 # 10))%Q.

(** The body of the loop.  The label and, when there is one, the
    description are made into [Text]; the timing is put into an f-string
    first. *)
Definition linear_body (len : nat) (show_timing : bool) (i : nat) (step : dict)
    : result (linear_step * list linear_arrow) :=
  let step_name := ProcessFlow.step_name step i in
  let step_type := get step "type" (VStr "process") in
  let description := get step "description" (VStr "") in
  let timing :=
    if show_timing
    then Some (match assoc "timing" step with
               | Some v => GivenTiming v
               | None => SecondsOf (i + 1)
               end)
    else None in
  (outline <- ProcessFlow.create_step_shape step_type step_name ;;
   shown <- (if Builtins.truthy description
             then (text <- Manim.text description ;; Ok (Some description))
             else Ok None) ;;
   Ok ({| ls_label := step_name;
          ls_shape := outline;
          ls_y := linear_y i;
          ls_description := shown;
          ls_timing := match timing with
                       | Some t => if timing_truthy t then Some t else None
                       | None => None
                       end |},
       if (Z.of_nat i <? Z.of_nat len - 1)%Z then [ {| arrow_below := i |} ] else []))%result.

Fixpoint linear_loop (len : nat) (show_timing : bool) (i : nat) (steps_data : list dict)
    : result (list linear_step * list linear_arrow) :=
  match steps_data with
  | [] => Ok ([], [])
  | step :: rest =>
      (here <- linear_body len show_timing i step ;;
       later <- linear_loop len show_timing (S i) rest ;;
       Ok (fst here :: fst later, snd here ++ snd later))%result
  end.

(** [for i, (step_obj, arrow) in enumerate(zip(step_objects, arrows + [None]))] *)
Definition play_pair (i : nat) (pair : linear_step * option linear_arrow)
    : list linear_anim :=
  CreateStep i (fst pair)
  :: match snd pair with
     | Some a => [CreateArrow a]
     | None => []
     end.

Definition play_linear (step_objects : list linear_step) (arrows : list linear_arrow)
    : list linear_anim :=
  concat (imap play_pair (zip step_objects ((Some <$> arrows) ++ [None]))).

Definition create_linear_flow (steps_data : list dict) (show_timing : bool)
    : result linear_scene :=
  (drawn <- linear_loop (length steps_data) show_timing 0 steps_data ;;
   Ok {| step_objects := fst drawn;
         arrows := snd drawn;
         played := play_linear (fst drawn) (snd drawn) |})%result.

(** *** [create_branching_flow] *)

Definition on_main (step : dict) : bool :=
  is_str (get step "branch" (VStr "main")) "main".

Definition has_condition (c : string) (step : dict) : bool :=
  is_str (get step "condition" VNone) c.

(** [next((s for s in branch_steps if s.get('condition') == c), None)] *)
Definition first_with (c : string) (branch_steps : list dict) : option dict :=
  List.find (has_condition c) branch_steps.

Inductive branch_object : Type :=
| MainShape (i : nat) (name : ProcessFlow.label) (shape : ProcessFlow.shape) (place : vec)
| YesShape (i : nat) (name : value) (place : vec)
| NoShape (i : nat) (name : value) (place : vec).

Inductive branch_arrow : Type :=
| YesArrow (i : nat)
| YesLabel (i : nat)
| NoArrow (i : nat)
| NoLabel (i : nat)
| MainArrow (i : nat).

(** [UP * (2 - i * 2)] *)
Definition main_y (i : nat) : Q := (2 - inject_Z (Z.of_nat i) * 2)%Q.

(** The branch of a decision on one side: drawn when an entry with the
    condition was found and is a non-empty dictionary; its shape is
    [create_step_shape('process', name)]. *)
Definition side_branch (found : option dict) (dflt : string)
    (shape : value -> branch_object) (arrow label : branch_arrow)
    : result (list branch_object * list branch_arrow) :=
  match found with
  | Some s =>
      if list_truthy s
      then
        let name := get s "name" (VStr dflt) in
        (outline <- ProcessFlow.create_step_shape (VStr "process")
                      (ProcessFlow.Named name) ;;
         Ok ([shape name], [arrow; label]))%result
      else Ok ([], [])
  | None => Ok ([], [])
  end.

Definition branching_body (main_count : nat) (branch_steps : list dict)
    (i : nat) (step : dict) : result (list branch_object * list branch_arrow) :=
  let step_name := ProcessFlow.step_name step i in
  let step_type := get step "type" (VStr "process") in
  let main_arrow :=
    if (Z.of_nat i <? Z.of_nat main_count - 1)%Z then [MainArrow i] else [] in
  (outline <- ProcessFlow.create_step_shape step_type step_name ;;
   let here := MainShape i step_name outline (UP (main_y i)) in
   yes <- (if is_str step_type "decision"
           then side_branch (first_with "yes" branch_steps) "Yes"
                  (fun name => YesShape i name (vadd (RIGHT 3) (UP (main_y i))))
                  (YesArrow i) (YesLabel i)
           else Ok ([], [])) ;;
   no <- (if is_str step_type "decision"
          then side_branch (first_with "no" branch_steps) "No"
                 (fun name => NoShape i name (vadd (RIGHT (- 3)) (UP (main_y i))))
                 (NoArrow i) (NoLabel i)
          else Ok ([], [])) ;;
   Ok (here :: fst yes ++ fst no, snd yes ++ snd no ++ main_arrow))%result.

Fixpoint branching_loop (main_count : nat) (branch_steps : list dict)
    (i : nat) (main_steps : list dict)
    : result (list branch_object * list branch_arrow) :=
  match main_steps with
  | [] => Ok ([], [])
  | step :: rest =>
      (here <- branching_body main_count branch_steps i step ;;
       later <- branching_loop main_count branch_steps (S i) rest ;;
       Ok (fst here ++ fst later, snd here ++ snd later))%result
  end.

Definition create_branching_flow (steps_data : list dict) (show_timing : bool)
    : result (list branch_object * list branch_arrow) :=
  let main_steps := filter (fun s => on_main s = true) steps_data in
  let branch_steps := filter (fun s => on_main s <> true) steps_data in
  branching_loop (length main_steps) branch_steps 0 main_steps.

(** *** [show_process_summary] *)

(** [step_counts[t] = step_counts.get(t, 0) + 1] on a dictionary that keeps
    the order in which its keys came in. *)
Fixpoint bump (t : string) (step_counts : list (string * nat)) : list (string * nat) :=
  match step_counts with
  | [] => [(t, 1)]
  | (t', c) :: rest =>
      if String.eqb t t' then (t', c + 1) :: rest else (t', c) :: bump t rest
  end.

(** The counting loop.  A list or a dictionary as step type cannot be a key
    and raises at once; another value that is not a string is counted, and
    makes the summary lines fail later on its [title()]. *)
Fixpoint count_types (steps_data : list dict) (step_counts : list (string * nat))
    (not_a_string : bool) : result (list (string * nat) * bool) :=
  match steps_data with
  | [] => Ok (step_counts, not_a_string)
  | step :: rest =>
      match get step "type" (VStr "process") with
      | VStr t => count_types rest (bump t step_counts) not_a_string
      | VList _ | VDict _ => Raise TypeError
      | _ => count_types rest step_counts true
      end
  end.

(** The summary: the total and one line per step type ([type.title()] and
    its count), in the order the types first came.  Nothing is shown for an
    empty list. *)
Record summary := mkSummary {
  total_steps : nat;
  type_lines : list (string * nat)
}.

Definition show_process_summary (steps_data : list dict) : result (option summary) :=
  if negb (list_truthy steps_data) then Ok None
  else
    (counted <- count_types steps_data [] false ;;
     if snd counted then Raise (AttributeError "title")
     else Ok (Some {| total_steps := length steps_data;
                      type_lines := fst counted |}))%result.

End Flow.

(** ** Protocol-exchange scene: [animate_http_cycle] *)

Module HTTPScene.
Import Py.

Definition status_texts : list (Z * string) :=
  [ (200, "OK"); (201, "Created"); (204, "No Content");
    (301, "Moved Permanently"); (302, "Found"); (304, "Not Modified");
    (400, "Bad Request"); (401, "Unauthorized"); (403, "Forbidden");
    (404, "Not Found"); (500, "Internal Server Error"); (502, "Bad Gateway");
    (503, "Service Unavailable") ]%Z.

Fixpoint lookup_code (q : Q) (table : list (Z * string)) : option string :=
  match table with
  | [] => None
  | (code, text) :: rest =>
      if Qeq_bool (inject_Z code) q then Some text else lookup_code q rest
  end.

(** [status_texts.get(status_code, "Unknown")]: a key is found when it is
    equal as a number; a list or a dictionary cannot be looked up. *)
Definition get_status_text (status_code : value) : result string :=
  match status_code with
  | VList _ | VDict _ => Raise TypeError
  | _ =>
      match Builtins.numeric status_code with
      | Some q => Ok (default "Unknown" (lookup_code q status_texts))
      | None => Ok "Unknown"
      end
  end.

(** The header lines that are shown: [if headers:], then one line per item
    of [headers.items()], of which the first three are joined. *)
Definition shown_headers (headers : value) : result (list (string * value)) :=
  if Builtins.truthy headers then
    match headers with
    | VDict kv => Ok (take 3 kv)
    | _ => Raise (AttributeError "items")
    end
  else Ok [].

(** [step.get('description', f'Step {step_number}')] *)
Inductive description : Type :=
| Described (v : value)
| StepNumbered (n : nat).

Inductive exchange : Type :=
| Request (method url : value) (header_lines : list (string * value))
| Response (status : option (value * string)) (header_lines : list (string * value)).

Record shown_step := mkShown {
  step_number : nat;
  step_description : description;
  step_exchange : exchange
}.

Definition animate_request (method url headers : value) : result exchange :=
  (lines <- shown_headers headers ;; Ok (Request method url lines))%result.

(** [if status_code:] decides between ["{status_code} {status_text}"] and
    the plain ["Response"]. *)
Definition animate_response (status_code headers : value) : result exchange :=
  (status <- (if Builtins.truthy status_code
              then (text <- get_status_text status_code ;; Ok (Some (status_code, text)))
              else Ok None) ;;
   lines <- shown_headers headers ;;
   Ok (Response status lines))%result.

Definition cycle_body (show_headers show_status_codes : bool) (i : nat) (step : dict)
    : result shown_step :=
  let number := i + 1 in
  let descr := match assoc "description" step with
               | Some v => Described v
               | None => StepNumbered number
               end in
  let direction := get step "direction" (VStr "request") in
  let method := get step "method" (VStr "GET") in
  let url := get step "url" (VStr "/api/data") in
  let status_code := get step "status_code" (VInt 200) in
  let headers := get step "headers" (VDict []) in
  (shown <- (if is_str direction "request"
             then animate_request method url (if show_headers then headers else VNone)
             else animate_response (if show_status_codes then status_code else VNone)
                                   (if show_headers then headers else VNone)) ;;
   Ok {| step_number := number; step_description := descr; step_exchange := shown |})%result.

Fixpoint cycle_loop (show_headers show_status_codes : bool) (i : nat)
    (steps_data : list dict) : result (list shown_step) :=
  match steps_data with
  | [] => Ok []
  | step :: rest =>
      (here <- cycle_body show_headers show_status_codes i step ;;
       later <- cycle_loop show_headers show_status_codes (S i) rest ;;
       Ok (here :: later))%result
  end.

Definition animate_http_cycle (steps_data : list dict)
    (show_headers show_status_codes : bool) : result (list shown_step) :=
  cycle_loop show_headers show_status_codes 0 steps_data.

End HTTPScene.

(** ** Name-resolution scene: the servers and the arrows between them *)

Module DNSScene.
Import Py Geometry.

(** The label of the TLD server in [create_dns_infrastructure]:
    [domain_parts[-1] if len(domain_parts) > 1 else "com"]. *)
Definition tld_label (domain : string) : string :=
  let domain_parts := split "." domain in
  if (1 <? length domain_parts)%nat then last_item domain_parts else "com".

(** The centres of the server groups; a group is arranged around the origin
    and then shifted, so its centre is its shift.  The cache group exists
    when the generator was called with [show_cache] true. *)
Record infrastructure := mkInfra {
  client_center : vec;
  root_center : vec;
  tld_center : vec;
  auth_center : vec;
  cache_center : option vec
}.

Definition create_dns_infrastructure (show_cache : bool) : infrastructure :=
  {| client_center := vadd (DOWN 3) (RIGHT (- 5));
     root_center := UP (25 # 10);
     tld_center := vadd (UP (1 # 2)) (RIGHT (- 3));
     auth_center := vadd (UP (1 # 2)) (RIGHT 3);
     cache_center := if show_cache
                     then Some (vadd (DOWN (15 # 10)) (RIGHT (- 2)))
                     else None |}.

(** [positions.get(server_name, ORIGIN)], the cache falling back on the
    client when the scene has no cache group. *)
Definition get_server_position (infra : infrastructure) (server_name : string) : vec :=
  if String.eqb server_name "client" then client_center infra
  else if String.eqb server_name "cache"
       then default (client_center infra) (cache_center infra)
  else if String.eqb server_name "root" then root_center infra
  else if String.eqb server_name "tld" then tld_center infra
  else if String.eqb server_name "auth" then auth_center infra
  else ORIGIN.

(** The arrow of a step and the side of its label:
    [UP if from_pos[1] < to_pos[1] else DOWN]. *)
Record step_arrow := mkStepArrow {
  arrow_from : vec;
  arrow_to : vec;
  label_above : bool
}.

Definition arrow_of (infra : infrastructure) (s : DNS.Step) : step_arrow :=
  let from_pos := get_server_position infra (DNS.actor_from s) in
  let to_pos := get_server_position infra (DNS.actor_to s) in
  {| arrow_from := from_pos;
     arrow_to := to_pos;
     label_above := if Qlt_le_dec (snd from_pos) (snd to_pos) then true else false |}.

(** The arrows of a request: the infrastructure and the steps are built
    from the same [show_cache]. *)
Definition arrows (domain : string) (show_cache show_timing : bool) : list step_arrow :=
  arrow_of (create_dns_infrastructure show_cache)
    <$> DNS.animate_dns_resolution domain show_cache show_timing [].

Definition same_point (a b : vec) : Prop :=
  (fst a == fst b)%Q /\ (snd a == snd b)%Q.

End DNSScene.

(** ** The service: the scene class a render is asked for *)

Module Service.
Import Py.

(** The class name each [generate_*_diagram] hands to
    [_execute_manim_script]. *)
Definition class_name (f : family) : string :=
  match f with
  | ProtocolExchange => "HTTPFlow"
  | NameResolution => "DNSResolution"
  | DataStructureKind => "DataStructure"
  | ProcessFlowKind => "ProcessFlow"
  end.

(** [f"{class_name}_{animation_id.replace('-', '_')}"], the scene named on
    the command line. *)
Definition requested_scene (f : family) (animation_id : string) : string :=
  class_name f +:+ "_" +:+ replace "-" "_" animation_id.

(** The class header of each template,
    [class HTTPFlow_{animation_id.replace("-", "_")}(Scene)] and its like. *)
Definition emitted_class (f : family) (animation_id : string) : string :=
  match f with
  | ProtocolExchange => "HTTPFlow_" +:+ replace "-" "_" animation_id
  | NameResolution => "DNSResolution_" +:+ replace "-" "_" animation_id
  | DataStructureKind => "DataStructure_" +:+ replace "-" "_" animation_id
  | ProcessFlowKind => "ProcessFlow_" +:+ replace "-" "_" animation_id
  end.

Definition is_letter (c : ascii) : bool :=
  let n := nat_of_ascii c in
  ((65 <=? n) && (n <=? 90) || (97 <=? n) && (n <=? 122))%nat.

Definition is_name_char (c : ascii) : bool :=
  is_letter c || is_digit c || Ascii.eqb c "_".

(** A character of ASCII. *)
Definition is_ascii (c : ascii) : bool := (nat_of_ascii c <? 128)%nat.

(** [str.isidentifier] on a string of ASCII characters: a letter or an
    underscore, then letters, digits and underscores.  (Outside ASCII the
    language admits more letters; nothing is said of such strings.) *)
Definition is_ascii_identifier (s : string) : bool :=
  match s with
  | EmptyString => false
  | String c rest =>
      (is_letter c || Ascii.eqb c "_")
      && forallb is_name_char (list_ascii_of_string rest)
  end.

(** The characters of [str(uuid.uuid4())] and of the identifiers the tests
    use: letters, digits and hyphens. *)
Definition is_id_char (c : ascii) : bool :=
  is_letter c || is_digit c || Ascii.eqb c "-".

End Service.

(** ** What the process summary is measured against *)

Module FlowSpec.
Import Py.

(** [step.get('type', 'process')] *)
Definition type_of (step : dict) : value := get step "type" (VStr "process").

(** The number of steps of a type. *)
Definition steps_of_type (t : string) (steps_data : list dict) : nat :=
  length (filter (fun s => is_str (type_of s) t = true) steps_data).

(** A step type that is a string, and one that cannot be a dictionary key. *)
Definition string_typed (step : dict) : bool :=
  match type_of step with
  | VStr _ => true
  | _ => false
  end.

Definition unhashable_typed (step : dict) : bool :=
  match type_of step with
  | VList _ | VDict _ => true
  | _ => false
  end.

(** A step whose name, when it gives one, is a string, and whose
    description, when it is shown, is a string. *)
Definition text_named (step : dict) : bool :=
  match assoc "name" step with
  | Some (VStr _) | None => true
  | Some _ => false
  end.

Definition text_described (step : dict) : bool :=
  let description := get step "description" (VStr "") in
  negb (Builtins.truthy description)
  || match description with VStr _ => true | _ => false end.

(** The count a summary shows for a type, 0 when it has no line for it. *)
Definition line_count (t : string) (lines : list (string * nat)) : nat :=
  match List.find (fun line => String.eqb t (fst line)) lines with
  | Some line => snd line
  | None => 0
  end.

End FlowSpec.

(** ** Inputs of the repository's tests and defaults *)

Module Examples.
Import Py.


(** Data whose greatest item is zero. *)
Definition no_positive_data : list Z := [-2; 0; -5]%Z.

(** Two accesses, the second counted from the end. *)
Definition access_operations : list dict :=
  [ [("type", VStr "access"); ("index", VInt 2)];
    [("index", VInt (-1))] ].

(** The authentication flow of the branching test. *)
Definition authentication_flow : list dict :=
  [ [("name", VStr "Start"); ("type", VStr "start"); ("branch", VStr "main")];
    [("name", VStr "Check Credentials"); ("type", VStr "decision");
     ("branch", VStr "main")];
    [("name", VStr "Grant Access"); ("type", VStr "process");
     ("branch", VStr "yes"); ("condition", VStr "yes")];
    [("name", VStr "Deny Access"); ("type", VStr "process");
     ("branch", VStr "no"); ("condition", VStr "no")];
    [("name", VStr "End"); ("type", VStr "end"); ("branch", VStr "main")] ].

(** A flow with a step whose type is a number. *)
Definition numbered_type_flow : list dict :=
  [ [("name", VStr "Start"); ("type", VStr "start")];
    [("name", VStr "Check"); ("type", VInt 2)] ].

(** The login request of the headers test, and its answer. *)
Definition login_exchange : list dict :=
  [ [("description", VStr "POST request with headers");
     ("direction", VStr "request");
     ("method", VStr "POST");
     ("url", VStr "/api/login");
     ("headers", VDict [("Content-Type", VStr "application/json");
                        ("Authorization", VStr "Bearer token")])];
    [("description", VStr "Return user data");
     ("direction", VStr "response");
     ("status_code", VInt 200)] ].

End Examples.

(** * Theorems *)

(** ** The generator monad: what a method can observe and change *)

(** A computation is read-only when it hands back the world it was given. *)
Definition read_only {A} (m : Gen.M A) : Prop :=
  forall w, snd (m w) = w.

(** A computation is closed over the request when worlds with the same
    request give the same result and again worlds with the same request. *)
Definition request_only {A} (m : Gen.M A) : Prop :=
  forall w1 w2,
    Gen.request w1 = Gen.request w2 ->
    fst (m w1) = fst (m w2)
    /\ Gen.request (snd (m w1)) = Gen.request (snd (m w2)).

Lemma read_only_ret {A} (a : A) : read_only (Gen.ret a).
Proof. intros w. reflexivity. Qed.

Lemma read_only_raise {A} e : read_only (Gen.raise (A := A) e).
Proof. intros w. reflexivity. Qed.

Lemma read_only_lift {A} (r : result A) : read_only (Gen.lift r).
Proof. intros w. reflexivity. Qed.

Lemma read_only_param_get k dflt : read_only (Gen.param_get k dflt).
Proof. intros w. reflexivity. Qed.

Lemma read_only_bind {A B} (m : Gen.M A) (k : A -> Gen.M B) :
  read_only m -> (forall a, read_only (k a)) -> read_only (Gen.bind m k).
Proof.
  intros Hm Hk w. unfold Gen.bind.
  specialize (Hm w). destruct (m w) as [[a | e] w']; simpl in Hm; subst w'.
  - apply Hk.
  - reflexivity.
Qed.

Lemma request_only_ret {A} (a : A) : request_only (Gen.ret a).
Proof. intros w1 w2 H. split; [reflexivity | exact H]. Qed.

Lemma request_only_raise {A} e : request_only (Gen.raise (A := A) e).
Proof. intros w1 w2 H. split; [reflexivity | exact H]. Qed.

Lemma request_only_lift {A} (r : result A) : request_only (Gen.lift r).
Proof. intros w1 w2 H. split; [reflexivity | exact H]. Qed.

Lemma request_only_param_get k dflt : request_only (Gen.param_get k dflt).
Proof.
  intros w1 w2 H. unfold Gen.param_get. simpl. split; [by rewrite H | exact H].
Qed.

Lemma request_only_bind {A B} (m : Gen.M A) (k : A -> Gen.M B) :
  request_only m -> (forall a, request_only (k a)) -> request_only (Gen.bind m k).
Proof.
  intros Hm Hk w1 w2 H. unfold Gen.bind.
  destruct (Hm w1 w2 H) as [Hres Hreq].
  destruct (m w1) as [r1 w1'], (m w2) as [r2 w2']. simpl in Hres, Hreq. subst r2.
  destruct r1 as [a | e].
  - apply Hk. exact Hreq.
  - split; [reflexivity | exact Hreq].
Qed.

(** The effects no generator uses break the properties, so the properties
    do say something about the methods that have them. *)
Lemma param_set_not_read_only : ~ read_only (Gen.param_set "k" Py.VNone).
Proof.
  intros H. specialize (H {| Gen.request := []; Gen.ambient := Reference.idle |}).
  discriminate H.
Qed.

Lemma next_random_not_read_only : ~ read_only Gen.next_random.
Proof.
  intros H. specialize (H {| Gen.request := []; Gen.ambient := Reference.idle |}).
  discriminate H.
Qed.

Lemma read_clock_not_request_only : ~ request_only Gen.read_clock.
Proof.
  intros H.
  destruct (H {| Gen.request := []; Gen.ambient := Reference.idle |}
              {| Gen.request := [];
                 Gen.ambient := {| Gen.rng_state := 0; Gen.wall_clock := 1;
                                   Gen.instance_attrs := [] |} |} eq_refl) as [Hres _].
  discriminate Hres.
Qed.

Create HintDb gen_ro.
Create HintDb gen_req.

#[local] Hint Resolve read_only_ret read_only_raise read_only_lift
  read_only_param_get : gen_ro.
#[local] Hint Resolve request_only_ret request_only_raise request_only_lift
  request_only_param_get : gen_req.

Ltac gen_steps bind_lemma db :=
  repeat (apply bind_lemma; [solve [auto with db] | intros ?]); auto with db.

Lemma generate_script_read_only f animation_id :
  read_only (generate_script f animation_id).
Proof.
  destruct f; cbv [generate_script HTTPFlow.generate_script DNS.generate_script
                   DataStructure.generate_script ProcessFlow.generate_script];
    gen_steps (@read_only_bind) gen_ro.
Qed.

Lemma generate_script_request_only f animation_id :
  request_only (generate_script f animation_id).
Proof.
  destruct f; cbv [generate_script HTTPFlow.generate_script DNS.generate_script
                   DataStructure.generate_script ProcessFlow.generate_script];
    gen_steps (@request_only_bind) gen_req.
Qed.

(** C10.  A call of any of the four [generate_script] methods hands back the
    process state it was given: the request dictionary (with everything
    nested in it) and the rest of the world are what they were before the
    call, whether the call returns a script or raises. *)
Theorem generate_script_keeps_request
    (f : family) (params : Py.dict) (animation_id : string) (amb : Gen.Ambient) :
  snd (call f params animation_id amb)
  = {| Gen.request := params; Gen.ambient := amb |}.
Proof. unfold call. apply generate_script_read_only. Qed.

(** C9.  Two calls of the same generator with the same request dictionary
    and the same animation identifier have the same outcome, whatever the
    clock, the random source and the instance attributes are at each call:
    the same replacement fields in the same order, or the same exception. *)
Theorem generate_script_deterministic
    (f : family) (params : Py.dict) (animation_id : string)
    (amb1 amb2 : Gen.Ambient) :
  fst (call f params animation_id amb1) = fst (call f params animation_id amb2).
Proof.
  unfold call.
  apply (generate_script_request_only f animation_id). reflexivity.
Qed.

(** ** Name resolution *)

Lemma dns_timing_in_table (step_num : nat) :
  In (DNS.get_step_timing step_num) DNS.timings.
Proof.
  unfold DNS.get_step_timing. apply nth_In.
  apply Nat.mod_upper_bound. discriminate.
Qed.

Lemma dns_timings_lower_bound (t : Z) : In t DNS.timings -> (1 <= t)%Z.
Proof.
  unfold DNS.timings. simpl. intros H.
  repeat (destruct H as [H | H]; [subst t; lia |]). contradiction.
Qed.

(** With caching enabled the sequence has seven entries, the cache check is
    the entry at ordinal 0, and whenever timings are shown its timing is the
    least of all the timings shown. *)
Lemma dns_cache_enabled_sequence
    (domain : string) (show_timing : bool) (record_types : list string) :
  let steps := DNS.animate_dns_resolution domain true show_timing record_types in
  length steps = 7
  /\ (exists s0, steps !! 0 = Some s0
                 /\ DNS.ordinal s0 = 0
                 /\ DNS.actor_from s0 = "client" /\ DNS.actor_to s0 = "cache"
                 /\ DNS.message s0 = "Check cache for " +:+ domain
                 /\ DNS.timing_ms s0 = (if show_timing then Some 1%Z else None)
                 /\ forall k s t0 t,
                      steps !! k = Some s ->
                      DNS.timing_ms s0 = Some t0 -> DNS.timing_ms s = Some t ->
                      (t0 <= t)%Z)
  /\ (forall k s, steps !! k = Some s -> DNS.ordinal s = k).
Proof.
  cbv zeta. split; [reflexivity |]. split.
  - eexists. split; [reflexivity |].
    repeat (split; [reflexivity |]).
    intros k s t0 t Hk H0 Ht.
    unfold DNS.animate_dns_resolution in Hk.
    rewrite list_lookup_imap in Hk.
    destruct (DNS.build_steps domain true !! k) as [[[[a b] c] d] |]; [| discriminate].
    simpl in Hk. injection Hk as <-. simpl in Ht, H0.
    destruct show_timing; [| discriminate].
    injection H0 as <-. injection Ht as <-.
    apply dns_timings_lower_bound, dns_timing_in_table.
  - intros k s Hk.
    unfold DNS.animate_dns_resolution in Hk.
    rewrite list_lookup_imap in Hk.
    destruct (DNS.build_steps domain true !! k) as [[[[a b] c] d] |]; [| discriminate].
    simpl in Hk. injection Hk as <-. reflexivity.
Qed.

(** The generator passes [show_cache] on as it was given: a request with
    caching disabled reaches the scene as [False]. *)
Lemma dns_show_cache_passed_on (amb : Gen.Ambient) :
  fst (call NameResolution [("show_cache", Py.VBool false)] "dns-test" amb)
  = Ok [ Gen.Text "dns_test";
         Gen.ByStr (Py.VStr "example.com"); Gen.ByStr (Py.VStr "example.com");
         Gen.ByStr (Py.VBool false); Gen.ByStr (Py.VBool true);
         Gen.ByDumps (Py.VList [Py.VStr "A"]);
         Gen.ByStr (Py.VStr "example.com"); Gen.ByStr (Py.VStr "example.com");
         Gen.ByStr (Py.VStr "example.com");
         Gen.ByStr (Py.VBool false); Gen.ByStr (Py.VBool false);
         Gen.ByStr (Py.VStr "example.com") ].
Proof. reflexivity. Qed.

(** C1, caching disabled.  The scene tests the set display [{show_cache}],
    which is true for [False] as well: the cache check is inserted all the
    same, so the sequence has seven entries and not six, and it is the
    sequence of the caching-enabled request. *)
Theorem dns_cache_disabled_sequence
    (domain : string) (show_timing : bool) (record_types : list string) :
  let steps := DNS.animate_dns_resolution domain false show_timing record_types in
  length steps = 7
  /\ length steps <> 6
  /\ (exists s0, steps !! 0 = Some s0 /\ DNS.is_cache_check s0 = true)
  /\ steps = DNS.animate_dns_resolution domain true show_timing record_types.
Proof.
  cbv zeta. split; [reflexivity |]. split; [discriminate |]. split.
  - eexists. split; reflexivity.
  - reflexivity.
Qed.

(** ** Data structures: the generator *)

(** Every row of the complexity table, and the fallback, has the five keys. *)
Lemma complexity_rows (s : string) :
  exists a b c d e,
    default DataStructure.unknown_complexity (DataStructure.complexities !! s)
    = DataStructure.complexity_row a b c d e.
Proof.
  destruct (DataStructure.complexities !! s) as [row |] eqn:Hrow; simpl.
  - unfold DataStructure.complexities in Hrow.
    apply elem_of_list_to_map_2 in Hrow.
    repeat (apply elem_of_cons in Hrow as [Hrow | Hrow];
            [injection Hrow as _ ->; do 5 eexists; reflexivity |]).
    apply elem_of_nil in Hrow. contradiction.
  - do 5 eexists. reflexivity.
Qed.

(** The row of the table that the template turns into a nested replacement
    field is not a format spec a string accepts. *)
Lemma complexities_field_raises :
  DataStructure.complexities_field = Raise Py.ValueError.
Proof. vm_compute. reflexivity. Qed.

(** Whatever the request, [DataStructureGenerator.generate_script] raises
    and returns no script: a type that cannot be hashed or has no [replace]
    stops it early, and otherwise the dictionary display left with single
    braces in the template does. *)
Lemma data_structure_script_never_returned
    (params : Py.dict) (animation_id : string) (amb : Gen.Ambient) :
  exists e, fst (call DataStructureKind params animation_id amb) = Raise e.
Proof.
  unfold call, generate_script, DataStructure.generate_script.
  unfold Gen.bind at 1. unfold Gen.param_get at 1. cbn [Gen.request].
  destruct (Py.get params "type" (Py.VStr "array")) as [| b | z | q | s | l | kv];
    try (eexists; reflexivity).
  destruct (complexity_rows s) as (a & b & c & d & e & Hrow).
  eexists.
  cbv [Gen.bind Gen.param_get Gen.lift DataStructure.get_complexity_data
       DataStructure.title_field].
  rewrite Hrow. cbn [DataStructure.complexity_row Py.subscript Py.assoc String.eqb
                     Ascii.eqb Bool.eqb].
  rewrite complexities_field_raises. reflexivity.
Qed.

(** What does hold of the array example: five boxes, box [i] centred at
    [(i - 5/2 + 0.5) * 1.4], and the complexity entries of an array. *)
Lemma array_example_layout :
  let boxes := DataStructure.create_boxes (Reference.one_to 5) in
  length boxes = 5
  /\ (forall i b, boxes !! i = Some b ->
        DataStructure.cell_index b = i
        /\ Geometry.vx (DataStructure.cell_center b)
           == (inject_Z (Z.of_nat i) - (5 # 2) + (1 # 2)) * (14 # 10)
        /\ Geometry.vy (DataStructure.cell_center b) == 0)
  /\ (exists info,
        DataStructure.get_complexity_data (Py.VStr "array") = Ok info
        /\ Py.subscript info "access" = Ok (Py.VStr "O(1)")
        /\ Py.subscript info "search" = Ok (Py.VStr "O(n)")).
Proof.
  cbv zeta. split; [reflexivity |]. split.
  - intros i b Hb.
    do 5 (destruct i as [| i]; [injection Hb as <-; repeat split; vm_compute; reflexivity |]).
    discriminate Hb.
  - eexists. split; [vm_compute; reflexivity |]. split; reflexivity.
Qed.

(** C7.  On the request of the array example the generator raises
    [ValueError] while it fills the template, so no scene is produced; and
    the array method of the template, run on the same data and operation,
    raises at the update because the scene class has no
    [update_array_element]: no update step is performed. *)
Theorem array_update_example_raises (amb : Gen.Ambient) :
  fst (call DataStructureKind Reference.array_update_request "array-test" amb)
  = Raise Py.ValueError
  /\ DataStructure.create_array_visualization
       (Reference.one_to 5) [Reference.update_operation]
     = Raise (Py.AttributeError "update_array_element").
Proof. split; vm_compute; reflexivity. Qed.

(** The fallback branch of the template: a kind outside the seven supported
    ones is drawn by the generic method, which is handed the data and not
    the operations. *)
Lemma construct_unknown_kind
    (kind : string) (data : list Py.value) (operations : list Py.dict) :
  ~ In kind DataStructure.supported_kinds ->
  DataStructure.construct kind data operations
  = (d <- DataStructure.literal (Py.VList data) ;;
     s <- DataStructure.create_generic_visualization data ;;
     Ok (DataStructure.DrawnGeneric s))%result.
Proof.
  intros Hkind. unfold DataStructure.construct.
  repeat match goal with
         | |- context [String.eqb kind ?k] =>
             destruct (String.eqb_spec kind k) as [-> | _];
             [exfalso; apply Hkind; simpl; tauto |]
         end.
  reflexivity.
Qed.

(** The complexity lookup of such a kind gives the fallback record. *)
Lemma unknown_kind_complexity (kind : string) :
  ~ In kind DataStructure.supported_kinds ->
  DataStructure.get_complexity_data (Py.VStr kind)
  = Ok (DataStructure.complexity_row "O(?)" "O(?)" "O(?)" "O(?)" "O(?)").
Proof.
  intros Hkind. unfold DataStructure.get_complexity_data.
  destruct (DataStructure.complexities !! kind) as [row |] eqn:Hrow; [| reflexivity].
  exfalso. apply Hkind.
  unfold DataStructure.complexities in Hrow.
  apply elem_of_list_to_map_2 in Hrow.
  repeat (apply elem_of_cons in Hrow as [Hrow | Hrow];
          [injection Hrow as -> _; simpl; tauto |]).
  apply elem_of_nil in Hrow. contradiction.
Qed.

(** C8.  A request whose kind is none of the seven makes the generator
    raise [ValueError] like every other request: the driver fails before a
    script exists, although the template has the generic branch and the
    complexity lookup gives the fallback record. *)
Theorem unknown_kind_request_raises (amb : Gen.Ambient) :
  ~ In "trie" DataStructure.supported_kinds
  /\ fst (call DataStructureKind Reference.unknown_kind_request "trie-test" amb)
     = Raise Py.ValueError
  /\ DataStructure.get_complexity_data (Py.VStr "trie")
     = Ok DataStructure.unknown_complexity.
Proof.
  split.
  - simpl. intros H. repeat (destruct H as [H | H]; [discriminate H |]). exact H.
  - split; vm_compute; reflexivity.
Qed.

(** ** Data structures: the binary-tree layout *)

(** Only the first seven items of the data reach the loop. *)
Lemma child_range_capped (data : list Py.value) :
  DataStructure.child_range data = DataStructure.child_range (take 7 data).
Proof.
  unfold DataStructure.child_range. rewrite length_take.
  replace (Nat.min (7 `min` length data) 7) with (Nat.min (length data) 7) by lia.
  reflexivity.
Qed.

(** With two items or more the loop over the children is entered, and its
    first pass raises at the lookup of [math]. *)
Lemma tree_children_raise (data : list Py.value) (st : DataStructure.tree_scene) :
  2 <= length data ->
  DataStructure.tree_children data st (DataStructure.child_range data)
  = Raise (Py.NameError "math").
Proof.
  intros Hlen. destruct data as [| d0 [| d1 rest]]; cbn [length] in Hlen; try lia.
  unfold DataStructure.child_range.
  assert (Hcount : exists n, Nat.min (length (d0 :: d1 :: rest)) 7 - 1 = S n).
  { exists (Nat.min (length (d0 :: d1 :: rest)) 7 - 2). cbn [length]. lia. }
  destruct Hcount as [n ->]. reflexivity.
Qed.

Lemma tree_raises (data : list Py.value) (operations : list Py.dict) :
  2 <= length data ->
  DataStructure.create_binary_tree_visualization data operations
  = Raise (Py.NameError "math").
Proof.
  intros Hlen. unfold DataStructure.create_binary_tree_visualization.
  destruct data as [| d0 rest]; [cbn [length] in Hlen; lia |].
  cbn [Py.list_truthy negb].
  change (Py.index (d0 :: rest) 0) with (Ok (A := Py.value) d0). cbn [Py.bind].
  rewrite tree_children_raise by exact Hlen. reflexivity.
Qed.

(** C2.  For every data list and every index [i] with
    [1 <= i < min(len(data), 7)], the binary-tree layout raises [NameError]
    and returns no scene: the level of a child is asked of [math.log2],
    and the scene imports [manim] and [json] only.  No node [i] is placed
    and no edge to a parent is drawn. *)
Theorem binary_tree_layout_raises
    (data : list Py.value) (operations : list Py.dict) (i : Z) :
  (1 <= i < Z.min (Z.of_nat (length data)) 7)%Z ->
  DataStructure.tree_level i = Raise (Py.NameError "math")
  /\ DataStructure.create_binary_tree_visualization data operations
     = Raise (Py.NameError "math").
Proof.
  intros Hi. split; [reflexivity |]. apply tree_raises. lia.
Qed.

(** ** Process flow: the circular layout *)

Lemma truediv_by_count (a : Q) (n : nat) :
  n <> 0 ->
  Py.truediv a (inject_Z (Z.of_nat n)) = Ok (a / inject_Z (Z.of_nat n))%Q.
Proof.
  intros Hn. unfold Py.truediv.
  destruct (Qeq_bool (inject_Z (Z.of_nat n)) 0) eqn:E; [| reflexivity].
  apply Qeq_bool_eq in E. unfold Qeq in E. simpl in E. lia.
Qed.

Lemma circular_angle_value (i n : nat) :
  n <> 0 ->
  ProcessFlow.circular_angle i n
  = Ok (inject_Z (Z.of_nat i) * 2 / inject_Z (Z.of_nat n) - (1 # 2))%Q.
Proof.
  intros Hn. unfold ProcessFlow.circular_angle.
  rewrite truediv_by_count by exact Hn. reflexivity.
Qed.

(** A step that is named by a string, or not named, gets its shape. *)
Lemma create_step_shape_text (step_type : Py.value) (step : Py.dict) (i : nat) :
  FlowSpec.text_named step = true ->
  exists outline,
    ProcessFlow.create_step_shape step_type (ProcessFlow.step_name step i) = Ok outline.
Proof.
  unfold FlowSpec.text_named, ProcessFlow.step_name, ProcessFlow.create_step_shape.
  intros Hname. destruct (Py.assoc "name" step) as [v |]; [| eexists; reflexivity].
  destruct v; try discriminate Hname. eexists. reflexivity.
Qed.

(** One pass of the loop body: it does not raise when there is at least one
    step and the step is named by a string, and its arrow goes to the next
    index modulo the count. *)
Lemma circular_body_value (n i : nat) (step : Py.dict) :
  n <> 0 ->
  FlowSpec.text_named step = true ->
  exists s a,
    ProcessFlow.circular_body n i step = Ok (s, a)
    /\ ProcessFlow.step_angle s
       = (inject_Z (Z.of_nat i) * 2 / inject_Z (Z.of_nat n) - (1 # 2))%Q
    /\ ProcessFlow.step_radius s = (5 # 2)%Q
    /\ ProcessFlow.step_label s = ProcessFlow.step_name step i
    /\ ProcessFlow.arrow_source a = i
    /\ ProcessFlow.arrow_target a = (i + 1) mod n
    /\ ProcessFlow.target_angle a
       = (inject_Z (Z.of_nat ((i + 1) mod n)) * 2 / inject_Z (Z.of_nat n) - (1 # 2))%Q.
Proof.
  intros Hn Hname. unfold ProcessFlow.circular_body.
  rewrite circular_angle_value by exact Hn. cbn [Py.bind].
  destruct (create_step_shape_text (Py.get step "type" (Py.VStr "process")) step i Hname)
    as [outline ->]. cbn [Py.bind].
  unfold Py.modulo. destruct (Nat.eqb_spec n 0) as [-> | _]; [contradiction |].
  cbn [Py.bind]. rewrite circular_angle_value by exact Hn. cbn [Py.bind].
  eexists. eexists. split; [reflexivity |]. repeat split.
Qed.

Lemma circular_loop_value (n : nat) (steps_data : list Py.dict) :
  n <> 0 ->
  Forall (fun step => FlowSpec.text_named step = true) steps_data ->
  forall i, exists objs arrs,
    ProcessFlow.circular_loop n i steps_data = Ok (objs, arrs)
    /\ length objs = length steps_data
    /\ length arrs = length steps_data
    /\ forall k, k < length steps_data ->
         exists s a,
           objs !! k = Some s /\ arrs !! k = Some a
           /\ ProcessFlow.step_angle s
              = (inject_Z (Z.of_nat (i + k)) * 2 / inject_Z (Z.of_nat n) - (1 # 2))%Q
           /\ ProcessFlow.arrow_source a = i + k
           /\ ProcessFlow.arrow_target a = (i + k + 1) mod n
           /\ ProcessFlow.step_radius s = (5 # 2)%Q.
Proof.
  intros Hn. induction 1 as [| step rest Hname _ IH]; intros i.
  - exists [], []. repeat split. intros k Hk. simpl in Hk. lia.
  - destruct (circular_body_value n i step Hn Hname)
      as (s & a & Hbody & Hangle & Hrad & _ & Hsrc & Htgt & _).
    destruct (IH (S i)) as (objs & arrs & Hloop & Hlo & Hla & Hrest).
    exists (s :: objs), (a :: arrs).
    cbn [ProcessFlow.circular_loop]. rewrite Hbody. cbn [Py.bind].
    rewrite Hloop. cbn [Py.bind fst snd length].
    split; [reflexivity |]. split; [congruence |]. split; [congruence |].
    intros [| k] Hk.
    + exists s, a. rewrite Nat.add_0_r. repeat split; assumption.
    + destruct (Hrest k ltac:(lia))
        as (s' & a' & Hs' & Ha' & Hang' & Hsrc' & Htgt' & Hrad').
      exists s', a'. cbn [lookup list_lookup].
      replace (i + S k) with (S i + k) by lia.
      repeat split; assumption.
Qed.

(** The point of the circle at a quarter turn below the horizontal: the
    lowest one. *)
Lemma on_circle_quarter_below (radius angle : Q) :
  (angle == - (1 # 2))%Q ->
  ProcessFlow.on_circle radius angle = (0, - Q2R radius)%R.
Proof.
  intros Hangle. unfold ProcessFlow.on_circle.
  rewrite (Qeq_eqR _ _ Hangle).
  replace (Q2R (- (1 # 2)) * PI)%R with (- (PI / 2))%R
    by (change (Q2R (- (1 # 2))) with (IZR (-1) * / IZR 2)%R; field).
  rewrite cos_neg, sin_neg, cos_PI2, sin_PI2. f_equal; ring.
Qed.

(** A request whose flow type is circular is drawn by the circular method;
    an unknown flow type is drawn as a linear flow. *)
Lemma circular_request_dispatch :
  ProcessFlow.construct_dispatch "circular" = ProcessFlow.circular_flow
  /\ forall flow_type,
       ~ In flow_type ["linear"; "branching"; "circular"] ->
       ProcessFlow.construct_dispatch flow_type = ProcessFlow.linear_flow.
Proof.
  split; [reflexivity |].
  intros flow_type Hother. unfold ProcessFlow.construct_dispatch.
  repeat match goal with
         | |- context [String.eqb flow_type ?k] =>
             destruct (String.eqb_spec flow_type k) as [-> | _];
             [exfalso; apply Hother; simpl; tauto |]
         end.
  reflexivity.
Qed.

(** C3.  A circular flow of [N >= 1] steps that are named by strings is
    drawn as [N] shapes and [N] arrows; shape [i] sits at angle
    [i*2*PI/N - PI/2] (angles are coefficients of PI), neighbours are
    [2*PI/N] apart; arrow [i] leaves shape [i] for shape [(i+1) mod N], and
    the arrow of the last shape goes back to shape 0.  For five steps the
    angles are -90, -18, 54, 126 and 198 degrees.  The first shape is not
    at the top: its angle is a quarter turn below the horizontal of a frame
    whose y axis points upwards, so it is shifted to [(0, -2.5)], the
    lowest point of the circle. *)
Theorem circular_flow_layout (steps_data : list Py.dict) (show_timing : bool) :
  1 <= length steps_data ->
  Forall (fun step => FlowSpec.text_named step = true) steps_data ->
  let N := length steps_data in
  exists scene,
    ProcessFlow.create_circular_flow steps_data show_timing = Ok scene
    /\ length (ProcessFlow.step_objects scene) = N
    /\ length (ProcessFlow.arrows scene) = N
    /\ (forall i, i < N ->
          exists s a,
            ProcessFlow.step_objects scene !! i = Some s
            /\ ProcessFlow.arrows scene !! i = Some a
            /\ ProcessFlow.step_angle s
               == inject_Z (Z.of_nat i) * 2 / inject_Z (Z.of_nat N) - (1 # 2)
            /\ ProcessFlow.arrow_source a = i
            /\ ProcessFlow.arrow_target a = (i + 1) mod N)
    /\ (exists s0, ProcessFlow.step_objects scene !! 0 = Some s0
                   /\ ProcessFlow.step_angle s0 == - (1 # 2)
                   /\ ProcessFlow.step_place s0 = (0, - (5 / 2))%R)
    /\ (forall i s s',
          ProcessFlow.step_objects scene !! i = Some s ->
          ProcessFlow.step_objects scene !! S i = Some s' ->
          ProcessFlow.step_angle s' - ProcessFlow.step_angle s
          == 2 / inject_Z (Z.of_nat N))
    /\ (exists a, ProcessFlow.arrows scene !! (N - 1) = Some a
                  /\ ProcessFlow.arrow_target a = 0)
    /\ (N = 5 ->
        Forall2 Qeq
          ((fun s => ProcessFlow.degrees (ProcessFlow.step_angle s))
             <$> ProcessFlow.step_objects scene)
          [-90; -18; 54; 126; 198]%Q).
Proof.
  intros HN Hnames N.
  assert (Hn : N <> 0) by (subst N; lia).
  destruct (circular_loop_value N steps_data Hn Hnames 0)
    as (objs & arrs & Hloop & Hlo & Hla & Hall).
  exists {| ProcessFlow.step_objects := objs; ProcessFlow.arrows := arrs;
            ProcessFlow.cycle_text := true |}.
  assert (HNQ : ~ (inject_Z (Z.of_nat N) == 0)%Q).
  { unfold Qeq. simpl. lia. }
  split.
  { unfold ProcessFlow.create_circular_flow.
    destruct steps_data as [| step rest]; [simpl in HN; lia |].
    cbn [Py.list_truthy negb]. fold N. rewrite Hloop. reflexivity. }
  cbn [ProcessFlow.step_objects ProcessFlow.arrows].
  split; [exact Hlo |]. split; [exact Hla |]. split.
  { intros i Hi. destruct (Hall i Hi) as (s & a & Hs & Ha & Hang & Hsrc & Htgt & _).
    exists s, a. rewrite Hang. repeat split; assumption || reflexivity. }
  split.
  { destruct (Hall 0 ltac:(lia)) as (s & a & Hs & _ & Hang & _ & _ & Hrad).
    assert (Hquarter : (ProcessFlow.step_angle s == - (1 # 2))%Q).
    { rewrite Hang. simpl Z.of_nat. field. exact HNQ. }
    exists s. split; [exact Hs |]. split; [exact Hquarter |].
    unfold ProcessFlow.step_place.
    rewrite (on_circle_quarter_below _ _ Hquarter), Hrad.
    reflexivity. }
  split.
  { intros i s s' Hs Hs'.
    assert (Hi : S i < N).
    { apply lookup_lt_Some in Hs'. lia. }
    destruct (Hall i ltac:(lia)) as (t & _ & Ht & _ & Hang & _).
    destruct (Hall (S i) Hi) as (t' & _ & Ht' & _ & Hang' & _).
    rewrite Hs in Ht. injection Ht as <-. rewrite Hs' in Ht'. injection Ht' as <-.
    rewrite Hang, Hang'. cbn [Nat.add].
    rewrite Nat2Z.inj_succ. unfold Z.succ. rewrite inject_Z_plus.
    field. exact HNQ. }
  split.
  { destruct (Hall (N - 1) ltac:(lia)) as (s & a & _ & Ha & _ & _ & Htgt & _).
    exists a. split; [exact Ha |]. rewrite Htgt.
    replace (0 + (N - 1) + 1) with N by lia. apply Nat.Div0.mod_same. }
  intros H5.
  assert (Hobjs : forall k, k < 5 ->
            exists s, objs !! k = Some s
                      /\ ProcessFlow.step_angle s
                         = (inject_Z (Z.of_nat k) * 2 / inject_Z 5 - (1 # 2))%Q).
  { intros k Hk. destruct (Hall k ltac:(lia)) as (s & _ & Hs & _ & Hang & _).
    exists s. split; [exact Hs |]. rewrite Hang, H5. reflexivity. }
  change (length objs = N) in Hlo. rewrite H5 in Hlo.
  destruct objs as [| o0 [| o1 [| o2 [| o3 [| o4 [| o5 more]]]]]];
    simpl in Hlo; try discriminate Hlo.
  destruct (Hobjs 0 ltac:(lia)) as (? & [= <-] & E0).
  destruct (Hobjs 1 ltac:(lia)) as (? & [= <-] & E1).
  destruct (Hobjs 2 ltac:(lia)) as (? & [= <-] & E2).
  destruct (Hobjs 3 ltac:(lia)) as (? & [= <-] & E3).
  destruct (Hobjs 4 ltac:(lia)) as (? & [= <-] & E4).
  cbn [fmap list_fmap]. unfold ProcessFlow.degrees.
  rewrite E0, E1, E2, E3, E4.
  repeat constructor; vm_compute; reflexivity.
Qed.

(** ** Data structures: the cap of the tree and empty inputs *)

(** The outcome of the tree layout on a data list is its outcome on the
    first seven items. *)
Lemma tree_scene_capped (data : list Py.value) (operations : list Py.dict) :
  DataStructure.create_binary_tree_visualization data operations
  = DataStructure.create_binary_tree_visualization (take 7 data) operations.
Proof.
  destruct (decide (2 <= length data)) as [Hlen | Hlen].
  - rewrite !tree_raises; [reflexivity | rewrite length_take; lia | exact Hlen].
  - rewrite take_ge by lia. reflexivity.
Qed.

(** C4.  A binary-tree request with more items than the cap of seven
    fails: the layout raises [NameError] at its first child, as it does on
    its first seven items alone.  The loop is bounded by the cap (it would
    visit the indices 1 to 6), and nothing in the outcome tells the request
    from its first seven items: no truncation is reported. *)
Theorem tree_over_cap_raises (data : list Py.value) (operations : list Py.dict) :
  7 < length data ->
  DataStructure.create_binary_tree_visualization data operations
  = Raise (Py.NameError "math")
  /\ DataStructure.create_binary_tree_visualization (take 7 data) operations
     = Raise (Py.NameError "math")
  /\ DataStructure.child_range data = [1; 2; 3; 4; 5; 6]%Z
  /\ ~ Reference.reports_truncation
         (fun d => DataStructure.create_binary_tree_visualization d operations)
         7 data.
Proof.
  intros Hlen.
  split; [apply tree_raises; lia |].
  split; [apply tree_raises; rewrite length_take; lia |].
  split.
  - unfold DataStructure.child_range. rewrite Nat.min_r by lia. reflexivity.
  - unfold Reference.reports_truncation. intros H. apply H. apply tree_scene_capped.
Qed.



(** ** Data structures: the stack *)

Lemma stacked_length (values : list Py.value) :
  length (Reference.stacked values) = length values.
Proof. unfold Reference.stacked. apply length_imap. Qed.

Lemma stacked_snoc (values : list Py.value) (v : Py.value) :
  Reference.stacked (values ++ [v])
  = Reference.stacked values
    ++ [ {| DataStructure.element_value := v;
            DataStructure.element_center :=
              DataStructure.stack_slot (length values) |} ].
Proof.
  unfold Reference.stacked. rewrite imap_app. cbn [imap].
  rewrite Nat.add_0_r. reflexivity.
Qed.

Lemma stacked_values (values : list Py.value) :
  DataStructure.element_value <$> Reference.stacked values = values.
Proof.
  induction values as [| v values IH] using rev_ind; [reflexivity |].
  rewrite stacked_snoc, fmap_app, IH. reflexivity.
Qed.

Lemma stacked_lookup (values : list Py.value) (k : nat) (e : DataStructure.stack_element) :
  Reference.stacked values !! k = Some e ->
  DataStructure.element_center e = DataStructure.stack_slot k
  /\ values !! k = Some (DataStructure.element_value e).
Proof.
  unfold Reference.stacked. rewrite list_lookup_imap.
  destruct (values !! k) as [v |]; [| discriminate].
  intros [= <-]. split; reflexivity.
Qed.

(** A push draws the new element in the slot after the last surviving one. *)
Lemma stack_push (values : list Py.value) (operation : Py.dict) (v : Py.value) :
  Reference.read_stack_op operation = Reference.Push v ->
  DataStructure.stack_operation (Reference.stacked values) operation
  = Ok (Reference.stacked (values ++ [v]),
        [ DataStructure.PlayPush
            {| DataStructure.element_value := v;
               DataStructure.element_center :=
                 DataStructure.stack_slot (length values) |} ]).
Proof.
  unfold Reference.read_stack_op, DataStructure.stack_operation.
  destruct (Py.is_str (Py.get operation "type" (Py.VStr "push")) "push").
  - intros [= <-]. rewrite stacked_snoc, stacked_length. reflexivity.
  - destruct (Py.is_str (Py.get operation "type" (Py.VStr "push")) "pop");
      discriminate.
Qed.

(** A pop on a stack that has elements takes the last one away. *)
Lemma stack_pop (values : list Py.value) (top : Py.value) (operation : Py.dict) :
  Reference.read_stack_op operation = Reference.Pop ->
  DataStructure.stack_operation (Reference.stacked (values ++ [top])) operation
  = Ok (Reference.stacked values,
        [ DataStructure.PlayPop
            {| DataStructure.element_value := top;
               DataStructure.element_center :=
                 DataStructure.stack_slot (length values) |} ]).
Proof.
  unfold Reference.read_stack_op, DataStructure.stack_operation.
  destruct (Py.is_str (Py.get operation "type" (Py.VStr "push")) "push");
    [discriminate |].
  destruct (Py.is_str (Py.get operation "type" (Py.VStr "push")) "pop");
    [| discriminate].
  intros _. rewrite stacked_snoc.
  assert (Htruthy : forall (l : list DataStructure.stack_element) e,
            Py.list_truthy (l ++ [e]) = true).
  { intros [| x l] e; reflexivity. }
  rewrite Htruthy. cbn [andb]. unfold Py.pop.
  rewrite last_snoc. cbn [Py.bind fst snd].
  rewrite removelast_last. reflexivity.
Qed.

(** A pop on the empty stack changes nothing, plays nothing and raises
    nothing. *)
Lemma stack_pop_empty (operation : Py.dict) :
  Reference.read_stack_op operation = Reference.Pop ->
  DataStructure.stack_operation [] operation = Ok ([], []).
Proof.
  unfold Reference.read_stack_op, DataStructure.stack_operation.
  destruct (Py.is_str (Py.get operation "type" (Py.VStr "push")) "push");
    [discriminate |].
  destruct (Py.is_str (Py.get operation "type" (Py.VStr "push")) "pop");
    [| discriminate].
  reflexivity.
Qed.

Lemma stack_skip (current : list DataStructure.stack_element) (operation : Py.dict) :
  Reference.read_stack_op operation = Reference.Skip ->
  DataStructure.stack_operation current operation = Ok (current, []).
Proof.
  unfold Reference.read_stack_op, DataStructure.stack_operation.
  destruct (Py.is_str (Py.get operation "type" (Py.VStr "push")) "push");
    [discriminate |].
  destruct (Py.is_str (Py.get operation "type" (Py.VStr "push")) "pop");
    [discriminate |].
  reflexivity.
Qed.

(** One operation of the scene is one step of the LIFO law. *)
Lemma stack_operation_refines (values : list Py.value) (operation : Py.dict) :
  exists played,
    DataStructure.stack_operation (Reference.stacked values) operation
    = Ok (Reference.stacked
            (Reference.lifo_step values (Reference.read_stack_op operation)),
          played).
Proof.
  destruct (Reference.read_stack_op operation) as [v | |] eqn:Hop.
  - eexists. apply stack_push. exact Hop.
  - destruct values as [| top values _] using rev_ind.
    + eexists. apply (stack_pop_empty operation Hop).
    + eexists. cbn [Reference.lifo_step]. rewrite removelast_last.
      apply stack_pop. exact Hop.
  - eexists. apply stack_skip. exact Hop.
Qed.

Lemma perform_stack_operations_refines
    (operations : list Py.dict) (values : list Py.value) :
  exists played,
    DataStructure.perform_stack_operations operations (Reference.stacked values)
    = Ok (Reference.stacked
            (Reference.lifo_run (Reference.read_stack_op <$> operations) values),
          played).
Proof.
  revert values. induction operations as [| operation rest IH]; intros values.
  - eexists. reflexivity.
  - destruct (stack_operation_refines values operation) as (p1 & H1).
    destruct (IH (Reference.lifo_step values (Reference.read_stack_op operation)))
      as (p2 & H2).
    exists (p1 ++ p2).
    cbn [DataStructure.perform_stack_operations]. rewrite H1. cbn [Py.bind fst snd].
    rewrite H2. reflexivity.
Qed.

(** The top of the LIFO run is the last pushed value that no later pop has
    cancelled. *)
Lemma lifo_top_after (ops : list Reference.stack_op) (initial : list Py.value) :
  forall pending,
    last (take (length (Reference.lifo_run ops initial) - pending)
               (Reference.lifo_run ops initial))
    = Reference.last_unpopped (rev ops) pending initial.
Proof.
  induction ops as [| o ops IH] using rev_ind; intros pending.
  - reflexivity.
  - unfold Reference.lifo_run in *. rewrite fold_left_app, rev_unit.
    cbn [fold_left].
    set (s := fold_left Reference.lifo_step ops initial) in *.
    destruct o as [v | |]; cbn [Reference.lifo_step Reference.last_unpopped].
    + rewrite length_app. cbn [length]. destruct pending as [| p].
      * rewrite Nat.sub_0_r, firstn_all2 by (rewrite length_app; simpl; lia).
        apply last_snoc.
      * rewrite <- IH.
        replace (length s + 1 - S p) with (length s - p) by lia.
        rewrite take_app_le by lia. reflexivity.
    + rewrite <- IH.
      rewrite removelast_firstn_len, take_take, length_take.
      f_equal. f_equal. lia.
    + apply IH.
Qed.

Lemma stack_slots_ascend (j k : nat) :
  j < k ->
  (Geometry.vy (DataStructure.stack_slot j) < Geometry.vy (DataStructure.stack_slot k))%Q.
Proof.
  intros Hjk. unfold DataStructure.stack_slot, Geometry.DOWN, Geometry.vy. cbn [snd].
  assert (H : (inject_Z (Z.of_nat j) < inject_Z (Z.of_nat k))%Q).
  { rewrite <- Zlt_Qlt. lia. }
  lra.
Qed.

(** C6.  The stack scene never raises.  It draws the initial values bottom
    first in slots 0, 1, 2, ...; after any sequence of operations the
    surviving elements are the values the LIFO law leaves (a push appends, a
    pop takes the last one away, a pop on the empty stack changes nothing),
    each in the slot of its position, so that the places are strictly
    ordered by insertion order and a pushed element sits in the slot after
    the last survivor; and the top element is the last pushed value not yet
    popped. *)
Theorem stack_lifo_trace (data : list Py.value) (operations : list Py.dict) :
  let ops := Reference.read_stack_op <$> operations in
  exists scene,
    DataStructure.create_stack_visualization data operations = Ok scene
    /\ DataStructure.stack_initial scene = Reference.stacked data
    /\ DataStructure.stack_final scene
       = Reference.stacked (Reference.lifo_run ops data)
    /\ (forall k e,
          DataStructure.stack_final scene !! k = Some e ->
          DataStructure.element_center e = DataStructure.stack_slot k)
    /\ (forall j k ej ek,
          j < k ->
          DataStructure.stack_final scene !! j = Some ej ->
          DataStructure.stack_final scene !! k = Some ek ->
          (Geometry.vy (DataStructure.element_center ej)
           < Geometry.vy (DataStructure.element_center ek))%Q)
    /\ DataStructure.element_value <$> last (DataStructure.stack_final scene)
       = Reference.last_unpopped (rev ops) 0 data
    /\ (forall values v,
          DataStructure.stack_operation (Reference.stacked values)
            [("type", Py.VStr "push"); ("value", v)]
          = Ok (Reference.stacked values
                ++ [ {| DataStructure.element_value := v;
                        DataStructure.element_center :=
                          DataStructure.stack_slot (length values) |} ],
                [ DataStructure.PlayPush
                    {| DataStructure.element_value := v;
                       DataStructure.element_center :=
                         DataStructure.stack_slot (length values) |} ]))
    /\ (forall values top,
          DataStructure.stack_operation (Reference.stacked (values ++ [top]))
            [("type", Py.VStr "pop")]
          = Ok (Reference.stacked values,
                [ DataStructure.PlayPop
                    {| DataStructure.element_value := top;
                       DataStructure.element_center :=
                         DataStructure.stack_slot (length values) |} ]))
    /\ DataStructure.stack_operation [] [("type", Py.VStr "pop")] = Ok ([], []).
Proof.
  intros ops.
  destruct (perform_stack_operations_refines operations data) as (played & Hrun).
  fold ops in Hrun.
  exists {| DataStructure.stack_initial := Reference.stacked data;
            DataStructure.top_pointer :=
              if Py.list_truthy (Reference.stacked data)
              then last (Reference.stacked data) else None;
            DataStructure.stack_final :=
              Reference.stacked (Reference.lifo_run ops data);
            DataStructure.stack_played := played |}.
  cbn [DataStructure.stack_initial DataStructure.stack_final].
  split.
  { unfold DataStructure.create_stack_visualization.
    change (imap _ data) with (Reference.stacked data).
    rewrite Hrun. reflexivity. }
  split; [reflexivity |]. split; [reflexivity |].
  split.
  { intros k e He. apply (stacked_lookup _ _ _ He). }
  split.
  { intros j k ej ek Hjk Hj Hk.
    apply stacked_lookup in Hj as [-> _]. apply stacked_lookup in Hk as [-> _].
    apply stack_slots_ascend. exact Hjk. }
  split.
  { rewrite <- fmap_last, stacked_values.
    rewrite <- (lifo_top_after ops data 0).
    rewrite Nat.sub_0_r, firstn_all. reflexivity. }
  split.
  { intros values v. rewrite <- stacked_snoc. apply stack_push. reflexivity. }
  split.
  { intros values top. apply stack_pop. reflexivity. }
  reflexivity.
Qed.

(** ** The layouts on the inputs of the examples *)

(** The tree of seven values, node 4. *)
Lemma binary_tree_layout_raises_witness :
  (1 <= 4 < Z.min (Z.of_nat (length (Reference.one_to 7))) 7)%Z
  /\ DataStructure.create_binary_tree_visualization (Reference.one_to 7) []
     = Raise (Py.NameError "math").
Proof.
  assert (Hi : (1 <= 4 < Z.min (Z.of_nat (length (Reference.one_to 7))) 7)%Z).
  { vm_compute. split; [intros H; discriminate H | reflexivity]. }
  split; [exact Hi |].
  exact (proj2 (binary_tree_layout_raises (Reference.one_to 7) [] 4 Hi)).
Defined.

(** The tree of eight values. *)
Lemma tree_over_cap_raises_witness :
  7 < length (Reference.one_to 8)
  /\ DataStructure.create_binary_tree_visualization (Reference.one_to 8) []
     = Raise (Py.NameError "math").
Proof.
  assert (Hlen : 7 < length (Reference.one_to 8)) by (vm_compute; lia).
  split; [exact Hlen |].
  exact (proj1 (tree_over_cap_raises (Reference.one_to 8) [] Hlen)).
Defined.

(** The cycle of the five steps A to E: the first of them at the bottom. *)
Lemma circular_flow_layout_witness :
  1 <= length Reference.five_steps
  /\ exists scene,
       ProcessFlow.create_circular_flow Reference.five_steps false = Ok scene
       /\ length (ProcessFlow.arrows scene) = 5
       /\ Forall2 Qeq
            ((fun s => ProcessFlow.degrees (ProcessFlow.step_angle s))
               <$> ProcessFlow.step_objects scene)
            [-90; -18; 54; 126; 198]%Q
       /\ (exists s0, ProcessFlow.step_objects scene !! 0 = Some s0
                      /\ ProcessFlow.step_place s0 = (0, - (5 / 2))%R)
       /\ exists a, ProcessFlow.arrows scene !! 4 = Some a
                    /\ ProcessFlow.arrow_target a = 0.
Proof.
  assert (HN : 1 <= length Reference.five_steps) by (vm_compute; lia).
  assert (Hnames : Forall (fun step => FlowSpec.text_named step = true)
                     Reference.five_steps)
    by (repeat constructor).
  split; [exact HN |].
  destruct (circular_flow_layout Reference.five_steps false HN Hnames)
    as (scene & Hscene & _ & Harrows & _ & (s0 & Hs0 & _ & Hplace) & _ & Hback & Hfive).
  exists scene.
  split; [exact Hscene |]. split; [exact Harrows |].
  split; [apply Hfive; reflexivity |].
  split; [exists s0; split; [exact Hs0 | exact Hplace] |].
  exact Hback.
Defined.

(** ** Algorithm scene: bubble sort *)


















(** X3.  Data whose greatest item is zero makes the scene raise
    [ZeroDivisionError] at the first bar, before anything is drawn. *)
Theorem bubble_sort_zero_maximum (data : list Z) :
  Sorting.py_max data = Ok 0%Z ->
  Sorting.animate_bubble_sort data = Raise Py.ZeroDivisionError.
Proof.
  intros Hmax. unfold Sorting.animate_bubble_sort.
  destruct data as [| v rest]; [discriminate Hmax |].
  cbn [Sorting.make_bars]. unfold Sorting.make_bar. rewrite Hmax. reflexivity.
Qed.

(** ** Data structures: what the scene class can and cannot draw *)

Lemma stack_scene_ok (data : list Py.value) (operations : list Py.dict) :
  exists scene,
    DataStructure.create_stack_visualization data operations = Ok scene
    /\ DataStructure.stack_final scene
       = Reference.stacked
           (Reference.lifo_run (Reference.read_stack_op <$> operations) data).
Proof.
  destruct (perform_stack_operations_refines operations data) as (played & Hrun).
  unfold DataStructure.create_stack_visualization.
  change (imap _ data) with (Reference.stacked data).
  rewrite Hrun. eexists. split; reflexivity.
Qed.



(** ** Data structures: array operations *)

Lemma boxes_lookup (data : list Py.value) (k : nat) (v : Py.value) :
  data !! k = Some v ->
  DataStructure.create_boxes data !! k
  = Some {| DataStructure.cell_index := k;
            DataStructure.cell_value := v;
            DataStructure.cell_center :=
              Geometry.RIGHT (DataStructure.array_x k (length data));
            DataStructure.cell_address := (1000 + Z.of_nat k * 4)%Z |}.
Proof.
  intros Hk. unfold DataStructure.create_boxes.
  rewrite list_lookup_imap, Hk. reflexivity.
Qed.

Lemma boxes_length (data : list Py.value) :
  length (DataStructure.create_boxes data) = length data.
Proof. unfold DataStructure.create_boxes. apply length_imap. Qed.

(** An index within [-len, len) reaches the box it counts to, from the
    front or from the end. *)
Lemma boxes_index (data : list Py.value) (i : Z) :
  (- Z.of_nat (length data) <= i < Z.of_nat (length data))%Z ->
  exists cell,
    Py.index (DataStructure.create_boxes data) i = Ok cell
    /\ Z.of_nat (DataStructure.cell_index cell) = (i mod Z.of_nat (length data))%Z
    /\ data !! DataStructure.cell_index cell = Some (DataStructure.cell_value cell)
    /\ DataStructure.create_boxes data !! DataStructure.cell_index cell = Some cell.
Proof.
  intros Hi. unfold Py.index. rewrite boxes_length.
  set (n := Z.of_nat (length data)) in *.
  set (j := if (i <? 0)%Z then (i + n)%Z else i).
  assert (Hj : (0 <= j < n)%Z /\ j = (i mod n)%Z).
  { subst j. destruct (Z.ltb_spec i 0).
    - split; [lia |]. apply Z.mod_unique with (q := (-1)%Z); lia.
    - split; [lia |]. symmetry. apply Z.mod_small. lia. }
  destruct Hj as [Hj Hmod].
  destruct (Z.ltb_spec j 0) as [? | _]; [lia |].
  destruct (lookup_lt_is_Some_2 data (Z.to_nat j) ltac:(lia)) as [v Hv].
  rewrite (boxes_lookup data _ v Hv).
  eexists. split; [reflexivity |]. cbn [DataStructure.cell_index DataStructure.cell_value].
  split; [lia |]. split; [exact Hv |]. apply boxes_lookup. exact Hv.
Qed.

(** X6.  Access operations whose indices lie within [-len, len) never raise:
    each gives one highlight, in the order of the operations, of the box
    the index counts to (from the end when it is negative). *)
Theorem array_access_highlights (data : list Py.value) (operations : list Py.dict) :
  (forall op, In op operations ->
     exists i,
       Py.is_str (Py.get op "type" (Py.VStr "access")) "access" = true
       /\ Py.get op "index" (Py.VInt 0) = Py.VInt i
       /\ (- Z.of_nat (length data) <= i < Z.of_nat (length data))%Z) ->
  exists steps,
    DataStructure.perform_array_operations operations (DataStructure.create_boxes data)
    = Ok steps
    /\ length steps = length operations
    /\ forall k op i,
         operations !! k = Some op ->
         Py.get op "index" (Py.VInt 0) = Py.VInt i ->
         exists cell,
           steps !! k = Some (DataStructure.Highlight cell "ACCESS")
           /\ Z.of_nat (DataStructure.cell_index cell)
              = (i mod Z.of_nat (length data))%Z
           /\ data !! DataStructure.cell_index cell
              = Some (DataStructure.cell_value cell).
Proof.
  induction operations as [| op rest IH]; intros Hall.
  - exists []. split; [reflexivity |]. split; [reflexivity |].
    intros k op i Hk. discriminate Hk.
  - destruct (Hall op ltac:(left; reflexivity)) as (i & Htype & Hindex & Hrange).
    destruct (boxes_index data i Hrange) as (cell & Hcell & Hmod & Hval & _).
    destruct IH as (later & Hlater & Hlen & Hsteps).
    { intros op' Hop'. apply Hall. right. exact Hop'. }
    exists (DataStructure.Highlight cell "ACCESS" :: later).
    cbn [DataStructure.perform_array_operations].
    unfold DataStructure.perform_array_operation.
    rewrite Htype, Hindex, Hcell. cbn [Py.bind]. rewrite Hlater. cbn [Py.bind app].
    split; [reflexivity |]. split; [cbn [length]; congruence |].
    intros [| k] op' i' Hk Hi'.
    + injection Hk as <-. rewrite Hindex in Hi'. injection Hi' as <-.
      exists cell. split; [reflexivity |]. split; [exact Hmod | exact Hval].
    + apply (Hsteps k op' i' Hk Hi').
Qed.

(** X7.  A list of operations that holds a search, or an update with a
    value, never completes: the scene class defines neither
    [search_array_element] nor [update_array_element], so the run raises
    there unless it has raised before. *)
Theorem array_update_or_search_aborts
    (operations : list Py.dict) (boxes : list DataStructure.array_cell) :
  Exists (fun op =>
            Py.is_str (Py.get op "type" (Py.VStr "access")) "search" = true
            \/ (Py.is_str (Py.get op "type" (Py.VStr "access")) "update" = true
                /\ Py.is_none (Py.get op "value" Py.VNone) = false))
         operations ->
  exists e, DataStructure.perform_array_operations operations boxes = Raise e.
Proof.
  intros Hex. induction Hex as [op rest Hop | op rest _ IH].
  - cbn [DataStructure.perform_array_operations].
    unfold DataStructure.perform_array_operation.
    destruct (Py.get op "type" (Py.VStr "access")) as [| | | | t | |];
      try (destruct Hop as [Hop | [Hop _]]; discriminate Hop).
    cbn [Py.is_str] in *.
    destruct Hop as [Hop | [Hop Hval]].
    + apply String.eqb_eq in Hop. subst t. cbn.
      destruct (Py.is_none (Py.get op "value" Py.VNone)); eexists; reflexivity.
    + apply String.eqb_eq in Hop. subst t. rewrite Hval. eexists. reflexivity.
  - cbn [DataStructure.perform_array_operations].
    destruct IH as (e & He). rewrite He.
    destruct (DataStructure.perform_array_operation boxes op); eexists; reflexivity.
Qed.

(** ** Data structures: shapes that do not run into each other *)

Ltac halves := unfold Qdiv; change (/ 2)%Q with (1 # 2)%Q.

Lemma inject_next_le (i j : nat) :
  i < j -> (inject_Z (Z.of_nat i) + 1 <= inject_Z (Z.of_nat j))%Q.
Proof.
  intros Hij. unfold Qle, Qplus, inject_Z. simpl. lia.
Qed.

(** X8.  The boxes of an array stand in a row on the axis, centred on the
    origin, and clear of each other: the right edge of a box is left of the
    left edge of every later box. *)
Theorem array_boxes_apart (data : list Py.value) (i j : nat)
    (bi bj : DataStructure.array_cell) :
  i < j ->
  DataStructure.create_boxes data !! i = Some bi ->
  DataStructure.create_boxes data !! j = Some bj ->
  (Geometry.vx (DataStructure.cell_center bi) + Shapes.array_box_width / 2
   < Geometry.vx (DataStructure.cell_center bj) - Shapes.array_box_width / 2)%Q
  /\ (Geometry.vy (DataStructure.cell_center bi) == 0)%Q
  /\ (i + j = length data - 1 ->
      (Geometry.vx (DataStructure.cell_center bi)
       + Geometry.vx (DataStructure.cell_center bj) == 0)%Q).
Proof.
  intros Hij Hi Hj.
  unfold DataStructure.create_boxes in Hi, Hj.
  rewrite list_lookup_imap in Hi, Hj.
  destruct (data !! i) as [vi |] eqn:Hvi; [| discriminate Hi].
  destruct (data !! j) as [vj |] eqn:Hvj; [| discriminate Hj].
  injection Hi as <-. injection Hj as <-.
  cbn [DataStructure.cell_center]. unfold Geometry.RIGHT, Geometry.vx, Geometry.vy.
  cbn [fst snd]. unfold DataStructure.array_x, Shapes.array_box_width.
  pose proof (inject_next_le i j Hij) as Hq.
  split; [halves; lra |]. split; [reflexivity |].
  intros Hsum.
  assert (Hlen : (inject_Z (Z.of_nat (length data))
                  == inject_Z (Z.of_nat i) + inject_Z (Z.of_nat j) + 1)%Q).
  { apply lookup_lt_Some in Hvj. unfold Qeq, Qplus, inject_Z. simpl. lia. }
  rewrite Hlen. field.
Qed.

(** X9.  After any sequence of stack operations the surviving elements are
    clear of each other and of the base: each element lies wholly above the
    one before it, and the lowest lies above the base. *)
Theorem stack_elements_apart (data : list Py.value) (operations : list Py.dict) :
  exists scene,
    DataStructure.create_stack_visualization data operations = Ok scene
    /\ (forall j k ej ek,
          j < k ->
          DataStructure.stack_final scene !! j = Some ej ->
          DataStructure.stack_final scene !! k = Some ek ->
          (Geometry.vy (DataStructure.element_center ej)
           + Shapes.stack_element_height / 2
           < Geometry.vy (DataStructure.element_center ek)
             - Shapes.stack_element_height / 2)%Q)
    /\ (forall k e,
          DataStructure.stack_final scene !! k = Some e ->
          (Shapes.stack_base_center_y + Shapes.stack_base_height / 2
           < Geometry.vy (DataStructure.element_center e)
             - Shapes.stack_element_height / 2)%Q).
Proof.
  destruct (stack_scene_ok data operations) as (scene & Hscene & Hfinal).
  exists scene. split; [exact Hscene |]. rewrite Hfinal.
  split.
  - intros j k ej ek Hjk Hj Hk.
    apply stacked_lookup in Hj as [-> _]. apply stacked_lookup in Hk as [-> _].
    unfold DataStructure.stack_slot, Geometry.DOWN, Geometry.vy,
      Shapes.stack_element_height. cbn [snd].
    pose proof (inject_next_le j k Hjk) as Hq.
    halves. lra.
  - intros k e Hk. apply stacked_lookup in Hk as [-> _].
    unfold DataStructure.stack_slot, Geometry.DOWN, Geometry.vy,
      Shapes.stack_element_height, Shapes.stack_base_center_y,
      Shapes.stack_base_height. cbn [snd].
    assert (Hq : (0 <= inject_Z (Z.of_nat k))%Q).
    { unfold Qle, inject_Z. simpl. lia. }
    halves. lra.
Qed.

(** X10.  What the binary-tree layout does on every data list: nothing at
    all on the empty list; on a single item it draws the root at the
    origin, no edge, and the properties text; on two items or more it
    raises [NameError] at the first child, after the root was played.  So
    the scene never shows more than the root. *)
Theorem tree_layout_outcome (data : list Py.value) (operations : list Py.dict) :
  DataStructure.create_binary_tree_visualization data operations
  = match data with
    | [] => Ok DataStructure.nothing_drawn
    | [root_value] =>
        Ok {| DataStructure.nodes :=
                {[ 0%Z := {| DataStructure.node_value := root_value;
                             DataStructure.node_center := Geometry.ORIGIN |} ]};
              DataStructure.edges := [];
              DataStructure.tree_played :=
                [DataStructure.CreateRoot; DataStructure.WriteProperties] |}
    | _ :: _ :: _ => Raise (Py.NameError "math")
    end.
Proof.
  destruct data as [| d0 [| d1 rest]]; [reflexivity | reflexivity |].
  apply tree_raises. cbn [length]. lia.
Qed.

(** ** Linked list *)

Lemma node_body_inner (len i : nat) (v : Py.value) :
  i < len - 1 ->
  LinkedList.node_body len i v
  = ({| LinkedList.node_value := v;
        LinkedList.data_box_x := LinkedList.node_x i len;
        LinkedList.pointer_box_x := (LinkedList.node_x i len + (8 # 10))%Q;
        LinkedList.null_pointer := false |},
     [ {| LinkedList.arrow_start_x :=
            (LinkedList.node_x i len + (8 # 10) + LinkedList.pointer_box_width / 2)%Q;
          LinkedList.arrow_end_x :=
            (LinkedList.node_x i len + (8 # 10) + LinkedList.pointer_box_width / 2
             + (14 # 10))%Q |} ]).
Proof.
  intros Hi. unfold LinkedList.node_body.
  destruct (Z.ltb_spec (Z.of_nat i) (Z.of_nat len - 1)); [reflexivity | lia].
Qed.

Lemma node_body_last (len i : nat) (v : Py.value) :
  ~ i < len - 1 ->
  LinkedList.node_body len i v
  = ({| LinkedList.node_value := v;
        LinkedList.data_box_x := LinkedList.node_x i len;
        LinkedList.pointer_box_x := (LinkedList.node_x i len + (8 # 10))%Q;
        LinkedList.null_pointer := true |}, []).
Proof.
  intros Hi. unfold LinkedList.node_body.
  destruct (Z.ltb_spec (Z.of_nat i) (Z.of_nat len - 1)); [lia | reflexivity].
Qed.

Lemma node_loop_value (len : nat) (data : list Py.value) :
  forall i,
    i + length data = len ->
    length (fst (LinkedList.node_loop len i data)) = length data
    /\ length (snd (LinkedList.node_loop len i data)) = length data - 1
    /\ (forall k v,
          data !! k = Some v ->
          exists node,
            fst (LinkedList.node_loop len i data) !! k = Some node
            /\ LinkedList.node_value node = v
            /\ LinkedList.data_box_x node = LinkedList.node_x (i + k) len
            /\ LinkedList.null_pointer node = bool_decide (i + k = len - 1))
    /\ (forall k,
          S k < length data ->
          exists a,
            snd (LinkedList.node_loop len i data) !! k = Some a
            /\ (LinkedList.arrow_end_x a
                == LinkedList.node_x (i + k) len + (8 # 10)
                   + LinkedList.pointer_box_width / 2 + (14 # 10))%Q).
Proof.
  induction data as [| v rest IH]; intros i Hlen.
  - cbn. repeat split; try done. intros k Hk. lia.
  - cbn [length] in Hlen. cbn [LinkedList.node_loop].
    destruct (IH (S i) ltac:(lia)) as (Hn & Ha & Hnodes & Harrows).
    destruct (decide (i < len - 1)) as [Hlt | Hge].
    + rewrite (node_body_inner len i v Hlt). cbn [fst snd length app].
      rewrite Hn, Ha.
      split; [reflexivity |]. split; [lia |].
      split.
      * intros [| k] w Hk.
        -- injection Hk as <-.
           eexists. split; [reflexivity |]. cbn. rewrite Nat.add_0_r.
           split; [reflexivity |]. split; [reflexivity |].
           symmetry. apply bool_decide_eq_false. lia.
        -- destruct (Hnodes k w Hk) as (node & Hnode & Hrest).
           exists node. split; [exact Hnode |].
           replace (i + S k) with (S i + k) by lia. exact Hrest.
      * intros [| k] Hk.
        -- eexists. split; [reflexivity |]. cbn. rewrite Nat.add_0_r. reflexivity.
        -- destruct (Harrows k ltac:(lia)) as (a & Harr & Hend).
           exists a. split; [exact Harr |].
           replace (i + S k) with (S i + k) by lia. exact Hend.
    + rewrite (node_body_last len i v Hge).
      assert (rest = []) as -> by (destruct rest; [reflexivity | cbn [length] in Hlen; lia]).
      cbn. split; [reflexivity |]. split; [reflexivity |].
      split.
      * intros [| k] w Hk; [| discriminate Hk].
        injection Hk as <-.
        eexists. split; [reflexivity |]. cbn. rewrite Nat.add_0_r.
        split; [reflexivity |]. split; [reflexivity |].
        symmetry. apply bool_decide_eq_true. lia.
      * intros k Hk. lia.
Qed.

Lemma node_x_next (i len : nat) :
  (LinkedList.node_x (S i) len == LinkedList.node_x i len + 3)%Q.
Proof.
  unfold LinkedList.node_x. rewrite Nat2Z.inj_succ. unfold Z.succ.
  rewrite inject_Z_plus. ring.
Qed.

(** X11.  The linked-list scene draws one node per item, three units apart
    and centred on the origin, and one arrow fewer than nodes; only the
    last node carries the null sign.  Each arrow is aimed at the left edge
    of the next node's data box, and as it is drawn with the default [buff]
    of [Arrow] its tip stops a quarter of a unit short of that edge. *)
Theorem linked_list_layout (data : list Py.value) (operations : list Py.dict) :
  let scene := fst (LinkedList.create_linked_list_visualization data operations) in
  length (LinkedList.nodes scene) = length data
  /\ length (LinkedList.arrows scene) = length data - 1
  /\ (forall k node,
        LinkedList.nodes scene !! k = Some node ->
        data !! k = Some (LinkedList.node_value node)
        /\ LinkedList.null_pointer node = bool_decide (k = length data - 1))
  /\ (forall k a b,
        LinkedList.nodes scene !! k = Some a ->
        LinkedList.nodes scene !! S k = Some b ->
        (LinkedList.data_box_x b == LinkedList.data_box_x a + 3)%Q)
  /\ (forall j k a b,
        j + k = length data - 1 ->
        LinkedList.nodes scene !! j = Some a ->
        LinkedList.nodes scene !! k = Some b ->
        (LinkedList.data_box_x a + LinkedList.data_box_x b == 0)%Q)
  /\ (forall k arrow next,
        LinkedList.arrows scene !! k = Some arrow ->
        LinkedList.nodes scene !! S k = Some next ->
        (LinkedList.arrow_end_x arrow
         == LinkedList.data_box_x next - LinkedList.data_box_width / 2)%Q
        /\ (LinkedList.arrow_tip_x arrow
            == LinkedList.data_box_x next - LinkedList.data_box_width / 2 - (1 # 4))%Q).
Proof.
  cbv zeta. unfold LinkedList.create_linked_list_visualization.
  cbn [fst LinkedList.nodes LinkedList.arrows].
  destruct (node_loop_value (length data) data 0 eq_refl)
    as (Hn & Ha & Hnodes & Harrows).
  assert (Hnode : forall k node,
            fst (LinkedList.node_loop (length data) 0 data) !! k = Some node ->
            data !! k = Some (LinkedList.node_value node)
            /\ LinkedList.data_box_x node = LinkedList.node_x k (length data)
            /\ LinkedList.null_pointer node = bool_decide (k = length data - 1)).
  { intros k node Hk.
    assert (Hlt : k < length data) by (apply lookup_lt_Some in Hk; lia).
    destruct (lookup_lt_is_Some_2 data k Hlt) as [v Hv].
    destruct (Hnodes k v Hv) as (node' & Hnode' & Hval & Hx & Hnull).
    rewrite Hk in Hnode'. injection Hnode' as <-.
    split; [congruence |]. split; assumption. }
  split; [exact Hn |]. split; [exact Ha |].
  split.
  { intros k node Hk. destruct (Hnode k node Hk) as (Hv & _ & Hnull).
    split; assumption. }
  split.
  { intros k a b Hka Hkb.
    destruct (Hnode k a Hka) as (_ & -> & _).
    destruct (Hnode (S k) b Hkb) as (_ & -> & _).
    apply node_x_next. }
  split.
  { intros j k a b Hjk Hja Hkb.
    destruct (Hnode j a Hja) as (_ & -> & _).
    destruct (Hnode k b Hkb) as (_ & -> & _).
    apply lookup_lt_Some in Hkb. rewrite Hn in Hkb.
    unfold LinkedList.node_x.
    assert (Hlen : (inject_Z (Z.of_nat (length data))
                    == inject_Z (Z.of_nat j) + inject_Z (Z.of_nat k) + 1)%Q).
    { unfold Qeq, Qplus, inject_Z. simpl. lia. }
    rewrite Hlen. ring. }
  intros k arrow next Hk Hnext.
  destruct (Hnode (S k) next Hnext) as (_ & -> & _).
  assert (Hlt : S k < length data).
  { apply lookup_lt_Some in Hnext. lia. }
  destruct (Harrows k Hlt) as (a & Harr & Hend).
  rewrite Hk in Harr. injection Harr as <-.
  assert (Haimed : (LinkedList.arrow_end_x arrow
                    == LinkedList.node_x (S k) (length data)
                       - LinkedList.data_box_width / 2)%Q).
  { rewrite Hend, node_x_next.
    unfold LinkedList.pointer_box_width, LinkedList.data_box_width.
    cbn [Nat.add]. field. }
  split; [exact Haimed |].
  unfold LinkedList.arrow_tip_x, Manim.arrow_buff. rewrite Haimed. reflexivity.
Qed.

(** ** Linear flow *)

(** One pass of the loop body on a step whose name and description are
    text. *)
Lemma linear_body_value (len : nat) (show_timing : bool) (i : nat) (step : Py.dict) :
  FlowSpec.text_named step = true ->
  FlowSpec.text_described step = true ->
  exists s,
    Flow.linear_body len show_timing i step
    = Ok (s, if (Z.of_nat i <? Z.of_nat len - 1)%Z then [Flow.mkLinearArrow i] else [])
    /\ Flow.ls_y s = Flow.linear_y i
    /\ Flow.ls_label s = ProcessFlow.step_name step i
    /\ (show_timing = false -> Flow.ls_timing s = None)
    /\ (show_timing = true -> Py.assoc "timing" step = None ->
        Flow.ls_timing s = Some (Flow.SecondsOf (i + 1))).
Proof.
  intros Hname Hdescr. unfold Flow.linear_body.
  destruct (create_step_shape_text (Py.get step "type" (Py.VStr "process")) step i Hname)
    as [outline ->].
  cbn [Py.bind].
  set (description := Py.get step "description" (Py.VStr "")) in *.
  assert (Hshown : exists shown,
            (if Builtins.truthy description
             then (text <- Manim.text description ;; Ok (Some description))%result
             else Ok None) = Ok shown).
  { unfold FlowSpec.text_described in Hdescr. fold description in Hdescr.
    destruct (Builtins.truthy description); [| eexists; reflexivity].
    cbn [negb orb] in Hdescr.
    destruct description; try discriminate Hdescr. eexists. reflexivity. }
  destruct Hshown as [shown ->]. cbn [Py.bind].
  eexists. split; [reflexivity |].
  cbn [Flow.ls_y Flow.ls_label Flow.ls_timing].
  split; [reflexivity |]. split; [reflexivity |].
  split; [intros ->; reflexivity |].
  intros -> ->. reflexivity.
Qed.

Lemma linear_loop_value (len : nat) (show_timing : bool) (steps_data : list Py.dict) :
  Forall (fun step => FlowSpec.text_named step = true
                      /\ FlowSpec.text_described step = true) steps_data ->
  forall i,
    i + length steps_data = len ->
    exists objs,
      Flow.linear_loop len show_timing i steps_data
      = Ok (objs, Flow.mkLinearArrow <$> seq i (length steps_data - 1))
      /\ length objs = length steps_data
      /\ forall k s,
           objs !! k = Some s ->
           Flow.ls_y s = Flow.linear_y (i + k)
           /\ (show_timing = false -> Flow.ls_timing s = None)
           /\ exists step,
                steps_data !! k = Some step
                /\ Flow.ls_label s = ProcessFlow.step_name step (i + k)
                /\ (show_timing = true -> Py.assoc "timing" step = None ->
                    Flow.ls_timing s = Some (Flow.SecondsOf (i + k + 1))).
Proof.
  induction 1 as [| step rest [Hname Hdescr] _ IH]; intros i Hlen.
  - exists []. split; [reflexivity |]. split; [reflexivity |].
    intros k s Hk. rewrite lookup_nil in Hk. discriminate Hk.
  - cbn [length] in Hlen.
    destruct (linear_body_value len show_timing i step Hname Hdescr)
      as (s & Hbody & Hy & Hlabel & Hoff & Hsec).
    destruct (IH (S i) ltac:(lia)) as (objs & Hloop & Hn & Hsteps).
    exists (s :: objs). cbn [Flow.linear_loop]. rewrite Hbody. cbn [Py.bind].
    rewrite Hloop. cbn [Py.bind fst snd].
    split.
    { f_equal. f_equal. cbn [length].
      destruct (Z.ltb_spec (Z.of_nat i) (Z.of_nat len - 1)) as [Hlt | Hge].
      - destruct rest as [| r rest']; [cbn [length] in Hlen; lia |].
        cbn [length].
        replace (S (S (length rest')) - 1) with (S (length rest')) by lia.
        replace (S (length rest') - 1) with (length rest') by lia.
        reflexivity.
      - assert (rest = []) as -> by (destruct rest; [reflexivity | cbn [length] in Hlen; lia]).
        reflexivity. }
    split; [cbn [length]; congruence |].
    intros [| k] s' Hk.
    + injection Hk as <-. rewrite Nat.add_0_r.
      split; [exact Hy |]. split; [exact Hoff |].
      exists step. split; [reflexivity |]. split; [exact Hlabel | exact Hsec].
    + destruct (Hsteps k s' Hk) as (Hy' & Ht & step' & Hstep' & Hlabel' & Hsec').
      replace (i + S k) with (S i + k) by lia.
      split; [exact Hy' |]. split; [exact Ht |].
      exists step'. split; [exact Hstep' |]. split; [exact Hlabel' | exact Hsec'].
Qed.

Lemma play_linear_closed (objs : list Flow.linear_step) :
  forall start,
    concat (imap (fun k => Flow.play_pair (start + k))
              (zip objs ((Some <$> (Flow.mkLinearArrow <$> seq start (length objs - 1)))
                         ++ [None])))
    = concat (imap (fun k s =>
                      Flow.CreateStep (start + k) s
                      :: (if bool_decide (S k < length objs)
                          then [Flow.CreateArrow {| Flow.arrow_below := start + k |}]
                          else []))
                objs).
Proof.
  induction objs as [| s rest IH]; intros start; [reflexivity |].
  destruct rest as [| r rest'].
  - cbn. rewrite Nat.add_0_r. reflexivity.
  - specialize (IH (S start)).
    replace (length (s :: r :: rest') - 1) with (S (length (r :: rest') - 1))
      by (cbn [length]; lia).
    remember (r :: rest') as rest eqn:Hrest.
    cbn [seq fmap list_fmap app].
    change (zip (s :: rest) ?l) with (zip_with pair (s :: rest) l).
    cbn [zip_with]. rewrite !imap_cons. cbn [concat].
    unfold Flow.play_pair at 1. cbn [fst snd]. rewrite Nat.add_0_r.
    rewrite bool_decide_eq_true_2 by (subst rest; cbn [length]; lia).
    cbn [app]. f_equal. f_equal.
    etransitivity; [| etransitivity; [exact IH |]].
    + f_equal. apply imap_ext. intros k x _. cbn. f_equal. lia.
    + f_equal. apply imap_ext. intros k x _. cbn.
      replace (start + S k) with (S (start + k)) by lia.
      repeat case_bool_decide; try reflexivity; lia.
Qed.

(** X12.  For steps whose names are strings and whose descriptions, where
    they are shown, are strings, the linear flow draws one shape per step,
    1.8 apart downwards from y = 2, and one arrow fewer than shapes.  The
    play order creates every step, each but the last followed by the arrow
    below it; no step is dropped by pairing the shapes with the arrows.
    Without [show_timing] no step carries a timing, and with it a step that
    gives none carries its number in seconds. *)
Theorem linear_flow_layout (steps_data : list Py.dict) (show_timing : bool) :
  Forall (fun step => FlowSpec.text_named step = true
                      /\ FlowSpec.text_described step = true) steps_data ->
  exists scene,
    Flow.create_linear_flow steps_data show_timing = Ok scene
    /\ length (Flow.step_objects scene) = length steps_data
    /\ length (Flow.arrows scene) = length steps_data - 1
    /\ (forall k s,
          Flow.step_objects scene !! k = Some s ->
          Flow.ls_y s = Flow.linear_y k
          /\ (show_timing = false -> Flow.ls_timing s = None)
          /\ exists step,
               steps_data !! k = Some step
               /\ (show_timing = true -> Py.assoc "timing" step = None ->
                   Flow.ls_timing s = Some (Flow.SecondsOf (k + 1))))
    /\ Flow.played scene
       = concat (imap (fun k s =>
                         Flow.CreateStep k s
                         :: (if bool_decide (S k < length steps_data)
                             then [Flow.CreateArrow {| Flow.arrow_below := k |}]
                             else []))
                   (Flow.step_objects scene)).
Proof.
  intros Htext. unfold Flow.create_linear_flow.
  destruct (linear_loop_value (length steps_data) show_timing steps_data Htext 0 eq_refl)
    as (objs & Hloop & Hn & Hsteps).
  rewrite Hloop. cbn [Py.bind fst snd]. eexists. split; [reflexivity |].
  cbn [Flow.step_objects Flow.arrows Flow.played].
  split; [exact Hn |].
  split; [rewrite length_fmap, length_seq; reflexivity |].
  split.
  { intros k s Hk. destruct (Hsteps k s Hk) as (Hy & Ht & step & Hstep & _ & Hsec).
    split; [exact Hy |]. split; [exact Ht |].
    exists step. split; [exact Hstep | exact Hsec]. }
  unfold Flow.play_linear. rewrite <- Hn. apply (play_linear_closed objs 0).
Qed.

(** ** Branching flow *)

Lemma first_with_found (c : string) (branch_steps : list Py.dict) (s : Py.dict) :
  Flow.first_with c branch_steps = Some s ->
  In s branch_steps /\ Flow.has_condition c s = true /\ Py.list_truthy s = true.
Proof.
  intros Hfind. apply find_some in Hfind as [Hin Hcond].
  split; [exact Hin |]. split; [exact Hcond |].
  destruct s as [| kv s]; [discriminate Hcond | reflexivity].
Qed.


(** A side of a decision, when it is drawn at all. *)
Lemma side_branch_inv (found : option Py.dict) (c dflt : string)
    (branch_steps : list Py.dict)
    (shape : Py.value -> Flow.branch_object) (arrow label : Flow.branch_arrow)
    (r : list Flow.branch_object * list Flow.branch_arrow) :
  found = Flow.first_with c branch_steps ->
  Flow.side_branch found dflt shape arrow label = Ok r ->
  r = match found with
      | Some s => ([shape (Py.get s "name" (Py.VStr dflt))], [arrow; label])
      | None => ([], [])
      end.
Proof.
  intros Hfound. unfold Flow.side_branch.
  destruct found as [s |]; [| intros [= <-]; reflexivity].
  destruct (first_with_found c branch_steps s (eq_sym Hfound)) as (_ & _ & ->).
  destruct (ProcessFlow.create_step_shape _ _); cbn [Py.bind]; intros Hr;
    [injection Hr as <-; reflexivity | discriminate Hr].
Qed.


(** What one round of the loop draws, when it draws. *)
Lemma branching_body_inv (main_count : nat) (branch_steps : list Py.dict)
    (i : nat) (step : Py.dict)
    (r : list Flow.branch_object * list Flow.branch_arrow) :
  let decision := Py.is_str (Py.get step "type" (Py.VStr "process")) "decision" in
  let yes := Flow.first_with "yes" branch_steps in
  let no := Flow.first_with "no" branch_steps in
  Flow.branching_body main_count branch_steps i step = Ok r ->
  exists outline,
    r = (Flow.MainShape i (ProcessFlow.step_name step i) outline
           (Geometry.UP (Flow.main_y i))
         :: (if decision
             then match yes with
                  | Some s => [Flow.YesShape i (Py.get s "name" (Py.VStr "Yes"))
                                 (Geometry.vadd (Geometry.RIGHT 3)
                                    (Geometry.UP (Flow.main_y i)))]
                  | None => []
                  end
             else [])
         ++ (if decision
             then match no with
                  | Some s => [Flow.NoShape i (Py.get s "name" (Py.VStr "No"))
                                 (Geometry.vadd (Geometry.RIGHT (- 3))
                                    (Geometry.UP (Flow.main_y i)))]
                  | None => []
                  end
             else []),
         (if decision
          then match yes with
               | Some _ => [Flow.YesArrow i; Flow.YesLabel i]
               | None => []
               end
          else [])
         ++ (if decision
             then match no with
                  | Some _ => [Flow.NoArrow i; Flow.NoLabel i]
                  | None => []
                  end
             else [])
         ++ (if (Z.of_nat i <? Z.of_nat main_count - 1)%Z
             then [Flow.MainArrow i] else [])).
Proof.
  cbv zeta. unfold Flow.branching_body.
  destruct (ProcessFlow.create_step_shape _ (ProcessFlow.step_name step i))
    as [outline | e]; cbn [Py.bind]; [| intros Hr; discriminate Hr].
  destruct (Py.is_str (Py.get step "type" (Py.VStr "process")) "decision").
  - destruct (Flow.side_branch (Flow.first_with "yes" branch_steps) _ _ _ _)
      as [yes | e] eqn:Hyes; cbn [Py.bind]; [| intros Hr; discriminate Hr].
    destruct (Flow.side_branch (Flow.first_with "no" branch_steps) _ _ _ _)
      as [no | e] eqn:Hno; cbn [Py.bind]; [| intros Hr; discriminate Hr].
    apply (side_branch_inv _ "yes" "Yes" branch_steps _ _ _ _ eq_refl) in Hyes.
    apply (side_branch_inv _ "no" "No" branch_steps _ _ _ _ eq_refl) in Hno.
    intros [= <-]. exists outline. subst yes no.
    destruct (Flow.first_with "yes" branch_steps),
             (Flow.first_with "no" branch_steps); reflexivity.
  - cbn [Py.bind]. intros [= <-]. exists outline. reflexivity.
Qed.



Lemma branching_loop_inv (main_count : nat) (branch_steps : list Py.dict)
    (i : nat) (step : Py.dict) (rest : list Py.dict)
    (r : list Flow.branch_object * list Flow.branch_arrow) :
  Flow.branching_loop main_count branch_steps i (step :: rest) = Ok r ->
  exists here later,
    Flow.branching_body main_count branch_steps i step = Ok here
    /\ Flow.branching_loop main_count branch_steps (S i) rest = Ok later
    /\ r = (fst here ++ fst later, snd here ++ snd later).
Proof.
  cbn [Flow.branching_loop].
  destruct (Flow.branching_body main_count branch_steps i step) as [here | e];
    cbn [Py.bind]; [| intros Hr; discriminate Hr].
  destruct (Flow.branching_loop main_count branch_steps (S i) rest) as [later | e];
    cbn [Py.bind]; [| intros Hr; discriminate Hr].
  intros [= <-]. exists here, later. repeat split.
Qed.



Lemma branching_loop_sides (main_count : nat) (branch_steps : list Py.dict)
    (main_steps : list Py.dict) :
  forall i r j name place,
    Flow.branching_loop main_count branch_steps i main_steps = Ok r ->
    In (Flow.YesShape j name place) (fst r)
    \/ In (Flow.NoShape j name place) (fst r) ->
    exists k step c dflt s,
      j = i + k
      /\ main_steps !! k = Some step
      /\ Py.is_str (Py.get step "type" (Py.VStr "process")) "decision" = true
      /\ Flow.first_with c branch_steps = Some s
      /\ name = Py.get s "name" (Py.VStr dflt)
      /\ ((c = "yes" /\ dflt = "Yes"
           /\ place = Geometry.vadd (Geometry.RIGHT 3) (Geometry.UP (Flow.main_y j)))
          \/ (c = "no" /\ dflt = "No"
              /\ place = Geometry.vadd (Geometry.RIGHT (- 3))
                           (Geometry.UP (Flow.main_y j)))).
Proof.
  induction main_steps as [| step rest IH]; intros i r j name place Hrun Hin.
  - injection Hrun as <-. destruct Hin as [[] | []].
  - apply branching_loop_inv in Hrun as (here & later & Hhere & Hlater & ->).
    apply branching_body_inv in Hhere as [outline ->].
    cbv zeta in Hin. cbn [fst] in Hin.
    assert (Hcases :
      (In (Flow.YesShape j name place) (fst later)
       \/ In (Flow.NoShape j name place) (fst later))
      \/ (Py.is_str (Py.get step "type" (Py.VStr "process")) "decision" = true
          /\ j = i
          /\ ((exists s, Flow.first_with "yes" branch_steps = Some s
                         /\ name = Py.get s "name" (Py.VStr "Yes")
                         /\ place = Geometry.vadd (Geometry.RIGHT 3)
                                      (Geometry.UP (Flow.main_y i)))
              \/ (exists s, Flow.first_with "no" branch_steps = Some s
                            /\ name = Py.get s "name" (Py.VStr "No")
                            /\ place = Geometry.vadd (Geometry.RIGHT (- 3))
                                         (Geometry.UP (Flow.main_y i)))))).
    { destruct (Py.is_str (Py.get step "type" (Py.VStr "process")) "decision");
        destruct (Flow.first_with "yes" branch_steps) as [sy |],
                 (Flow.first_with "no" branch_steps) as [sn |];
        cbn [app] in Hin;
        repeat match goal with
               | H : _ \/ _ |- _ => destruct H as [H | H]
               | H : In _ (_ :: _) |- _ => destruct H as [H | H]
               | H : In _ (_ ++ _) |- _ => apply in_app_or in H
               | H : In _ [] |- _ => destruct H
               | H : Flow.MainShape _ _ _ _ = _ |- _ => discriminate H
               | H : Flow.YesShape _ _ _ = Flow.NoShape _ _ _ |- _ => discriminate H
               | H : Flow.NoShape _ _ _ = Flow.YesShape _ _ _ |- _ => discriminate H
               | H : Flow.YesShape _ _ _ = Flow.YesShape _ _ _ |- _ =>
                   injection H as <- <- <-
               | H : Flow.NoShape _ _ _ = Flow.NoShape _ _ _ |- _ =>
                   injection H as <- <- <-
               end;
        try (left; left; assumption);
        try (left; right; assumption);
        try (right; split; [reflexivity |]; split; [reflexivity |];
             first [ left; eexists; repeat split; reflexivity
                   | right; eexists; repeat split; reflexivity ]). }
    destruct Hcases as [Hrest | (Hdec & -> & Hside)].
    + destruct (IH (S i) later j name place Hlater Hrest)
        as (k & step' & c & dflt & s & -> & Hk & Hdec & Hfind & Hname & Hplace).
      exists (S k), step', c, dflt, s.
      split; [lia |]. split; [exact Hk |]. split; [exact Hdec |].
      split; [exact Hfind |]. split; [exact Hname |].
      replace (i + S k) with (S i + k) by lia. exact Hplace.
    + destruct Hside as [(s & Hfind & Hname & Hplace) | (s & Hfind & Hname & Hplace)].
      * exists 0, step, "yes", "Yes", s. rewrite Nat.add_0_r.
        repeat split; try assumption. left. repeat split; assumption.
      * exists 0, step, "no", "No", s. rewrite Nat.add_0_r.
        repeat split; try assumption. right. repeat split; assumption.
Qed.

(** X14.  A side shape of the branching flow stands beside a decision of
    the main branch, three units to its right (yes) or left (no), and is
    named after the first entry off the main branch that has the
    condition: every decision of the flow shows the same two entries. *)
Theorem branching_sides_shared (steps_data : list Py.dict) (show_timing : bool)
    (objects : list Flow.branch_object) (arrows : list Flow.branch_arrow)
    (j : nat) (name : Py.value) (place : Geometry.vec) :
  let main_steps := filter (fun s => Flow.on_main s = true) steps_data in
  let branch_steps := filter (fun s => Flow.on_main s <> true) steps_data in
  Flow.create_branching_flow steps_data show_timing = Ok (objects, arrows) ->
  In (Flow.YesShape j name place) objects
  \/ In (Flow.NoShape j name place) objects ->
  exists step c dflt s,
    main_steps !! j = Some step
    /\ Py.is_str (Py.get step "type" (Py.VStr "process")) "decision" = true
    /\ Flow.first_with c branch_steps = Some s
    /\ name = Py.get s "name" (Py.VStr dflt)
    /\ ((c = "yes" /\ dflt = "Yes"
         /\ place = Geometry.vadd (Geometry.RIGHT 3) (Geometry.UP (Flow.main_y j)))
        \/ (c = "no" /\ dflt = "No"
            /\ place = Geometry.vadd (Geometry.RIGHT (- 3))
                         (Geometry.UP (Flow.main_y j)))).
Proof.
  cbv zeta. unfold Flow.create_branching_flow. intros Hrun Hin.
  destruct (branching_loop_sides _ _ _ 0 (objects, arrows) j name place Hrun Hin)
    as (k & step & c & dflt & s & -> & Hk & Hdec & Hfind & Hname & Hplace).
  exists step, c, dflt, s. repeat split; assumption.
Qed.

(** ** Process summary *)

Lemma bump_line_count (t t' : string) (lines : list (string * nat)) :
  FlowSpec.line_count t' (Flow.bump t lines)
  = FlowSpec.line_count t' lines + (if String.eqb t' t then 1 else 0).
Proof.
  unfold FlowSpec.line_count.
  induction lines as [| [k c] rest IH]; cbn [Flow.bump List.find fst snd].
  - destruct (String.eqb t' t); reflexivity.
  - destruct (String.eqb_spec t k) as [-> | Hne].
    + cbn [List.find fst snd]. destruct (String.eqb t' k); [reflexivity | lia].
    + cbn [List.find fst snd]. destruct (String.eqb_spec t' k) as [-> | Hne'].
      * destruct (String.eqb_spec k t) as [-> | _]; [contradiction | cbn; lia].
      * exact IH.
Qed.

Lemma bump_keys (t : string) (lines : list (string * nat)) (k : string) :
  In k (fst <$> Flow.bump t lines) <-> k = t \/ In k (fst <$> lines).
Proof.
  induction lines as [| [k' c] rest IH]; cbn [Flow.bump fmap list_fmap In fst].
  - cbn. intuition.
  - destruct (String.eqb_spec t k') as [-> | Hne]; cbn [fmap list_fmap In fst].
    + intuition.
    + change (list_fmap _ _ fst ?l) with (fst <$> l). rewrite IH. intuition.
Qed.

Lemma bump_nodup (t : string) (lines : list (string * nat)) :
  List.NoDup (fst <$> lines) -> List.NoDup (fst <$> Flow.bump t lines).
Proof.
  induction lines as [| [k c] rest IH]; cbn [Flow.bump fmap list_fmap fst]; intros Hnd.
  - constructor; [intros [] | constructor].
  - change (list_fmap _ _ fst ?l) with (fst <$> l) in *.
    inversion Hnd as [| ? ? Hnot Hrest]; subst.
    destruct (String.eqb_spec t k) as [-> | Hne]; cbn [fmap list_fmap fst].
    + constructor; assumption.
    + change (list_fmap _ _ fst ?l) with (fst <$> l).
      constructor; [| exact (IH Hrest)].
      rewrite bump_keys. intros [-> | Hin]; [apply Hne; reflexivity | exact (Hnot Hin)].
Qed.

Lemma bump_positive (t : string) (lines : list (string * nat)) :
  Forall (fun line => 0 < snd line) lines ->
  Forall (fun line => 0 < snd line) (Flow.bump t lines).
Proof.
  induction lines as [| [k c] rest IH]; cbn [Flow.bump]; intros Hpos.
  - constructor; [cbn; lia | constructor].
  - inversion Hpos as [| ? ? Hc Hrest]; subst.
    destruct (String.eqb t k); constructor; cbn in *; auto; lia.
Qed.

Lemma bump_sum (t : string) (lines : list (string * nat)) :
  sum_list (snd <$> Flow.bump t lines) = sum_list (snd <$> lines) + 1.
Proof.
  induction lines as [| [k c] rest IH]; cbn [Flow.bump fmap list_fmap snd sum_list].
  - reflexivity.
  - destruct (String.eqb t k); cbn [fmap list_fmap snd sum_list sum_list_with].
    + cbn. lia.
    + change (list_fmap _ _ snd ?l) with (snd <$> l). cbn.
      change (sum_list_with Datatypes.id ?l) with (sum_list l). rewrite IH. lia.
Qed.

(** A line of the table is its key's count, when keys are not repeated. *)
Lemma line_count_in (lines : list (string * nat)) (t : string) (n : nat) :
  List.NoDup (fst <$> lines) ->
  Forall (fun line => 0 < snd line) lines ->
  In (t, n) lines <-> FlowSpec.line_count t lines = n /\ 0 < n.
Proof.
  unfold FlowSpec.line_count.
  induction lines as [| [k c] rest IH]; cbn [List.find fst snd fmap list_fmap];
    intros Hnd Hpos.
  - split; [intros [] | intros [<- Hn]; lia].
  - change (list_fmap _ _ fst ?l) with (fst <$> l) in *.
    inversion Hnd as [| ? ? Hnot Hrest]; subst.
    inversion Hpos as [| ? ? Hc Hprest]; subst. cbn in Hc.
    destruct (String.eqb_spec t k) as [-> | Hne]; cbn [snd In].
    + split.
      * intros [Heq | Hin]; [injection Heq as <-; split; [reflexivity | exact Hc] |].
        exfalso. apply Hnot. apply (in_map fst) in Hin. exact Hin.
      * intros [<- _]. left. reflexivity.
    + rewrite <- (IH Hrest Hprest). split.
      * intros [Heq | Hin]; [injection Heq as <- _; contradiction | exact Hin].
      * intros Hin. right. exact Hin.
Qed.

Lemma steps_of_type_cons (t : string) (step : Py.dict) (rest : list Py.dict) :
  FlowSpec.steps_of_type t (step :: rest)
  = (if Py.is_str (FlowSpec.type_of step) t then 1 else 0)
    + FlowSpec.steps_of_type t rest.
Proof.
  unfold FlowSpec.steps_of_type. rewrite filter_cons.
  destruct (Py.is_str (FlowSpec.type_of step) t).
  - destruct (decide (true = true)) as [_ | Hne]; [reflexivity | contradiction].
  - destruct (decide (false = true)) as [Heq | _]; [discriminate Heq | reflexivity].
Qed.

Lemma count_types_strings (steps_data : list Py.dict) :
  Forall (fun s => FlowSpec.string_typed s = true) steps_data ->
  forall (acc : list (string * nat)) (flag : bool),
    List.NoDup (fst <$> acc) ->
    Forall (fun line => 0 < snd line) acc ->
    exists lines,
      Flow.count_types steps_data acc flag = Py.Ok (lines, flag)
      /\ List.NoDup (fst <$> lines)
      /\ Forall (fun line => 0 < snd line) lines
      /\ sum_list (snd <$> lines) = sum_list (snd <$> acc) + length steps_data
      /\ forall t, FlowSpec.line_count t lines
                   = FlowSpec.line_count t acc + FlowSpec.steps_of_type t steps_data.
Proof.
  induction 1 as [| step rest Hstep _ IH]; intros acc flag Hnd Hpos.
  - exists acc. cbn [Flow.count_types length].
    split; [reflexivity |]. split; [exact Hnd |]. split; [exact Hpos |].
    split; [lia |]. intros t. unfold FlowSpec.steps_of_type. cbn. lia.
  - unfold FlowSpec.string_typed, FlowSpec.type_of in Hstep.
    cbn [Flow.count_types].
    destruct (Py.get step "type" (Py.VStr "process")) as [| | | | t0 | |] eqn:Htype;
      try discriminate Hstep.
    destruct (IH (Flow.bump t0 acc) flag (bump_nodup t0 acc Hnd) (bump_positive t0 acc Hpos))
      as (lines & Hrun & Hnd' & Hpos' & Hsum & Hcount).
    exists lines. split; [exact Hrun |]. split; [exact Hnd' |]. split; [exact Hpos' |].
    split.
    + rewrite Hsum, bump_sum. cbn [length]. lia.
    + intros t. rewrite Hcount, bump_line_count, steps_of_type_cons.
      unfold FlowSpec.type_of. rewrite Htype. cbn [Py.is_str].
      rewrite (String.eqb_sym t0 t). lia.
Qed.

(** X15.  For a flow with at least one step whose step types are all
    strings, the summary states the number of steps and one line for each
    type that occurs, with the number of steps of that type; no type has
    two lines and the counts add up to the total. *)
Theorem process_summary_counts (steps_data : list Py.dict) :
  steps_data <> [] ->
  Forall (fun s => FlowSpec.string_typed s = true) steps_data ->
  exists lines,
    Flow.show_process_summary steps_data
    = Py.Ok (Some {| Flow.total_steps := length steps_data;
                     Flow.type_lines := lines |})
    /\ List.NoDup (fst <$> lines)
    /\ sum_list (snd <$> lines) = length steps_data
    /\ forall t n,
         In (t, n) lines <-> n = FlowSpec.steps_of_type t steps_data /\ 0 < n.
Proof.
  intros Hne Hstr.
  destruct (count_types_strings steps_data Hstr [] false)
    as (lines & Hrun & Hnd & Hpos & Hsum & Hcount);
    [constructor | constructor |].
  exists lines. split.
  - unfold Flow.show_process_summary.
    destruct steps_data as [| step rest]; [contradiction |].
    cbn [Py.list_truthy negb]. rewrite Hrun. reflexivity.
  - split; [exact Hnd |]. split; [rewrite Hsum; cbn; lia |].
    intros t n. rewrite (line_count_in lines t n Hnd Hpos), Hcount.
    unfold FlowSpec.line_count. cbn [List.find]. split; intros [H1 H2]; split; lia.
Qed.

Lemma count_types_unhashable (steps_data : list Py.dict) :
  Exists (fun s => FlowSpec.unhashable_typed s = true) steps_data ->
  forall acc flag, Flow.count_types steps_data acc flag = Py.Raise Py.TypeError.
Proof.
  induction 1 as [step rest Hstep | step rest _ IH]; intros acc flag;
    cbn [Flow.count_types].
  - unfold FlowSpec.unhashable_typed, FlowSpec.type_of in Hstep.
    destruct (Py.get step "type" (Py.VStr "process")); try discriminate Hstep;
      reflexivity.
  - destruct (Py.get step "type" (Py.VStr "process")); try reflexivity; apply IH.
Qed.

Lemma count_types_flag (steps_data : list Py.dict) :
  Forall (fun s => FlowSpec.unhashable_typed s = false) steps_data ->
  forall acc flag,
    exists lines,
      Flow.count_types steps_data acc flag
      = Py.Ok (lines, flag || negb (forallb FlowSpec.string_typed steps_data)).
Proof.
  induction 1 as [| step rest Hstep _ IH]; intros acc flag;
    cbn [Flow.count_types forallb].
  - exists acc. rewrite orb_false_r. reflexivity.
  - unfold FlowSpec.unhashable_typed, FlowSpec.string_typed, FlowSpec.type_of in *.
    destruct (Py.get step "type" (Py.VStr "process")); try discriminate Hstep;
      cbn [andb negb];
      first [ destruct (IH acc true) as [lines ->]; exists lines;
              rewrite orb_true_r; reflexivity
            | apply IH ].
Qed.

(** X16.  A step type that is not a string makes the summary fail: with
    [TypeError] in the counting loop when some type is a list or a
    dictionary, and otherwise with [AttributeError] in the summary lines,
    where the type has no [title]. *)
Theorem process_summary_rejects (steps_data : list Py.dict) :
  Exists (fun s => FlowSpec.string_typed s = false) steps_data ->
  Flow.show_process_summary steps_data
  = if existsb FlowSpec.unhashable_typed steps_data
    then Py.Raise Py.TypeError
    else Py.Raise (Py.AttributeError "title").
Proof.
  intros Hbad. unfold Flow.show_process_summary.
  destruct steps_data as [| step rest]; [inversion Hbad |].
  cbn [Py.list_truthy negb].
  destruct (existsb FlowSpec.unhashable_typed (step :: rest)) eqn:Hex.
  - rewrite count_types_unhashable; [reflexivity |].
    apply existsb_exists in Hex as (s & Hin & Hs).
    apply List.Exists_exists. exists s. split; assumption.
  - assert (Hall : Forall (fun s => FlowSpec.unhashable_typed s = false) (step :: rest)).
    { apply List.Forall_forall. intros s Hin.
      destruct (FlowSpec.unhashable_typed s) eqn:Hs; [| reflexivity].
      assert (existsb FlowSpec.unhashable_typed (step :: rest) = true) as Hyes
        by (apply existsb_exists; exists s; split; assumption).
      rewrite Hyes in Hex. discriminate Hex. }
    destruct (count_types_flag _ Hall [] false) as [lines ->].
    assert (Hno : forallb FlowSpec.string_typed (step :: rest) = false).
    { destruct (forallb FlowSpec.string_typed (step :: rest)) eqn:Hfa; [| reflexivity].
      apply List.Exists_exists in Hbad as (s & Hin & Hs).
      rewrite forallb_forall in Hfa. rewrite (Hfa s Hin) in Hs. discriminate Hs. }
    rewrite Hno. reflexivity.
Qed.

(** ** Protocol-exchange scene *)

Lemma cycle_body_value (show_headers show_status_codes : bool) (i : nat)
    (step : Py.dict) :
  (show_headers = true ->
   exists kv, Py.get step "headers" (Py.VDict []) = Py.VDict kv) ->
  (show_status_codes = true ->
   exists c, Py.get step "status_code" (Py.VInt 200) = Py.VInt c) ->
  exists s,
    HTTPScene.cycle_body show_headers show_status_codes i step = Py.Ok s
    /\ HTTPScene.step_number s = S i
    /\ match HTTPScene.step_exchange s with
       | HTTPScene.Request method url lines =>
           Py.is_str (Py.get step "direction" (Py.VStr "request")) "request" = true
           /\ method = Py.get step "method" (Py.VStr "GET")
           /\ url = Py.get step "url" (Py.VStr "/api/data")
           /\ (show_headers = false -> lines = [])
           /\ (forall kv, show_headers = true ->
                          Py.get step "headers" (Py.VDict []) = Py.VDict kv ->
                          lines = take 3 kv)
       | HTTPScene.Response status lines =>
           Py.is_str (Py.get step "direction" (Py.VStr "request")) "request" = false
           /\ (show_headers = false -> lines = [])
           /\ (forall kv, show_headers = true ->
                          Py.get step "headers" (Py.VDict []) = Py.VDict kv ->
                          lines = take 3 kv)
           /\ (show_status_codes = false -> status = None)
           /\ (forall c, show_status_codes = true ->
                         Py.get step "status_code" (Py.VInt 200) = Py.VInt c ->
                         status = if (c =? 0)%Z then None
                                  else Some (Py.VInt c,
                                             default "Unknown"
                                               (HTTPScene.lookup_code (inject_Z c)
                                                  HTTPScene.status_texts)))
       end.
Proof.
  intros Hheaders Hstatus. unfold HTTPScene.cycle_body.
  replace (i + 1) with (S i) by lia.
  assert (Hlines : exists lines,
    HTTPScene.shown_headers
      (if show_headers then Py.get step "headers" (Py.VDict []) else Py.VNone)
    = Py.Ok lines
    /\ (show_headers = false -> lines = [])
    /\ (forall kv, show_headers = true ->
                   Py.get step "headers" (Py.VDict []) = Py.VDict kv ->
                   lines = take 3 kv)).
  { destruct show_headers.
    - destruct (Hheaders eq_refl) as [kv Hkv]. rewrite Hkv. exists (take 3 kv).
      split; [destruct kv; reflexivity |]. split; [discriminate |].
      intros kv' _ Hkv'. injection Hkv' as <-. reflexivity.
    - exists []. split; [reflexivity |]. split; [reflexivity | discriminate]. }
  destruct Hlines as (lines & Hshown & Hoff & Hon).
  destruct (Py.is_str (Py.get step "direction" (Py.VStr "request")) "request").
  - unfold HTTPScene.animate_request. rewrite Hshown. cbn.
    eexists. split; [reflexivity |]. cbn. repeat split; assumption.
  - unfold HTTPScene.animate_response.
    assert (Hcode : exists status,
      (if Builtins.truthy (if show_status_codes
                           then Py.get step "status_code" (Py.VInt 200)
                           else Py.VNone)
       then Py.bind
              (HTTPScene.get_status_text
                 (if show_status_codes
                  then Py.get step "status_code" (Py.VInt 200)
                  else Py.VNone))
              (fun text =>
                 Py.Ok (Some (if show_status_codes
                              then Py.get step "status_code" (Py.VInt 200)
                              else Py.VNone, text)))
       else Py.Ok None) = Py.Ok status
      /\ (show_status_codes = false -> status = None)
      /\ (forall c, show_status_codes = true ->
                    Py.get step "status_code" (Py.VInt 200) = Py.VInt c ->
                    status = if (c =? 0)%Z then None
                             else Some (Py.VInt c,
                                        default "Unknown"
                                          (HTTPScene.lookup_code (inject_Z c)
                                             HTTPScene.status_texts)))).
    { destruct show_status_codes.
      - destruct (Hstatus eq_refl) as [c Hc]. rewrite Hc.
        cbn [Builtins.truthy HTTPScene.get_status_text Builtins.numeric].
        destruct (c =? 0)%Z eqn:Hzero; cbn [negb Py.bind].
        + exists None. split; [reflexivity |]. split; [discriminate |].
          intros c' _ Hc'. injection Hc' as <-. rewrite Hzero. reflexivity.
        + eexists. split; [reflexivity |]. split; [discriminate |].
          intros c' _ Hc'. injection Hc' as <-. rewrite Hzero. reflexivity.
      - exists None. split; [reflexivity |]. split; [reflexivity | discriminate]. }
    destruct Hcode as (status & Hrun & Hsoff & Hson).
    rewrite Hrun. cbn [Py.bind]. rewrite Hshown. cbn.
    eexists. split; [reflexivity |]. cbn. repeat split; assumption.
Qed.

Lemma cycle_loop_value (show_headers show_status_codes : bool)
    (steps_data : list Py.dict) :
  Forall (fun step =>
            (show_headers = true ->
             exists kv, Py.get step "headers" (Py.VDict []) = Py.VDict kv)
            /\ (show_status_codes = true ->
                exists c, Py.get step "status_code" (Py.VInt 200) = Py.VInt c))
         steps_data ->
  forall i,
    exists shown,
      HTTPScene.cycle_loop show_headers show_status_codes i steps_data = Py.Ok shown
      /\ length shown = length steps_data
      /\ forall k step,
           steps_data !! k = Some step ->
           exists s,
             shown !! k = Some s
             /\ HTTPScene.cycle_body show_headers show_status_codes (i + k) step
                = Py.Ok s.
Proof.
  induction 1 as [| step rest [Hh Hs] _ IH]; intros i.
  - exists []. split; [reflexivity |]. split; [reflexivity |].
    intros k step Hk. rewrite lookup_nil in Hk. discriminate Hk.
  - destruct (cycle_body_value show_headers show_status_codes i step Hh Hs)
      as (s & Hbody & _).
    destruct (IH (S i)) as (later & Hrun & Hlen & Hat).
    exists (s :: later). cbn [HTTPScene.cycle_loop]. rewrite Hbody. cbn [Py.bind].
    rewrite Hrun. cbn [Py.bind].
    split; [reflexivity |]. split; [cbn [length]; rewrite Hlen; reflexivity |].
    intros [| k] step' Hk; cbn in Hk.
    + injection Hk as <-. exists s. rewrite Nat.add_0_r. split; [reflexivity | exact Hbody].
    + destruct (Hat k step' Hk) as (s' & Hs' & Hb').
      exists s'. split; [exact Hs' |].
      replace (i + S k) with (S i + k) by lia. exact Hb'.
Qed.

(** X17.  When the headers of every step are a dictionary (where headers
    are shown) and its status code an integer (where status codes are
    shown), the cycle shows every step once, in order and numbered from 1.
    A step is shown as a request exactly when its direction is the string
    request, and as a response for every other direction; at most the first
    three headers are listed, none when headers are off; a response carries
    its status code and text unless status codes are off or the code is 0,
    and a code outside the table has the text Unknown. *)
Theorem http_cycle_shows_every_step (steps_data : list Py.dict)
    (show_headers show_status_codes : bool) :
  Forall (fun step =>
            (show_headers = true ->
             exists kv, Py.get step "headers" (Py.VDict []) = Py.VDict kv)
            /\ (show_status_codes = true ->
                exists c, Py.get step "status_code" (Py.VInt 200) = Py.VInt c))
         steps_data ->
  exists shown,
    HTTPScene.animate_http_cycle steps_data show_headers show_status_codes
    = Py.Ok shown
    /\ length shown = length steps_data
    /\ forall k step,
         steps_data !! k = Some step ->
         exists s,
           shown !! k = Some s
           /\ HTTPScene.step_number s = S k
           /\ match HTTPScene.step_exchange s with
              | HTTPScene.Request method url lines =>
                  Py.is_str (Py.get step "direction" (Py.VStr "request")) "request"
                  = true
                  /\ method = Py.get step "method" (Py.VStr "GET")
                  /\ url = Py.get step "url" (Py.VStr "/api/data")
                  /\ length lines <= 3
                  /\ (show_headers = false -> lines = [])
                  /\ (forall kv, show_headers = true ->
                                 Py.get step "headers" (Py.VDict []) = Py.VDict kv ->
                                 lines = take 3 kv)
              | HTTPScene.Response status lines =>
                  Py.is_str (Py.get step "direction" (Py.VStr "request")) "request"
                  = false
                  /\ length lines <= 3
                  /\ (show_headers = false -> lines = [])
                  /\ (forall kv, show_headers = true ->
                                 Py.get step "headers" (Py.VDict []) = Py.VDict kv ->
                                 lines = take 3 kv)
                  /\ (show_status_codes = false -> status = None)
                  /\ (forall c, show_status_codes = true ->
                                Py.get step "status_code" (Py.VInt 200) = Py.VInt c ->
                                status = if (c =? 0)%Z then None
                                         else Some (Py.VInt c,
                                                    default "Unknown"
                                                      (HTTPScene.lookup_code
                                                         (inject_Z c)
                                                         HTTPScene.status_texts)))
              end.
Proof.
  intros Hwf. unfold HTTPScene.animate_http_cycle.
  destruct (cycle_loop_value show_headers show_status_codes steps_data Hwf 0)
    as (shown & Hrun & Hlen & Hat).
  exists shown. split; [exact Hrun |]. split; [exact Hlen |].
  intros k step Hk. destruct (Hat k step Hk) as (s & Hs & Hbody).
  exists s. split; [exact Hs |].
  pose proof (Forall_lookup_1 _ _ _ _ Hwf Hk) as [Hh Hc].
  destruct (cycle_body_value show_headers show_status_codes (0 + k) step Hh Hc)
    as (s' & Hbody' & Hnum & Hex).
  rewrite Hbody in Hbody'. injection Hbody' as <-.
  split; [exact Hnum |].
  assert (Hcap : forall lines : list (string * Py.value),
            (show_headers = false -> lines = []) ->
            (forall kv, show_headers = true ->
                        Py.get step "headers" (Py.VDict []) = Py.VDict kv ->
                        lines = take 3 kv) ->
            length lines <= 3).
  { intros lines Hoff Hon. destruct show_headers.
    - destruct (Hh eq_refl) as [kv Hkv]. rewrite (Hon kv eq_refl Hkv).
      rewrite length_take. lia.
    - rewrite (Hoff eq_refl). cbn. lia. }
  destruct (HTTPScene.step_exchange s) as [method url lines | status lines].
  - destruct Hex as (Hd & Hm & Hu & Hoff & Hon).
    repeat split; try assumption. exact (Hcap lines Hoff Hon).
  - destruct Hex as (Hd & Hoff & Hon & Hsoff & Hson).
    repeat split; try assumption. exact (Hcap lines Hoff Hon).
Qed.

(** A table without a repeated code gives a number the text of the code it
    equals, and nothing to a number that equals none. *)
Lemma lookup_code_found (table : list (Z * string)) (code : Z) (text : string) (q : Q) :
  NoDup (fst <$> table) ->
  In (code, text) table ->
  (q == inject_Z code)%Q ->
  HTTPScene.lookup_code q table = Some text.
Proof.
  induction table as [| [code' text'] rest IH];
    cbn [fmap list_fmap fst In HTTPScene.lookup_code]; intros Hnd Hin Hq.
  - destruct Hin.
  - change (list_fmap _ _ fst ?l) with (fst <$> l) in Hnd.
    apply NoDup_cons in Hnd as [Hfresh Hnd].
    destruct (Qeq_bool (inject_Z code') q) eqn:Heq.
    + apply Qeq_bool_iff in Heq. rewrite Hq in Heq.
      assert (code' = code) as -> by (apply inject_Z_injective; exact Heq).
      destruct Hin as [[= <-] | Hin]; [reflexivity |].
      exfalso. apply Hfresh. apply list_elem_of_fmap. exists (code, text).
      split; [reflexivity |]. apply list_elem_of_In. exact Hin.
    + destruct Hin as [[= -> ->] | Hin].
      * exfalso. apply Qeq_bool_neq in Heq. apply Heq. symmetry. exact Hq.
      * apply IH; assumption.
Qed.

Lemma lookup_code_missing (table : list (Z * string)) (q : Q) :
  (forall code text, In (code, text) table -> ~ (q == inject_Z code)%Q) ->
  HTTPScene.lookup_code q table = None.
Proof.
  induction table as [| [code' text'] rest IH]; cbn [In HTTPScene.lookup_code];
    intros Hnone; [reflexivity |].
  destruct (Qeq_bool (inject_Z code') q) eqn:Heq.
  - exfalso. apply Qeq_bool_iff in Heq.
    apply (Hnone code' text' (or_introl eq_refl)). symmetry. exact Heq.
  - apply IH. intros code text Hin. apply (Hnone code text). right. exact Hin.
Qed.

Lemma status_texts_codes_distinct : NoDup (fst <$> HTTPScene.status_texts).
Proof. apply (bool_decide_unpack _). vm_compute. exact I. Qed.

(** X18.  The status text is looked up by number: a value that equals, as a
    number, one of the thirteen codes of the table has the text of that
    code (so 200.0 has the text of 200), and a number that equals none of
    them has the text Unknown, as has a string or [None]; a list or a
    dictionary cannot be looked up. *)
Theorem status_text_lookup (status_code : Py.value) :
  match status_code with
  | Py.VList _ | Py.VDict _ =>
      HTTPScene.get_status_text status_code = Raise Py.TypeError
  | _ =>
      match Builtins.numeric status_code with
      | Some q =>
          (forall code text,
             In (code, text) HTTPScene.status_texts ->
             (q == inject_Z code)%Q ->
             HTTPScene.get_status_text status_code = Ok text)
          /\ ((forall code text,
                 In (code, text) HTTPScene.status_texts ->
                 ~ (q == inject_Z code)%Q) ->
              HTTPScene.get_status_text status_code = Ok "Unknown")
      | None => HTTPScene.get_status_text status_code = Ok "Unknown"
      end
  end.
Proof.
  assert (Hnum : forall q,
            (forall code text,
               In (code, text) HTTPScene.status_texts ->
               (q == inject_Z code)%Q ->
               Ok (A := string)
                 (default "Unknown" (HTTPScene.lookup_code q HTTPScene.status_texts))
               = Ok text)
            /\ ((forall code text,
                   In (code, text) HTTPScene.status_texts ->
                   ~ (q == inject_Z code)%Q) ->
                Ok (A := string)
                  (default "Unknown" (HTTPScene.lookup_code q HTTPScene.status_texts))
                = Ok "Unknown")).
  { intros q. split.
    - intros code text Hin Hq.
      rewrite (lookup_code_found _ code text q status_texts_codes_distinct Hin Hq).
      reflexivity.
    - intros Hnone. rewrite (lookup_code_missing _ q Hnone). reflexivity. }
  destruct status_code as [| b | z | q | s | l | kv];
    cbn [HTTPScene.get_status_text Builtins.numeric];
    try reflexivity; apply Hnum.
Qed.

(** ** Name-resolution scene *)

Lemma split_not_nil (sep : ascii) (s : string) : Py.split sep s <> [].
Proof.
  destruct s as [| c rest]; cbn [Py.split]; [discriminate |].
  destruct (Ascii.eqb c sep); [discriminate |].
  destruct (Py.split sep rest); discriminate.
Qed.

Lemma split_without (sep : ascii) (s : string) :
  ~ In sep (list_ascii_of_string s) -> Py.split sep s = [s].
Proof.
  induction s as [| c rest IH]; cbn [Py.split list_ascii_of_string In]; intros Hno.
  - reflexivity.
  - destruct (Ascii.eqb_spec c sep) as [-> | Hne]; [exfalso; apply Hno; left; reflexivity |].
    rewrite IH; [reflexivity |]. intros Hin. apply Hno. right. exact Hin.
Qed.

Lemma split_with (sep : ascii) (s : string) :
  In sep (list_ascii_of_string s) -> 1 < length (Py.split sep s).
Proof.
  induction s as [| c rest IH]; cbn [Py.split list_ascii_of_string In]; intros Hin.
  - destruct Hin.
  - destruct (Ascii.eqb_spec c sep) as [-> | Hne].
    + cbn [length]. pose proof (split_not_nil sep rest) as Hnn.
      destruct (Py.split sep rest); [contradiction | cbn [length]; lia].
    + destruct Hin as [Heq | Hin]; [contradiction |].
      specialize (IH Hin). destruct (Py.split sep rest); cbn [length] in *; lia.
Qed.

(** X19.  For a domain with a dot, the label of the TLD server and the TLD
    named in the root server's referral are the same, the part after the
    last dot.  For a domain without a dot the server is labelled com and
    the referral names the domain itself; so the two agree exactly when
    the domain has a dot or is com. *)
Theorem dns_tld_label_and_referral (domain : string) :
  (In "."%char (list_ascii_of_string domain) ->
   DNSScene.tld_label domain = DNS.tld_of domain)
  /\ (~ In "."%char (list_ascii_of_string domain) ->
      DNSScene.tld_label domain = "com" /\ DNS.tld_of domain = domain)
  /\ (DNSScene.tld_label domain = DNS.tld_of domain
      <-> In "."%char (list_ascii_of_string domain) \/ domain = "com").
Proof.
  assert (Hwith : In "."%char (list_ascii_of_string domain) ->
                  DNSScene.tld_label domain = DNS.tld_of domain).
  { intros Hdot. unfold DNSScene.tld_label, DNS.tld_of.
    pose proof (split_with "." domain Hdot) as Hlen.
    destruct (Nat.ltb_spec 1 (length (Py.split "." domain))); [reflexivity | lia]. }
  assert (Hwithout : ~ In "."%char (list_ascii_of_string domain) ->
                     DNSScene.tld_label domain = "com" /\ DNS.tld_of domain = domain).
  { intros Hdot. unfold DNSScene.tld_label, DNS.tld_of.
    rewrite (split_without "." domain Hdot). split; reflexivity. }
  split; [exact Hwith |]. split; [exact Hwithout |].
  split.
  - intros Hsame.
    destruct (in_dec ascii_dec "."%char (list_ascii_of_string domain)) as [Hdot | Hdot];
      [left; exact Hdot |].
    right. destruct (Hwithout Hdot) as [Hlabel Hreferral]. congruence.
  - intros [Hdot | ->]; [exact (Hwith Hdot) | reflexivity].
Qed.

(** X20.  The arrows of the resolution.  The scene always has seven steps,
    the first from the client to the cache.  When the cache is drawn, every
    arrow joins two different places; when it is not, the cache stands for
    the client and the first arrow starts and ends at the same place. *)
Theorem dns_arrows_endpoints (domain : string) (show_timing : bool) :
  (length (DNSScene.arrows domain true show_timing) = 7
   /\ Forall (fun a => ~ DNSScene.same_point (DNSScene.arrow_from a)
                                             (DNSScene.arrow_to a))
             (DNSScene.arrows domain true show_timing))
  /\ (length (DNSScene.arrows domain false show_timing) = 7
      /\ exists a rest,
           DNSScene.arrows domain false show_timing = a :: rest
           /\ DNSScene.same_point (DNSScene.arrow_from a) (DNSScene.arrow_to a)
           /\ Forall (fun a => ~ DNSScene.same_point (DNSScene.arrow_from a)
                                                     (DNSScene.arrow_to a))
                     rest).
Proof.
  split.
  - split; [reflexivity |].
    repeat constructor; cbn; intros [Hx Hy]; vm_compute in Hx; discriminate Hx.
  - split; [reflexivity |].
    eexists _, _. split; [reflexivity |]. split.
    + split; reflexivity.
    + repeat constructor; cbn; intros [Hx Hy]; vm_compute in Hx; discriminate Hx.
Qed.

(** ** The service and the class it asks for *)

Lemma chars_of_append (a b : string) :
  list_ascii_of_string (a +:+ b) = list_ascii_of_string a ++ list_ascii_of_string b.
Proof.
  induction a as [| c a IH]; cbn; [reflexivity | rewrite <- IH; reflexivity].
Qed.

Lemma is_identifier_prefix (p s : string) :
  Service.is_ascii_identifier p = true ->
  Service.is_ascii_identifier (p +:+ s)
  = forallb Service.is_name_char (list_ascii_of_string s).
Proof.
  destruct p as [| c p]; [discriminate |].
  change (String c p +:+ s) with (String c (p +:+ s)).
  unfold Service.is_ascii_identifier.
  intros Hp. apply andb_true_iff in Hp as [Hc Hp].
  rewrite Hc, chars_of_append, forallb_app, Hp. reflexivity.
Qed.

Lemma replace_hyphen_chars (animation_id : string) :
  forallb Service.is_name_char
    (list_ascii_of_string (Py.replace "-" "_" animation_id))
  = forallb (fun c => Service.is_id_char c || Ascii.eqb c "_")
      (list_ascii_of_string animation_id).
Proof.
  induction animation_id as [| c rest IH];
    cbn [Py.replace list_ascii_of_string forallb]; [reflexivity |].
  rewrite IH. f_equal.
  unfold Service.is_name_char, Service.is_id_char.
  destruct (Ascii.eqb_spec c "-") as [-> | Hne]; [reflexivity |].
  destruct (Service.is_letter c), (Py.is_digit c), (Ascii.eqb c "_"); reflexivity.
Qed.

Lemma replace_keeps_ascii (animation_id : string) :
  forallb Service.is_ascii (list_ascii_of_string animation_id) = true ->
  forallb Service.is_ascii
    (list_ascii_of_string (Py.replace "-" "_" animation_id)) = true.
Proof.
  induction animation_id as [| c rest IH];
    cbn [Py.replace list_ascii_of_string forallb]; [reflexivity |].
  intros Hall. apply andb_true_iff in Hall as [Hc Hrest].
  rewrite (IH Hrest), andb_true_r.
  destruct (Ascii.eqb c "-"); [reflexivity | exact Hc].
Qed.

(** X21.  The scene that the service asks the renderer for is the class
    that the template of the same family declares, for every identifier.
    For an animation identifier of ASCII characters that name is ASCII
    too, and it is an identifier of the language exactly when the
    animation identifier is made of letters, digits, hyphens and
    underscores, as a UUID is. *)
Theorem scene_name_is_class_name (f : family) (animation_id : string) :
  forallb Service.is_ascii (list_ascii_of_string animation_id) = true ->
  Service.requested_scene f animation_id = Service.emitted_class f animation_id
  /\ forallb Service.is_ascii
       (list_ascii_of_string (Service.emitted_class f animation_id)) = true
  /\ Service.is_ascii_identifier (Service.emitted_class f animation_id)
     = forallb (fun c => Service.is_id_char c || Ascii.eqb c "_")
         (list_ascii_of_string animation_id).
Proof.
  intros Hascii.
  split; [destruct f; reflexivity |].
  split.
  - destruct f; cbn [Service.emitted_class];
      rewrite chars_of_append, forallb_app, (replace_keeps_ascii _ Hascii);
      reflexivity.
  - rewrite <- replace_hyphen_chars.
    destruct f; cbn [Service.emitted_class];
      apply is_identifier_prefix; vm_compute; reflexivity.
Qed.

(** ** The exception of the data-structure generator *)

(** X4.  [DataStructureGenerator.generate_script] raises on every request,
    and the request's type alone decides the exception: [TypeError] for a
    list or a dictionary, which cannot be looked up in the complexity
    table; [AttributeError] for any other value that is not a string, which
    has no [replace]; and [ValueError] for every string, known kind or not,
    from the dictionary display left with single braces in the template. *)
Theorem data_structure_generator_exception
    (params : Py.dict) (animation_id : string) (amb : Gen.Ambient) :
  fst (call DataStructureKind params animation_id amb)
  = Raise match Py.get params "type" (Py.VStr "array") with
          | Py.VStr _ => Py.ValueError
          | Py.VList _ | Py.VDict _ => Py.TypeError
          | _ => Py.AttributeError "replace"
          end.
Proof.
  unfold call, generate_script, DataStructure.generate_script.
  unfold Gen.bind at 1. unfold Gen.param_get at 1. cbn [Gen.request].
  destruct (Py.get params "type" (Py.VStr "array")) as [| b | z | q | s | l | kv];
    try reflexivity.
  destruct (complexity_rows s) as (a & b & c & d & e & Hrow).
  cbv [Gen.bind Gen.param_get Gen.lift DataStructure.get_complexity_data
       DataStructure.title_field].
  rewrite Hrow. cbn [DataStructure.complexity_row Py.subscript Py.assoc String.eqb
                     Ascii.eqb Bool.eqb].
  rewrite complexities_field_raises. reflexivity.
Qed.

(** ** The properties on inputs of the tests *)



(** Data without a positive item and with a zero. *)
Lemma bubble_sort_zero_maximum_witness :
  Sorting.py_max Examples.no_positive_data = Ok 0%Z
  /\ Sorting.animate_bubble_sort Examples.no_positive_data
     = Raise Py.ZeroDivisionError.
Proof.
  assert (Hmax : Sorting.py_max Examples.no_positive_data = Ok 0%Z) by reflexivity.
  split; [exact Hmax |].
  exact (bubble_sort_zero_maximum Examples.no_positive_data Hmax).
Defined.

(** Two accesses on the array of 1 to 5. *)
Lemma array_access_highlights_witness :
  exists steps,
    DataStructure.perform_array_operations Examples.access_operations
      (DataStructure.create_boxes (Reference.one_to 5))
    = Ok steps
    /\ length steps = 2.
Proof.
  assert (Hops : forall op, In op Examples.access_operations ->
            exists i,
              Py.is_str (Py.get op "type" (Py.VStr "access")) "access" = true
              /\ Py.get op "index" (Py.VInt 0) = Py.VInt i
              /\ (- Z.of_nat (length (Reference.one_to 5)) <= i
                  < Z.of_nat (length (Reference.one_to 5)))%Z).
  { intros op [<- | [<- | []]].
    - exists 2%Z. split; [reflexivity |]. split; [reflexivity |]. cbn. lia.
    - exists (-1)%Z. split; [reflexivity |]. split; [reflexivity |]. cbn. lia. }
  destruct (array_access_highlights (Reference.one_to 5) Examples.access_operations Hops)
    as (steps & Hrun & Hlen & _).
  exists steps. split; [exact Hrun | exact Hlen].
Defined.

(** The update of the array example. *)
Lemma array_update_or_search_aborts_witness :
  exists e,
    DataStructure.perform_array_operations [Reference.update_operation]
      (DataStructure.create_boxes (Reference.one_to 5))
    = Raise e.
Proof.
  apply (array_update_or_search_aborts [Reference.update_operation]
           (DataStructure.create_boxes (Reference.one_to 5))).
  apply Exists_cons_hd. right. split; reflexivity.
Defined.

(** Boxes 1 and 3 of the array of 1 to 5. *)
Lemma array_boxes_apart_witness :
  exists bi bj,
    DataStructure.create_boxes (Reference.one_to 5) !! 1 = Some bi
    /\ DataStructure.create_boxes (Reference.one_to 5) !! 3 = Some bj
    /\ (Geometry.vx (DataStructure.cell_center bi) + Shapes.array_box_width / 2
        < Geometry.vx (DataStructure.cell_center bj) - Shapes.array_box_width / 2)%Q
    /\ (Geometry.vx (DataStructure.cell_center bi)
        + Geometry.vx (DataStructure.cell_center bj) == 0)%Q.
Proof.
  eexists _, _. split; [reflexivity |]. split; [reflexivity |].
  assert (Hlt : 1 < 3) by lia.
  destruct (array_boxes_apart (Reference.one_to 5) 1 3 _ _ Hlt eq_refl eq_refl)
    as (Hapart & _ & Hcentred).
  split; [exact Hapart |]. apply Hcentred. reflexivity.
Defined.

(** The flow of the five steps A to E, drawn as a linear flow. *)
Lemma linear_flow_layout_witness :
  exists scene,
    Flow.create_linear_flow Reference.five_steps false = Ok scene
    /\ length (Flow.step_objects scene) = 5
    /\ length (Flow.arrows scene) = 4.
Proof.
  destruct (linear_flow_layout Reference.five_steps false)
    as (scene & Hscene & Hobjects & Harrows & _).
  - repeat constructor.
  - exists scene. split; [exact Hscene |]. split; [exact Hobjects | exact Harrows].
Defined.


(** The authentication flow: the access granted stands right of the
    decision, which is the second step of the main branch. *)
Lemma branching_sides_shared_witness :
  exists step c dflt s,
    filter (fun s => Flow.on_main s = true) Examples.authentication_flow !! 1
    = Some step
    /\ Py.is_str (Py.get step "type" (Py.VStr "process")) "decision" = true
    /\ Flow.first_with c
         (filter (fun s => Flow.on_main s <> true) Examples.authentication_flow)
       = Some s
    /\ Py.VStr "Grant Access" = Py.get s "name" (Py.VStr dflt).
Proof.
  destruct (branching_sides_shared Examples.authentication_flow false _ _ 1
              (Py.VStr "Grant Access")
              (Geometry.vadd (Geometry.RIGHT 3) (Geometry.UP (Flow.main_y 1)))
              eq_refl)
    as (step & c & dflt & s & Hstep & Hdec & Hfind & Hname & _).
  { left. right. right. left. reflexivity. }
  exists step, c, dflt, s. repeat split; assumption.
Defined.

(** The summary of the authentication flow. *)
Lemma process_summary_counts_witness :
  exists lines,
    Flow.show_process_summary Examples.authentication_flow
    = Ok (Some {| Flow.total_steps := 5; Flow.type_lines := lines |})
    /\ sum_list (snd <$> lines) = 5
    /\ In ("process", 2) lines.
Proof.
  destruct (process_summary_counts Examples.authentication_flow)
    as (lines & Hrun & _ & Hsum & Hlines).
  - discriminate.
  - repeat constructor.
  - exists lines. split; [exact Hrun |]. split; [exact Hsum |].
    apply Hlines. split; [reflexivity | lia].
Defined.

(** A step whose type is a number. *)
Lemma process_summary_rejects_witness :
  Flow.show_process_summary Examples.numbered_type_flow
  = Raise (Py.AttributeError "title").
Proof.
  apply (process_summary_rejects Examples.numbered_type_flow).
  apply Exists_cons_tl. apply Exists_cons_hd. reflexivity.
Defined.

(** The login request and its answer, headers and status codes shown. *)
Lemma http_cycle_shows_every_step_witness :
  exists shown,
    HTTPScene.animate_http_cycle Examples.login_exchange true true = Ok shown
    /\ length shown = 2.
Proof.
  destruct (http_cycle_shows_every_step Examples.login_exchange true true)
    as (shown & Hrun & Hlen & _).
  - repeat constructor; intros _; eexists; reflexivity.
  - exists shown. split; [exact Hrun | exact Hlen].
Defined.

(** The identifier of the array test. *)
Lemma scene_name_is_class_name_witness :
  Service.requested_scene DataStructureKind "array-test" = "DataStructure_array_test"
  /\ Service.is_ascii_identifier (Service.emitted_class DataStructureKind "array-test")
     = true.
Proof.
  destruct (scene_name_is_class_name DataStructureKind "array-test" eq_refl)
    as (Hsame & _ & Hidentifier).
  split; [reflexivity |]. rewrite Hidentifier. reflexivity.
Defined.

